(** * Heidenhain Klartext post-processor: model and verified properties

    Shallow embedding of [Mod/CAM/Path/Post/scripts/heidenhain_post.py] and of
    the routines of its sibling [refactored_heidenhain_post.py] that differ
    from it: coolant, program frame, tool list and line numbers.

    Conventions of the embedding.
    - The [values] dictionary has a fixed set of keys; it is a record whose
      fields carry the keys' names.  The five keys the script writes while it
      runs ([MOTION_MODE], [spindle_state], [spindle_dir], [coolant_mode],
      [line_number]) have setters.
    - [gcode] is a Python list of strings that is mutated in place; every
      routine takes the buffer and returns the new buffer, [gcode.append(x)]
      being [g ++ [x]] and [gcode[i] = x] being [<[i:=x]> g].
    - [command.Parameters] and [current_parameters] are dictionaries from
      parameter letters to floats or strings: [gmap string pyval].
    - Finite floats are exact rationals ([Q]); [!=] is inequality of values,
      and the binary rounding of float addition is not modelled.
    - Strings are ASCII strings.
    - An uncaught Python exception is [Raise e]; a routine that can raise
      returns a [result].
    - [print] and [Path.Log] calls write to the console only and are left
      out, and so are the local variables that are set and never read
      ([drill_retract_mode], [swap_tool_change_order], the result of
      [ParseUtils.determine_adaptive_op]).
    - What the host application provides (units, job lookup, clock) is the
      interface [Host]. *)

From Stdlib Require Import ZArith QArith Ascii DecimalString.
From stdpp Require Import gmap strings list fin_maps.

(** ** Python string methods, on ASCII strings *)

Definition chr (n : nat) : ascii := Ascii.ascii_of_nat n.

(** [c in s] for a one-character [c] *)
Fixpoint has_char (c : ascii) (s : string) : bool :=
  match s with
  | EmptyString => false
  | String a s' => Ascii.eqb a c || has_char c s'
  end.

(** [s.rstrip(c)] for a one-character [c] *)
Fixpoint rstrip (c : ascii) (s : string) : string :=
  match s with
  | EmptyString => EmptyString
  | String a s' =>
      match rstrip c s' with
      | EmptyString => if Ascii.eqb a c then EmptyString else String a EmptyString
      | r => String a r
      end
  end.

(** [s.replace(c, d)] for one-character [c] and [d] *)
Fixpoint replace_char (c d : ascii) (s : string) : string :=
  match s with
  | EmptyString => EmptyString
  | String a s' => String (if Ascii.eqb a c then d else a) (replace_char c d s')
  end.

(** [s.replace(old, new)] for a non-empty [old]: occurrences are replaced from
    the left and do not overlap; [skip] counts the characters of an occurrence
    that remain to be passed over. *)
Fixpoint replace_from (old new : string) (skip : nat) (s : string) : string :=
  match s with
  | EmptyString => EmptyString
  | String a s' =>
      match skip with
      | S k => replace_from old new k s'
      | O =>
          if String.prefix old s
          then new +:+ replace_from old new (String.length old - 1) s'
          else String a (replace_from old new 0 s')
      end
  end.

Definition replace (old new : string) (s : string) : string :=
  replace_from old new 0 s.

(** [sub in s] *)
Fixpoint contains (sub : string) (s : string) : bool :=
  String.prefix sub s ||
  match s with
  | EmptyString => false
  | String _ s' => contains sub s'
  end.

(** [s.upper()] *)
Definition upper_char (a : ascii) : ascii :=
  let n := Ascii.nat_of_ascii a in
  if (97 <=? n)%nat && (n <=? 122)%nat then chr (n - 32) else a.

Fixpoint upper (s : string) : string :=
  match s with
  | EmptyString => EmptyString
  | String a s' => String (upper_char a) (upper s')
  end.

(** Line boundaries of [str.splitlines] among the ASCII characters:
    LF, VT, FF, CR, FS, GS, RS. *)
Definition is_linebreak (a : ascii) : bool :=
  let n := Ascii.nat_of_ascii a in
  ((10 <=? n)%nat && (n <=? 13)%nat) || ((28 <=? n)%nat && (n <=? 30)%nat).

(** [s.splitlines(False)]; [line] is the line read so far.  CR LF is one
    boundary, and a last line is kept only if it is not empty. *)
Fixpoint splitlines_from (line : string) (s : string) : list string :=
  match s with
  | EmptyString => if String.eqb line "" then [] else [line]
  | String a s' =>
      if is_linebreak a then
        match s' with
        | String b s'' =>
            if Ascii.eqb a (chr 13) && Ascii.eqb b (chr 10)
            then line :: splitlines_from "" s''
            else line :: splitlines_from "" s'
        | EmptyString => [line]
        end
      else splitlines_from (line +:+ String a "") s'
  end.

Definition splitlines (s : string) : list string := splitlines_from "" s.

(** [str(n)] for an integer *)
Definition str_int (n : Z) : string := NilZero.string_of_int (Z.to_int n).

(** [os.path.basename]: what follows the last slash *)
Fixpoint basename_from (name : string) (s : string) : string :=
  match s with
  | EmptyString => name
  | String a s' =>
      if Ascii.eqb a "/" then basename_from "" s'
      else basename_from (name +:+ String a "") s'
  end.

Definition basename (s : string) : string := basename_from "" s.

(** ** Fixed-point formatting of floats *)

(** The integer nearest to [a / b], ties to the even one. *)
Definition round_half_even (a : Z) (b : positive) : Z :=
  let q := (a / Z.pos b)%Z in
  let r := (a mod Z.pos b)%Z in
  match (2 * r ?= Z.pos b)%Z with
  | Lt => q
  | Gt => (q + 1)%Z
  | Eq => if Z.even q then q else (q + 1)%Z
  end.

Definition digit_char (d : Z) : ascii := chr (48 + Z.to_nat d).

(** The [n] low decimal digits of [z], most significant first. *)
Fixpoint digits_fixed (n : nat) (z : Z) : string :=
  match n with
  | O => EmptyString
  | S n' => digits_fixed n' (z / 10) +:+ String (digit_char (z mod 10)) ""
  end.

(** [format(x, "+.Nf")] when [plus] is set and [format(x, ".Nf")] otherwise:
    the sign, the integer digits and, for [N > 0], a point and [N] digits. *)
Definition format_f (plus : bool) (precision : nat) (x : Q) : string :=
  let scale := (10 ^ Z.of_nat precision)%Z in
  let n := round_half_even (Z.abs (Qnum x) * scale) (Qden x) in
  let sign := if (Qnum x <? 0)%Z then "-" else if plus then "+" else "" in
  let int_part := NilZero.string_of_uint (N.to_uint (Z.to_N (n / scale))) in
  match precision with
  | O => sign +:+ int_part
  | S _ => sign +:+ int_part +:+ "." +:+ digits_fixed precision (n mod scale)
  end.

(** ** Python values, exceptions *)

Inductive pyval : Type :=
| VNum (q : Q)
| VStr (s : string).

(** Python [a != b] on floats and strings; values of different types differ. *)
Definition py_ne (a b : pyval) : bool :=
  match a, b with
  | VNum x, VNum y => negb (Qeq_bool x y)
  | VStr s, VStr t => negb (String.eqb s t)
  | _, _ => true
  end.

Inductive exn : Type :=
| NameError
| KeyError
| TypeError
| AttributeError.

Inductive result (A : Type) : Type :=
| Ok (a : A)
| Raise (e : exn).
Arguments Ok {A} a.
Arguments Raise {A} e.

Global Instance result_ret : MRet result := fun A a => Ok a.

Global Instance result_bind : MBind result := fun A B k r =>
  match r with
  | Ok a => k a
  | Raise e => Raise e
  end.

(** [d[k]] on a dictionary: [KeyError] when the key is absent. *)
Definition getitem (d : gmap string pyval) (k : string) : result pyval :=
  match d !! k with
  | Some x => Ok x
  | None => Raise KeyError
  end.

(** [for x in l: body] threading a state through a body that can raise. *)
Fixpoint for_each {A S : Type} (body : S -> A -> result S) (l : list A) (s : S)
  : result S :=
  match l with
  | [] => Ok s
  | x :: l' => s' ← body s x; for_each body l' s'
  end.

(** ** Host objects *)

Record Command : Type := mkCommand {
  Name : string;
  Parameters : gmap string pyval
}.

Record ToolController : Type := mkToolController {
  ToolNumber : Z;
  SpindleDir : string;
  SpindleSpeed : Q
}.

(** A document object handed to the post-processor.  [Group] and [Path] are
    optional attributes ([hasattr]); [Path] holds [Path.Commands].  [ToolCtl]
    is present on tool controllers, the objects that carry [ToolNumber],
    [SpindleDir] and [SpindleSpeed]. *)
#[local] Unset Elimination Schemes.
Inductive PathObj : Type := mkPathObj {
  obj_Name : string;
  obj_Label : string;
  Group : option (list PathObj);
  Path : option (list Command);
  ToolCtl : option ToolController
}.
#[local] Set Elimination Schemes.

Record BoundBox : Type := mkBoundBox {
  XMin : Q; YMin : Q; ZMin : Q;
  XMax : Q; YMax : Q; ZMax : Q
}.

Record StockObj : Type := mkStockObj {
  Placement_Base : option (Q * Q * Q);
  StockType : string;
  Length : Q;
  Width : Q;
  Height : Q;
  Radius : Q
}.

Record Job : Type := mkJob {
  job_Label : option string;
  Stock : option StockObj
}.

Inductive UnitKind : Type := ULength | UVelocity.

(** [Units.Quantity(x, kind)] *)
Record Quantity : Type := mkQuantity {
  Value : Q;
  Unit : UnitKind
}.

(** What the script asks of the application it runs in, and of the Python
    runtime for printing a float. *)
Class Host : Type := {
  (** [float(number.getValueAs(unit))] *)
  getValueAs : string -> Quantity -> Q;
  (** [str(x)] for a float [x] *)
  str_float : Q -> string;
  findParentJob : PathObj -> Job;
  activeForOp : PathObj -> bool;
  coolantModeForOp : PathObj -> string;
  shapeBoundBox : StockObj -> BoundBox;
  (** [FreeCAD.ActiveDocument.FileName], when a document is open *)
  ActiveDocument : option string;
  (** [str(datetime.datetime.now())] *)
  now : string
}.

(** ** The [values] dictionary *)

Record Values : Type := mkValues {
  OUTPUT_COMMENTS : bool;
  OUTPUT_HEADER : bool;
  OUTPUT_BCNC : bool;
  OUTPUT_LINE_NUMBERS : bool;
  OUTPUT_TOOL_CHANGE : bool;
  OUTPUT_PATH_LABELS : bool;
  OUTPUT_BLANK_LINES : bool;
  OUTPUT_MACHINE_NAME : bool;
  LIST_TOOLS_IN_PREAMBLE : bool;
  SHOW_OPERATION_LABELS : bool;
  SHOW_MACHINE_UNITS : bool;
  STOP_SPINDLE_FOR_TOOL_CHANGE : bool;
  PGM_UPPERCASE : bool;
  SUPPORT_CYLINDER_STOCK : bool;
  DECIMAL_COMMAS : bool;
  NORMALIZE_PARAMETERS : bool;
  LINE_NUMBER_ON_COMMENTS : bool;
  ENABLE_COOLANT : bool;
  SUPPORT_FLOOD_COOLANT : bool;
  SUPPORT_MIST_COOLANT : bool;
  USE_FMAX : bool;
  MACHINE_NAME : string;
  POSTPROCESSOR_FILE_NAME : string;
  LINE_PREFIX : string;
  LINE_POSTFIX : string;
  COMMENT_PREFIX : string;
  COMMENT_POSTFIX : string;
  UNITS : string;
  UNIT_FORMAT : string;
  UNIT_SPEED_FORMAT : string;
  FINISH_LABEL : string;
  PREAMBLE : string;
  POSTAMBLE : string;
  SAFETYBLOCK : string;
  TOOLRETURN : string;
  PRE_OPERATION : string;
  POST_OPERATION : string;
  TOOL_CHANGE : string;
  PARAMETER_ORDER : list string;
  AXIS_PRECISION : nat;
  FEED_PRECISION : nat;
  SPINDLE_DECIMALS : nat;
  FMAX_SPEED : Q;
  LINE_INCREMENT : Z;
  MOTION_MODE : string;
  spindle_state : string;
  spindle_dir : string;
  coolant_mode : string;
  line_number : Z
}.

Definition set_MOTION_MODE (x : string) (v : Values) : Values :=
  {| OUTPUT_COMMENTS := OUTPUT_COMMENTS v; OUTPUT_HEADER := OUTPUT_HEADER v;
     OUTPUT_BCNC := OUTPUT_BCNC v;
     OUTPUT_LINE_NUMBERS := OUTPUT_LINE_NUMBERS v;
     OUTPUT_TOOL_CHANGE := OUTPUT_TOOL_CHANGE v;
     OUTPUT_PATH_LABELS := OUTPUT_PATH_LABELS v;
     OUTPUT_BLANK_LINES := OUTPUT_BLANK_LINES v;
     OUTPUT_MACHINE_NAME := OUTPUT_MACHINE_NAME v;
     LIST_TOOLS_IN_PREAMBLE := LIST_TOOLS_IN_PREAMBLE v;
     SHOW_OPERATION_LABELS := SHOW_OPERATION_LABELS v;
     SHOW_MACHINE_UNITS := SHOW_MACHINE_UNITS v;
     STOP_SPINDLE_FOR_TOOL_CHANGE := STOP_SPINDLE_FOR_TOOL_CHANGE v;
     PGM_UPPERCASE := PGM_UPPERCASE v;
     SUPPORT_CYLINDER_STOCK := SUPPORT_CYLINDER_STOCK v;
     DECIMAL_COMMAS := DECIMAL_COMMAS v;
     NORMALIZE_PARAMETERS := NORMALIZE_PARAMETERS v;
     LINE_NUMBER_ON_COMMENTS := LINE_NUMBER_ON_COMMENTS v;
     ENABLE_COOLANT := ENABLE_COOLANT v;
     SUPPORT_FLOOD_COOLANT := SUPPORT_FLOOD_COOLANT v;
     SUPPORT_MIST_COOLANT := SUPPORT_MIST_COOLANT v; USE_FMAX := USE_FMAX v;
     MACHINE_NAME := MACHINE_NAME v;
     POSTPROCESSOR_FILE_NAME := POSTPROCESSOR_FILE_NAME v;
     LINE_PREFIX := LINE_PREFIX v; LINE_POSTFIX := LINE_POSTFIX v;
     COMMENT_PREFIX := COMMENT_PREFIX v;
     COMMENT_POSTFIX := COMMENT_POSTFIX v; UNITS := UNITS v;
     UNIT_FORMAT := UNIT_FORMAT v; UNIT_SPEED_FORMAT := UNIT_SPEED_FORMAT v;
     FINISH_LABEL := FINISH_LABEL v; PREAMBLE := PREAMBLE v;
     POSTAMBLE := POSTAMBLE v; SAFETYBLOCK := SAFETYBLOCK v;
     TOOLRETURN := TOOLRETURN v; PRE_OPERATION := PRE_OPERATION v;
     POST_OPERATION := POST_OPERATION v; TOOL_CHANGE := TOOL_CHANGE v;
     PARAMETER_ORDER := PARAMETER_ORDER v;
     AXIS_PRECISION := AXIS_PRECISION v; FEED_PRECISION := FEED_PRECISION v;
     SPINDLE_DECIMALS := SPINDLE_DECIMALS v; FMAX_SPEED := FMAX_SPEED v;
     LINE_INCREMENT := LINE_INCREMENT v; MOTION_MODE := x;
     spindle_state := spindle_state v; spindle_dir := spindle_dir v;
     coolant_mode := coolant_mode v; line_number := line_number v |}.

Definition set_spindle_state (x : string) (v : Values) : Values :=
  {| OUTPUT_COMMENTS := OUTPUT_COMMENTS v; OUTPUT_HEADER := OUTPUT_HEADER v;
     OUTPUT_BCNC := OUTPUT_BCNC v;
     OUTPUT_LINE_NUMBERS := OUTPUT_LINE_NUMBERS v;
     OUTPUT_TOOL_CHANGE := OUTPUT_TOOL_CHANGE v;
     OUTPUT_PATH_LABELS := OUTPUT_PATH_LABELS v;
     OUTPUT_BLANK_LINES := OUTPUT_BLANK_LINES v;
     OUTPUT_MACHINE_NAME := OUTPUT_MACHINE_NAME v;
     LIST_TOOLS_IN_PREAMBLE := LIST_TOOLS_IN_PREAMBLE v;
     SHOW_OPERATION_LABELS := SHOW_OPERATION_LABELS v;
     SHOW_MACHINE_UNITS := SHOW_MACHINE_UNITS v;
     STOP_SPINDLE_FOR_TOOL_CHANGE := STOP_SPINDLE_FOR_TOOL_CHANGE v;
     PGM_UPPERCASE := PGM_UPPERCASE v;
     SUPPORT_CYLINDER_STOCK := SUPPORT_CYLINDER_STOCK v;
     DECIMAL_COMMAS := DECIMAL_COMMAS v;
     NORMALIZE_PARAMETERS := NORMALIZE_PARAMETERS v;
     LINE_NUMBER_ON_COMMENTS := LINE_NUMBER_ON_COMMENTS v;
     ENABLE_COOLANT := ENABLE_COOLANT v;
     SUPPORT_FLOOD_COOLANT := SUPPORT_FLOOD_COOLANT v;
     SUPPORT_MIST_COOLANT := SUPPORT_MIST_COOLANT v; USE_FMAX := USE_FMAX v;
     MACHINE_NAME := MACHINE_NAME v;
     POSTPROCESSOR_FILE_NAME := POSTPROCESSOR_FILE_NAME v;
     LINE_PREFIX := LINE_PREFIX v; LINE_POSTFIX := LINE_POSTFIX v;
     COMMENT_PREFIX := COMMENT_PREFIX v;
     COMMENT_POSTFIX := COMMENT_POSTFIX v; UNITS := UNITS v;
     UNIT_FORMAT := UNIT_FORMAT v; UNIT_SPEED_FORMAT := UNIT_SPEED_FORMAT v;
     FINISH_LABEL := FINISH_LABEL v; PREAMBLE := PREAMBLE v;
     POSTAMBLE := POSTAMBLE v; SAFETYBLOCK := SAFETYBLOCK v;
     TOOLRETURN := TOOLRETURN v; PRE_OPERATION := PRE_OPERATION v;
     POST_OPERATION := POST_OPERATION v; TOOL_CHANGE := TOOL_CHANGE v;
     PARAMETER_ORDER := PARAMETER_ORDER v;
     AXIS_PRECISION := AXIS_PRECISION v; FEED_PRECISION := FEED_PRECISION v;
     SPINDLE_DECIMALS := SPINDLE_DECIMALS v; FMAX_SPEED := FMAX_SPEED v;
     LINE_INCREMENT := LINE_INCREMENT v; MOTION_MODE := MOTION_MODE v;
     spindle_state := x; spindle_dir := spindle_dir v;
     coolant_mode := coolant_mode v; line_number := line_number v |}.

Definition set_spindle_dir (x : string) (v : Values) : Values :=
  {| OUTPUT_COMMENTS := OUTPUT_COMMENTS v; OUTPUT_HEADER := OUTPUT_HEADER v;
     OUTPUT_BCNC := OUTPUT_BCNC v;
     OUTPUT_LINE_NUMBERS := OUTPUT_LINE_NUMBERS v;
     OUTPUT_TOOL_CHANGE := OUTPUT_TOOL_CHANGE v;
     OUTPUT_PATH_LABELS := OUTPUT_PATH_LABELS v;
     OUTPUT_BLANK_LINES := OUTPUT_BLANK_LINES v;
     OUTPUT_MACHINE_NAME := OUTPUT_MACHINE_NAME v;
     LIST_TOOLS_IN_PREAMBLE := LIST_TOOLS_IN_PREAMBLE v;
     SHOW_OPERATION_LABELS := SHOW_OPERATION_LABELS v;
     SHOW_MACHINE_UNITS := SHOW_MACHINE_UNITS v;
     STOP_SPINDLE_FOR_TOOL_CHANGE := STOP_SPINDLE_FOR_TOOL_CHANGE v;
     PGM_UPPERCASE := PGM_UPPERCASE v;
     SUPPORT_CYLINDER_STOCK := SUPPORT_CYLINDER_STOCK v;
     DECIMAL_COMMAS := DECIMAL_COMMAS v;
     NORMALIZE_PARAMETERS := NORMALIZE_PARAMETERS v;
     LINE_NUMBER_ON_COMMENTS := LINE_NUMBER_ON_COMMENTS v;
     ENABLE_COOLANT := ENABLE_COOLANT v;
     SUPPORT_FLOOD_COOLANT := SUPPORT_FLOOD_COOLANT v;
     SUPPORT_MIST_COOLANT := SUPPORT_MIST_COOLANT v; USE_FMAX := USE_FMAX v;
     MACHINE_NAME := MACHINE_NAME v;
     POSTPROCESSOR_FILE_NAME := POSTPROCESSOR_FILE_NAME v;
     LINE_PREFIX := LINE_PREFIX v; LINE_POSTFIX := LINE_POSTFIX v;
     COMMENT_PREFIX := COMMENT_PREFIX v;
     COMMENT_POSTFIX := COMMENT_POSTFIX v; UNITS := UNITS v;
     UNIT_FORMAT := UNIT_FORMAT v; UNIT_SPEED_FORMAT := UNIT_SPEED_FORMAT v;
     FINISH_LABEL := FINISH_LABEL v; PREAMBLE := PREAMBLE v;
     POSTAMBLE := POSTAMBLE v; SAFETYBLOCK := SAFETYBLOCK v;
     TOOLRETURN := TOOLRETURN v; PRE_OPERATION := PRE_OPERATION v;
     POST_OPERATION := POST_OPERATION v; TOOL_CHANGE := TOOL_CHANGE v;
     PARAMETER_ORDER := PARAMETER_ORDER v;
     AXIS_PRECISION := AXIS_PRECISION v; FEED_PRECISION := FEED_PRECISION v;
     SPINDLE_DECIMALS := SPINDLE_DECIMALS v; FMAX_SPEED := FMAX_SPEED v;
     LINE_INCREMENT := LINE_INCREMENT v; MOTION_MODE := MOTION_MODE v;
     spindle_state := spindle_state v; spindle_dir := x;
     coolant_mode := coolant_mode v; line_number := line_number v |}.

Definition set_coolant_mode (x : string) (v : Values) : Values :=
  {| OUTPUT_COMMENTS := OUTPUT_COMMENTS v; OUTPUT_HEADER := OUTPUT_HEADER v;
     OUTPUT_BCNC := OUTPUT_BCNC v;
     OUTPUT_LINE_NUMBERS := OUTPUT_LINE_NUMBERS v;
     OUTPUT_TOOL_CHANGE := OUTPUT_TOOL_CHANGE v;
     OUTPUT_PATH_LABELS := OUTPUT_PATH_LABELS v;
     OUTPUT_BLANK_LINES := OUTPUT_BLANK_LINES v;
     OUTPUT_MACHINE_NAME := OUTPUT_MACHINE_NAME v;
     LIST_TOOLS_IN_PREAMBLE := LIST_TOOLS_IN_PREAMBLE v;
     SHOW_OPERATION_LABELS := SHOW_OPERATION_LABELS v;
     SHOW_MACHINE_UNITS := SHOW_MACHINE_UNITS v;
     STOP_SPINDLE_FOR_TOOL_CHANGE := STOP_SPINDLE_FOR_TOOL_CHANGE v;
     PGM_UPPERCASE := PGM_UPPERCASE v;
     SUPPORT_CYLINDER_STOCK := SUPPORT_CYLINDER_STOCK v;
     DECIMAL_COMMAS := DECIMAL_COMMAS v;
     NORMALIZE_PARAMETERS := NORMALIZE_PARAMETERS v;
     LINE_NUMBER_ON_COMMENTS := LINE_NUMBER_ON_COMMENTS v;
     ENABLE_COOLANT := ENABLE_COOLANT v;
     SUPPORT_FLOOD_COOLANT := SUPPORT_FLOOD_COOLANT v;
     SUPPORT_MIST_COOLANT := SUPPORT_MIST_COOLANT v; USE_FMAX := USE_FMAX v;
     MACHINE_NAME := MACHINE_NAME v;
     POSTPROCESSOR_FILE_NAME := POSTPROCESSOR_FILE_NAME v;
     LINE_PREFIX := LINE_PREFIX v; LINE_POSTFIX := LINE_POSTFIX v;
     COMMENT_PREFIX := COMMENT_PREFIX v;
     COMMENT_POSTFIX := COMMENT_POSTFIX v; UNITS := UNITS v;
     UNIT_FORMAT := UNIT_FORMAT v; UNIT_SPEED_FORMAT := UNIT_SPEED_FORMAT v;
     FINISH_LABEL := FINISH_LABEL v; PREAMBLE := PREAMBLE v;
     POSTAMBLE := POSTAMBLE v; SAFETYBLOCK := SAFETYBLOCK v;
     TOOLRETURN := TOOLRETURN v; PRE_OPERATION := PRE_OPERATION v;
     POST_OPERATION := POST_OPERATION v; TOOL_CHANGE := TOOL_CHANGE v;
     PARAMETER_ORDER := PARAMETER_ORDER v;
     AXIS_PRECISION := AXIS_PRECISION v; FEED_PRECISION := FEED_PRECISION v;
     SPINDLE_DECIMALS := SPINDLE_DECIMALS v; FMAX_SPEED := FMAX_SPEED v;
     LINE_INCREMENT := LINE_INCREMENT v; MOTION_MODE := MOTION_MODE v;
     spindle_state := spindle_state v; spindle_dir := spindle_dir v;
     coolant_mode := x; line_number := line_number v |}.

Definition set_line_number (x : Z) (v : Values) : Values :=
  {| OUTPUT_COMMENTS := OUTPUT_COMMENTS v; OUTPUT_HEADER := OUTPUT_HEADER v;
     OUTPUT_BCNC := OUTPUT_BCNC v;
     OUTPUT_LINE_NUMBERS := OUTPUT_LINE_NUMBERS v;
     OUTPUT_TOOL_CHANGE := OUTPUT_TOOL_CHANGE v;
     OUTPUT_PATH_LABELS := OUTPUT_PATH_LABELS v;
     OUTPUT_BLANK_LINES := OUTPUT_BLANK_LINES v;
     OUTPUT_MACHINE_NAME := OUTPUT_MACHINE_NAME v;
     LIST_TOOLS_IN_PREAMBLE := LIST_TOOLS_IN_PREAMBLE v;
     SHOW_OPERATION_LABELS := SHOW_OPERATION_LABELS v;
     SHOW_MACHINE_UNITS := SHOW_MACHINE_UNITS v;
     STOP_SPINDLE_FOR_TOOL_CHANGE := STOP_SPINDLE_FOR_TOOL_CHANGE v;
     PGM_UPPERCASE := PGM_UPPERCASE v;
     SUPPORT_CYLINDER_STOCK := SUPPORT_CYLINDER_STOCK v;
     DECIMAL_COMMAS := DECIMAL_COMMAS v;
     NORMALIZE_PARAMETERS := NORMALIZE_PARAMETERS v;
     LINE_NUMBER_ON_COMMENTS := LINE_NUMBER_ON_COMMENTS v;
     ENABLE_COOLANT := ENABLE_COOLANT v;
     SUPPORT_FLOOD_COOLANT := SUPPORT_FLOOD_COOLANT v;
     SUPPORT_MIST_COOLANT := SUPPORT_MIST_COOLANT v; USE_FMAX := USE_FMAX v;
     MACHINE_NAME := MACHINE_NAME v;
     POSTPROCESSOR_FILE_NAME := POSTPROCESSOR_FILE_NAME v;
     LINE_PREFIX := LINE_PREFIX v; LINE_POSTFIX := LINE_POSTFIX v;
     COMMENT_PREFIX := COMMENT_PREFIX v;
     COMMENT_POSTFIX := COMMENT_POSTFIX v; UNITS := UNITS v;
     UNIT_FORMAT := UNIT_FORMAT v; UNIT_SPEED_FORMAT := UNIT_SPEED_FORMAT v;
     FINISH_LABEL := FINISH_LABEL v; PREAMBLE := PREAMBLE v;
     POSTAMBLE := POSTAMBLE v; SAFETYBLOCK := SAFETYBLOCK v;
     TOOLRETURN := TOOLRETURN v; PRE_OPERATION := PRE_OPERATION v;
     POST_OPERATION := POST_OPERATION v; TOOL_CHANGE := TOOL_CHANGE v;
     PARAMETER_ORDER := PARAMETER_ORDER v;
     AXIS_PRECISION := AXIS_PRECISION v; FEED_PRECISION := FEED_PRECISION v;
     SPINDLE_DECIMALS := SPINDLE_DECIMALS v; FMAX_SPEED := FMAX_SPEED v;
     LINE_INCREMENT := LINE_INCREMENT v; MOTION_MODE := MOTION_MODE v;
     spindle_state := spindle_state v; spindle_dir := spindle_dir v;
     coolant_mode := coolant_mode v; line_number := x |}.


(** The buffer of output lines *)
Abbreviation Gcode := (list string) (only parsing).

Definition create_comment (values : Values) (comment_string : string) : string :=
  COMMENT_PREFIX values +:+ comment_string +:+ COMMENT_POSTFIX values.

(** ** Coolant *)

(** The [match] of [output_coolant_update] on the requested mode and the two
    support flags: the mode used and the command, or [None] when no case but
    the wildcard applies. *)
Definition coolant_case (mode : string) (flood mist : bool)
  : option (string * string) :=
  if String.eqb mode "None" then Some ("None", "M9")
  else if (String.eqb mode "Flood" && flood)
          || (String.eqb mode "Mist" && flood && negb mist)
       then Some ("Flood", "M8")
  else if (String.eqb mode "Mist" && mist)
          || (String.eqb mode "Flood" && negb flood && mist)
       then Some ("Mist", "M7")
  else None.

Definition coolant_comment (new_coolant_mode used_coolant_mode : string) : string :=
  if String.eqb new_coolant_mode "None" then "Coolant Off"
  else if String.eqb new_coolant_mode used_coolant_mode
       then "Coolant On: " +:+ new_coolant_mode
  else "Coolant On: " +:+ new_coolant_mode +:+ " not available, using "
         +:+ used_coolant_mode.

Definition output_coolant_update `{Host} (values : Values) (gcode : Gcode)
    (obj : PathObj) : Values * Gcode :=
  let new_coolant_mode := coolantModeForOp obj in
  let prev_coolant_mode := coolant_mode values in
  if ENABLE_COOLANT values && negb (String.eqb prev_coolant_mode new_coolant_mode)
  then
    match coolant_case new_coolant_mode (SUPPORT_FLOOD_COOLANT values)
            (SUPPORT_MIST_COOLANT values) with
    | None => (values, gcode)
    | Some (used_coolant_mode, command) =>
        let gcode :=
          if OUTPUT_COMMENTS values
          then gcode ++ [create_comment values
                           (coolant_comment new_coolant_mode used_coolant_mode)]
          else gcode in
        (set_coolant_mode used_coolant_mode values, gcode ++ [command])
    end
  else (values, gcode).

(** The routine of the same name in [refactored_heidenhain_post.py]; it is
    given the mode and keeps no record of it. *)
Module Refactored.

Definition create_comment (values : Values) (comment_string : string) : string :=
  COMMENT_PREFIX values +:+ comment_string +:+ COMMENT_POSTFIX values.

Definition output_coolant_update (values : Values) (gcode : Gcode)
    (coolant_mode : string) : Gcode :=
  if ENABLE_COOLANT values
  then
    let flood := SUPPORT_FLOOD_COOLANT values in
    let mist := SUPPORT_MIST_COOLANT values in
    let choice : option (string * string) :=
      if String.eqb coolant_mode "None" then Some ("None", "M9")
      else if (String.eqb coolant_mode "Flood" && flood)
              || (String.eqb coolant_mode "Mist" && flood && negb mist)
           then Some ("Flood", "M8")
      else if (String.eqb coolant_mode "Mist" && mist)
              || (String.eqb coolant_mode "Flood" && negb flood && mist)
           then Some ("Mist", "M7")
      else None in
    match choice with
    | None => gcode
    | Some (used_coolant_mode, command) =>
        let comment :=
          if String.eqb coolant_mode "None" then "Coolant Off"
          else if String.eqb coolant_mode used_coolant_mode
               then "Coolant On: " +:+ coolant_mode
          else "Coolant On: " +:+ coolant_mode +:+ " not available, using "
                 +:+ used_coolant_mode in
        let gcode :=
          if OUTPUT_COMMENTS values
          then gcode ++ [create_comment values comment]
          else gcode in
        gcode ++ [command]
    end
  else gcode.

End Refactored.

(** ** Number formatting *)

(** [Units.Quantity(x, kind)] for a dictionary value; a string is no number. *)
Definition Units_Quantity (x : pyval) (kind : UnitKind) : result Quantity :=
  match x with
  | VNum q => Ok (mkQuantity q kind)
  | VStr _ => Raise TypeError
  end.

Definition format_parameter (values : Values) (value : string) : string :=
  let value :=
    if NORMALIZE_PARAMETERS values && has_char "." value
    then rstrip "." (rstrip "0" value)
    else value in
  let value :=
    if DECIMAL_COMMAS values then replace_char "." "," value else value in
  value.

Definition format_for_axis `{Host} (values : Values) (number : Quantity) : string :=
  format_parameter values
    (format_f true (AXIS_PRECISION values)
       (getValueAs (UNIT_FORMAT values) number)).

Definition format_for_feed `{Host} (values : Values) (number : Quantity) : string :=
  format_parameter values
    (format_f false (FEED_PRECISION values)
       (getValueAs (UNIT_SPEED_FORMAT values) number)).

Definition format_for_spindle (values : Values) (number : Quantity) : string :=
  format_parameter values (format_f false (SPINDLE_DECIMALS values) (Value number)).

(** [str(x)] for a dictionary value *)
Definition py_str `{Host} (x : pyval) : string :=
  match x with
  | VStr s => s
  | VNum q => str_float q
  end.

(** [a + b]: floats add, strings concatenate, anything else is a type error. *)
Definition py_add (a b : pyval) : result pyval :=
  match a, b with
  | VNum x, VNum y => Ok (VNum (x + y))
  | VStr s, VStr t => Ok (VStr (s +:+ t))
  | _, _ => Raise TypeError
  end.

(** [x == f] for a dictionary value and a float *)
Definition py_eq_num (x : pyval) (f : Q) : bool :=
  match x with
  | VNum q => Qeq_bool q f
  | VStr _ => false
  end.

(** ** Linear moves *)

Definition is_axis (p : string) : bool :=
  String.eqb p "X" || String.eqb p "Y" || String.eqb p "Z"
  || String.eqb p "A" || String.eqb p "B" || String.eqb p "C".

(** The word for the feed rate, shared in shape by lines and arcs. *)
Definition feed_word `{Host} (values : Values) (FMAX_SPEED : Q) (f : pyval)
  : result string :=
  if USE_FMAX values && py_eq_num f FMAX_SPEED then Ok " F MAX"
  else q ← Units_Quantity f UVelocity; Ok (" F" +:+ format_for_feed values q).

(** The state of the parameter loop of [output_line]: the line built so far,
    [current_parameters] and [command.Parameters]. *)
Definition LineState : Type :=
  string * gmap string pyval * gmap string pyval.

(** One turn of [for p in values["PARAMETER_ORDER"]] in [output_line]. *)
Definition output_line_param `{Host} (values : Values) (command_Name : string)
    (FMAX_SPEED : Q) (st : LineState) (p : string) : result LineState :=
  let '(line, current_parameters, Parameters) := st in
  let Parameters :=
    if String.eqb command_Name "G0"
    then <["F" := VNum FMAX_SPEED]> Parameters
    else Parameters in
  match Parameters !! p with
  | None => Ok (line, current_parameters, Parameters)
  | Some x =>
      if is_axis p then
        if String.eqb (MOTION_MODE values) "G91"
        then Ok (line, <[p := VNum 0]> current_parameters, Parameters)
        else
          c ← getitem current_parameters p;
          if py_ne x c then
            q ← Units_Quantity x ULength;
            Ok (line +:+ " " +:+ p +:+ format_for_axis values q,
                <[p := x]> current_parameters, Parameters)
          else Ok (line, current_parameters, Parameters)
      else if String.eqb p "R" then
        c ← getitem current_parameters "R";
        if py_ne x c
        then Ok (line +:+ " R" +:+ py_str x,
                 <["R" := x]> current_parameters, Parameters)
        else Ok (line, current_parameters, Parameters)
      else if String.eqb p "F" then
        c ← getitem current_parameters "F";
        if py_ne x c then
          w ← feed_word values FMAX_SPEED x;
          Ok (line +:+ w, <["F" := x]> current_parameters, Parameters)
        else Ok (line, current_parameters, Parameters)
      else if String.eqb p "S" then Ok (line, current_parameters, Parameters)
      else if String.eqb p "M" then Raise NameError
      else Ok (line, current_parameters, Parameters)
  end.

(** [output_line]: the new buffer, the new [current_parameters] and the
    command with the parameters the routine wrote into it. *)
Definition output_line `{Host} (values : Values) (gcode : Gcode)
    (command : Command) (current_parameters : gmap string pyval)
  : result (Gcode * gmap string pyval * Command) :=
  let FMAX_SPEED := (FMAX_SPEED values / 60)%Q in
  let line := "L" in
  let Parameters := <["R" := VStr "0"]> (Parameters command) in
  '(line, current_parameters, Parameters) ←
    for_each (output_line_param values (Name command) FMAX_SPEED)
      (PARAMETER_ORDER values) (line, current_parameters, Parameters);
  let command := mkCommand (Name command) Parameters in
  if String.eqb line "L"
  then Ok (gcode, current_parameters, command)
  else Ok (gcode ++ [line], current_parameters, command).

(** ** Circular moves *)

(** One turn of [for parameters in [["X","I"],["Y","J"],["Z","K"]]]. *)
Definition arc_center_step (Parameters : gmap string pyval)
    (current_parameters : gmap string pyval) (parameters : string * string)
  : result (gmap string pyval) :=
  let '(axis, offset) := parameters in
  current_parameters ←
    match Parameters !! offset with
    | Some o =>
        a ← getitem current_parameters axis;
        c ← py_add a o;
        Ok (<[offset := c]> current_parameters)
    | None => Ok current_parameters
    end;
  match Parameters !! axis with
  | Some x => Ok (<[axis := x]> current_parameters)
  | None => Ok current_parameters
  end.

(** The state of the parameter loop of [output_arc]: [center_line],
    [point_line] and [current_parameters]. *)
Definition ArcState : Type := string * string * gmap string pyval.

(** One turn of [for p in values["PARAMETER_ORDER"]] in [output_arc]. *)
Definition output_arc_param `{Host} (values : Values) (FMAX_SPEED : Q)
    (Parameters : gmap string pyval) (st : ArcState) (p : string)
  : result ArcState :=
  let '(center_line, point_line, current_parameters) := st in
  match Parameters !! p with
  | None => Ok st
  | Some x =>
      if String.eqb p "X" || String.eqb p "Y" || String.eqb p "Z" then
        if String.eqb p "Z" then Ok st
        else if String.eqb (MOTION_MODE values) "G91"
        then Ok (center_line, point_line, <[p := VNum 0]> current_parameters)
        else
          c ← getitem current_parameters p;
          q ← Units_Quantity c ULength;
          Ok (center_line, point_line +:+ " " +:+ p +:+ format_for_axis values q,
              current_parameters)
      else if String.eqb p "I" || String.eqb p "J" || String.eqb p "K" then
        if String.eqb p "K" then Ok st
        else
          let center_line :=
            if String.eqb p "I" then center_line +:+ " X"
            else if String.eqb p "J" then center_line +:+ " Y"
            else center_line in
          c ← getitem current_parameters p;
          q ← Units_Quantity c ULength;
          Ok (center_line +:+ format_for_axis values q, point_line,
              current_parameters)
      else if String.eqb p "D" then
        Ok (center_line, point_line +:+ py_str x, current_parameters)
      else if String.eqb p "R" then
        c ← getitem current_parameters "R";
        if py_ne x c
        then Ok (center_line, point_line +:+ " R" +:+ py_str x,
                 <["R" := x]> current_parameters)
        else Ok st
      else if String.eqb p "F" then
        c ← getitem current_parameters "F";
        if py_ne x c then
          w ← feed_word values FMAX_SPEED x;
          Ok (center_line, point_line +:+ w, <["F" := x]> current_parameters)
        else Ok st
      else if String.eqb p "M" then
        Ok (center_line, point_line +:+ py_str x, current_parameters)
      else Ok st
  end.

Definition output_arc `{Host} (values : Values) (gcode : Gcode)
    (command : Command) (current_parameters : gmap string pyval)
  : result (Gcode * gmap string pyval * Command) :=
  let FMAX_SPEED := (FMAX_SPEED values / 60)%Q in
  let center_line := "CC" in
  let point_line := "C" in
  current_parameters ←
    (if String.eqb (MOTION_MODE values) "G91" then Ok current_parameters
     else for_each (arc_center_step (Parameters command))
            [("X", "I"); ("Y", "J"); ("Z", "K")] current_parameters);
  let Parameters :=
    if String.eqb (Name command) "G2"
    then <["D" := VStr " DR-"]> (Parameters command)
    else if String.eqb (Name command) "G3"
    then <["D" := VStr " DR+"]> (Parameters command)
    else Parameters command in
  let Parameters := <["R" := VStr "0"]> Parameters in
  '(center_line, point_line, current_parameters) ←
    for_each (output_arc_param values FMAX_SPEED Parameters)
      (PARAMETER_ORDER values) (center_line, point_line, current_parameters);
  let gcode :=
    if String.eqb center_line "CC" then gcode else gcode ++ [center_line] in
  Ok (gcode ++ [point_line], current_parameters,
      mkCommand (Name command) Parameters).

(** ** Stops and tool change *)

Definition output_optional_stop (values : Values) (gcode : Gcode) : Gcode :=
  let gcode :=
    if OUTPUT_COMMENTS values
    then gcode ++ [create_comment values "Optional stop"]
    else gcode in
  gcode ++ ["M1"].

Definition output_forced_stop (values : Values) (gcode : Gcode) : Gcode :=
  let gcode :=
    if OUTPUT_COMMENTS values
    then gcode ++ [create_comment values "Forced stop"]
    else gcode in
  gcode ++ ["M2"].

(** [for line in text.splitlines(False): gcode.append(line)] *)
Definition append_lines (text : string) (gcode : Gcode) : Gcode :=
  foldl (fun gcode line => gcode ++ [line]) gcode (splitlines text).

(** [tc.attr] for the attributes only a tool controller has. *)
Definition tool_attr (tc : PathObj) : result ToolController :=
  match ToolCtl tc with
  | Some t => Ok t
  | None => Raise AttributeError
  end.

Definition output_tool_change (values : Values) (gcode : Gcode) (tc : PathObj)
  : result (Values * Gcode) :=
  let gcode :=
    if OUTPUT_COMMENTS values
    then gcode ++ [create_comment values "Begin toolchange"]
    else gcode in
  '(values, gcode) ←
    (if OUTPUT_TOOL_CHANGE values then
       let '(values, gcode) :=
         if STOP_SPINDLE_FOR_TOOL_CHANGE values
            && negb (String.eqb (spindle_state values) "None")
         then (set_spindle_state "None" values, gcode ++ ["M5"])
         else (values, gcode) in
       t ← tool_attr tc;
       let values := set_spindle_dir (SpindleDir t) values in
       let gcode :=
         gcode ++ ["TOOL CALL " +:+ str_int (ToolNumber t) +:+ " Z S"
                   +:+ format_for_spindle values
                         (mkQuantity (SpindleSpeed t) ULength)] in
       let gcode := gcode ++ ["M6"] in
       let gcode :=
         if String.eqb (spindle_dir values) "Forward" then gcode ++ ["M3"]
         else if String.eqb (spindle_dir values) "Reverse" then gcode ++ ["M4"]
         else gcode in
       Ok (values, append_lines (TOOL_CHANGE values) gcode)
     else Ok (values, gcode));
  let gcode :=
    if OUTPUT_COMMENTS values
    then gcode ++ [create_comment values "End toolchange"]
    else gcode in
  Ok (values, gcode).

(** ** Walking the paths *)

(** The initial [current_parameters] of [parse_a_path]. *)
Definition initial_parameters : gmap string pyval :=
  let far := VNum 123456789 in
  <["X" := far]> (<["Y" := far]> (<["Z" := far]> (<["A" := far]> (
  <["B" := far]> (<["C" := far]> (<["I" := far]> (<["J" := far]> (
  <["K" := far]> (<["R" := VStr ""]> (<["D" := VStr ""]> (<["F" := far]> (
  <["S" := far]> ∅)))))))))))).

(** [G0x -> Gx] and [M0x -> Mx] *)
Definition normalize_name (command_name : string) : string :=
  let command_name :=
    if negb (String.eqb command_name "G0")
    then replace "G0" "G" command_name else command_name in
  let command_name :=
    if negb (String.eqb command_name "M0")
    then replace "M0" "M" command_name else command_name in
  command_name.

(** The state of the command loop of [parse_a_path]: [values], the buffer and
    [current_parameters]. *)
Definition PathState : Type := Values * Gcode * gmap string pyval.

(** One turn of [for command in pathobj.Path.Commands]. *)
Definition parse_command `{Host} (pathobj : PathObj) (st : PathState)
    (command : Command) : result PathState :=
  let '(values, gcode, current_parameters) := st in
  let command_name := normalize_name (Name command) in
  if String.eqb command_name "" && negb (OUTPUT_BLANK_LINES values) then Ok st
  else
    let values :=
      if String.eqb command_name "G90" || String.eqb command_name "G91"
      then set_MOTION_MODE command_name values
      else values in
    '(gcode, current_parameters) ←
      (if String.eqb command_name "G0" || String.eqb command_name "G1" then
         '(gcode, current_parameters, _) ←
           output_line values gcode command current_parameters;
         Ok (gcode, current_parameters)
       else if String.eqb command_name "G2" || String.eqb command_name "G3" then
         '(gcode, current_parameters, _) ←
           output_arc values gcode command current_parameters;
         Ok (gcode, current_parameters)
       else Ok (gcode, current_parameters));
    '(values, gcode) ←
      (if String.eqb command_name "M1"
       then Ok (values, output_optional_stop values gcode)
       else if String.eqb command_name "M2" || String.eqb command_name "M30"
       then Ok (values, output_forced_stop values gcode)
       else if String.eqb command_name "M6"
       then output_tool_change values gcode pathobj
       else Ok (values, gcode));
    Ok (values, gcode, current_parameters).

Definition parse_a_path `{Host} (values : Values) (gcode : Gcode)
    (pathobj : PathObj) : result (Values * Gcode) :=
  if contains "Fixture" (obj_Name pathobj) then Ok (values, gcode)
  else
    match Path pathobj with
    | None => Raise AttributeError
    | Some Commands =>
        '(values, gcode, _) ←
          for_each (parse_command pathobj) Commands
            (values, gcode, initial_parameters);
        Ok (values, gcode)
    end.

Fixpoint parse_a_group `{Host} (values : Values) (gcode : Gcode)
    (pathobj : PathObj) {struct pathobj} : result (Values * Gcode) :=
  match pathobj with
  | mkPathObj _ Label (Some members) _ _ =>
      let gcode :=
        if OUTPUT_COMMENTS values
        then gcode ++ [create_comment values ("Compound: " +:+ Label)]
        else gcode in
      (fix members_loop (l : list PathObj) (st : Values * Gcode) {struct l}
         : result (Values * Gcode) :=
         match l with
         | [] => Ok st
         | p :: l' => st' ← parse_a_group st.1 st.2 p; members_loop l' st'
         end) members (values, gcode)
  | mkPathObj _ Label None None _ => Ok (values, gcode)
  | mkPathObj _ Label None (Some _) _ =>
      let gcode :=
        if OUTPUT_PATH_LABELS values && OUTPUT_COMMENTS values
        then gcode ++ [create_comment values ("Compound: " +:+ Label)]
        else gcode in
      parse_a_path values gcode pathobj
  end.

(** ** Program frame *)

Definition pgm_job_name (values : Values) (current_job : Job) : string :=
  let program_name := "New" in
  let program_name :=
    match job_Label current_job with
    | Some Label => Label
    | None => program_name
    end in
  let program_name :=
    if PGM_UPPERCASE values then upper program_name else program_name in
  program_name.

Definition pgm_unit (values : Values) : string :=
  if String.eqb (UNITS values) "G21" then "MM"
  else if String.eqb (UNITS values) "G20" then "INCH"
  else "".

Definition output_pgm_begin (values : Values) (gcode : Gcode) (current_job : Job)
  : Gcode :=
  gcode ++ ["BEGIN PGM " +:+ pgm_job_name values current_job +:+ " "
            +:+ pgm_unit values].

Definition output_pgm_end (values : Values) (gcode : Gcode) (current_job : Job)
  : Gcode :=
  gcode ++ ["END PGM " +:+ pgm_job_name values current_job +:+ " "
            +:+ pgm_unit values].

(** [d[k]] on the [offset] and [size] dictionaries of the stock definition *)
Definition getnum (d : gmap string Q) (k : string) : result Q :=
  match d !! k with
  | Some x => Ok x
  | None => Raise KeyError
  end.

Definition output_stock_definition `{Host} (values : Values) (gcode : Gcode)
    (current_job : Job) : result Gcode :=
  match Stock current_job with
  | None => Ok gcode
  | Some stock =>
      let offset : gmap string Q :=
        match Placement_Base stock with
        | Some (x, y, z) => <["Z" := z]> (<["Y" := y]> (<["X" := x]> ∅))
        | None => ∅
        end in
      let size : gmap string Q := ∅ in
      (* [None] stands for the two cases that return at once *)
      shape ←
        (if String.eqb (StockType stock) "CreateBox" then
           Ok (Some ("Box", offset,
                     <["Z" := Height stock]> (<["Y" := Width stock]> (
                     <["X" := Length stock]> size))))
         else if String.eqb (StockType stock) "CreateCylinder" then
           if SUPPORT_CYLINDER_STOCK values then
             Ok (Some ("Cylinder", offset,
                       <["L" := Height stock]> (<["R" := Radius stock]> size)))
           else
             ox ← getnum offset "X";
             let offset := <["X" := (ox - Radius stock)%Q]> offset in
             oy ← getnum offset "Y";
             let offset := <["Y" := (oy - Radius stock)%Q]> offset in
             Ok (Some ("Box", offset,
                       <["Z" := Height stock]> (
                       <["Y" := (Radius stock * 2)%Q]> (
                       <["X" := (Radius stock * 2)%Q]> size))))
         else if String.eqb (StockType stock) "FromBase" then
           let bounding_box := shapeBoundBox stock in
           Ok (Some ("Box",
                     <["Z" := ZMin bounding_box]> (
                     <["Y" := YMin bounding_box]> (
                     <["X" := XMin bounding_box]> offset)),
                     <["Z" := (- ZMin bounding_box + ZMax bounding_box)%Q]> (
                     <["Y" := (- YMin bounding_box + YMax bounding_box)%Q]> (
                     <["X" := (- XMin bounding_box + XMax bounding_box)%Q]>
                        size))))
         else if String.eqb (StockType stock) "Unknown" then Ok None
         else if String.eqb (StockType stock) "None" then Ok None
         else Ok (Some ("", offset, size)));
      match shape with
      | None => Ok gcode
      | Some (stock_type, offset, size) =>
          let axis (x : Q) := format_for_axis values (mkQuantity x ULength) in
          if String.eqb stock_type "Box" then
            ox ← getnum offset "X";
            oy ← getnum offset "Y";
            oz ← getnum offset "Z";
            let gcode :=
              gcode ++ ["BLK FORM 0.1 Z X" +:+ axis ox +:+ " Y" +:+ axis oy
                        +:+ " Z" +:+ axis oz] in
            sx ← getnum size "X"; ox ← getnum offset "X";
            sy ← getnum size "Y"; oy ← getnum offset "Y";
            sz ← getnum size "Z"; oz ← getnum offset "Z";
            Ok (gcode ++ ["BLK FORM 0.2 X" +:+ axis (sx + ox)%Q
                          +:+ " Y" +:+ axis (sy + oy)%Q
                          +:+ " Z" +:+ axis (sz + oz)%Q])
          else if String.eqb stock_type "Cylinder" then
            r ← getnum size "R";
            l ← getnum size "L";
            oz ← getnum offset "Z";
            Ok (gcode ++ ["BLK FORM CYLINDER Z R" +:+ axis r +:+ " L" +:+ axis l
                          +:+ " DIST" +:+ axis oz])
          else Ok gcode
      end
  end.

(** ** Header, blocks and operation labels *)

Definition output_header `{Host} (values : Values) (gcode : Gcode) : Gcode :=
  if negb (OUTPUT_HEADER values) then gcode
  else
    let gcode := gcode ++ [create_comment values "Exported by FreeCAD"] in
    let gcode :=
      gcode ++ [create_comment values
                  ("Post Processor: " +:+ POSTPROCESSOR_FILE_NAME values)] in
    let cam_file :=
      match ActiveDocument with
      | Some FileName => basename FileName
      | None => "<None>"
      end in
    let gcode := gcode ++ [create_comment values ("Cam File: " +:+ cam_file)] in
    gcode ++ [create_comment values ("Output Time: " +:+ now)].

Definition output_postamble_header (values : Values) (gcode : Gcode) : Gcode :=
  if OUTPUT_COMMENTS values
  then gcode ++ [create_comment values "Begin postamble"]
  else gcode.

Definition output_postamble (values : Values) (gcode : Gcode) : Gcode :=
  append_lines (POSTAMBLE values) gcode.

Definition output_postop (values : Values) (gcode : Gcode) (obj : PathObj)
  : Gcode :=
  let gcode :=
    if OUTPUT_COMMENTS values then
      if SHOW_OPERATION_LABELS values
      then gcode ++ [create_comment values
                       (FINISH_LABEL values +:+ " operation: " +:+ obj_Label obj)]
      else gcode ++ [create_comment values (FINISH_LABEL values +:+ " operation")]
    else gcode in
  append_lines (POST_OPERATION values) gcode.

Definition output_preamble (values : Values) (gcode : Gcode) : Gcode :=
  let gcode :=
    if OUTPUT_COMMENTS values
    then gcode ++ [create_comment values "Begin preamble"]
    else gcode in
  append_lines (PREAMBLE values) gcode.

Definition output_preop (values : Values) (gcode : Gcode) (obj : PathObj)
  : Gcode :=
  let gcode :=
    if OUTPUT_COMMENTS values then
      let gcode :=
        if SHOW_OPERATION_LABELS values
        then gcode ++ [create_comment values
                         ("Begin operation: " +:+ obj_Label obj)]
        else gcode ++ [create_comment values "Begin operation"] in
      let gcode :=
        if SHOW_MACHINE_UNITS values
        then gcode ++ [create_comment values
                         ("Machine units: " +:+ UNIT_SPEED_FORMAT values)]
        else gcode in
      if OUTPUT_MACHINE_NAME values
      then gcode ++ [create_comment values
                       ("Machine: " +:+ MACHINE_NAME values +:+ ", "
                        +:+ UNIT_SPEED_FORMAT values)]
      else gcode
    else gcode in
  append_lines (PRE_OPERATION values) gcode.

Definition output_safetyblock (values : Values) (gcode : Gcode) : Gcode :=
  append_lines (SAFETYBLOCK values) gcode.

Definition output_start_bcnc (values : Values) (gcode : Gcode) (obj : PathObj)
  : Gcode :=
  if OUTPUT_BCNC values then
    let gcode :=
      gcode ++ [create_comment values ("Block-name: " +:+ obj_Label obj)] in
    let gcode := gcode ++ [create_comment values "Block-expand: 0"] in
    gcode ++ [create_comment values "Block-enable: 1"]
  else gcode.

Definition output_tool_list (values : Values) (gcode : Gcode)
    (objectslist : list PathObj) : Gcode :=
  if OUTPUT_COMMENTS values && LIST_TOOLS_IN_PREAMBLE values then
    foldl (fun gcode item =>
             match ToolCtl item with
             | Some t =>
                 gcode ++ [create_comment values
                             ("T" +:+ str_int (ToolNumber t) +:+ "="
                              +:+ obj_Label item)]
             | None => gcode
             end) gcode objectslist
  else gcode.

Definition output_tool_return (values : Values) (gcode : Gcode) : Gcode :=
  append_lines (TOOLRETURN values) gcode.

(** ** Line numbers *)

(** One turn of [for i, line in enumerate(gcode)]. *)
Definition add_linenumber (st : Values * Gcode) (i : nat) : Values * Gcode :=
  let '(values, gcode) := st in
  match gcode !! i with
  | None => st
  | Some line =>
      if (negb (String.prefix (COMMENT_PREFIX values) line)
          && negb (LINE_NUMBER_ON_COMMENTS values))
         || LINE_NUMBER_ON_COMMENTS values
      then
        (set_line_number (line_number values + LINE_INCREMENT values)%Z values,
         <[i := LINE_PREFIX values +:+ str_int (line_number values)
                +:+ LINE_POSTFIX values +:+ line]> gcode)
      else st
  end.

Definition add_linenumbers (values : Values) (gcode : Gcode) : Values * Gcode :=
  if negb (OUTPUT_LINE_NUMBERS values) then (values, gcode)
  else foldl add_linenumber (values, gcode) (seq 0 (length gcode)).

(** ** Export *)

(** What a call of [export] leaves behind: the value returned ([None] is
    Python's [None]), the [values] dictionary, and the buffer handed to
    [ExportUtils.finalize_export] if that call was reached. *)
Record Exported : Type := mkExported {
  returned : option string;
  values_after : Values;
  finalized : option Gcode
}.

(** The body of [for obj in objectslist] in [export]. *)
Definition export_object `{Host} (st : Values * Gcode) (obj : PathObj)
  : result (Values * Gcode) :=
  let '(values, gcode) := st in
  if negb (activeForOp obj) then Ok st
  else
    let gcode := output_start_bcnc values gcode obj in
    let gcode := output_preop values gcode obj in
    let '(values, gcode) := output_coolant_update values gcode obj in
    '(values, gcode) ← parse_a_group values gcode obj;
    Ok (values, output_postop values gcode obj).

Definition has_Path (obj : PathObj) : bool :=
  match Path obj with Some _ => true | None => false end.

(** Everything [export] puts in the buffer before the lines are numbered. *)
Definition export_body `{Host} (values : Values) (objectslist : list PathObj)
    (first : PathObj) : result (Values * Gcode) :=
  let gcode : Gcode := [] in
  let current_job := findParentJob first in
  let gcode := output_header values gcode in
  let gcode := output_safetyblock values gcode in
  let gcode := output_tool_list values gcode objectslist in
  let gcode := output_preamble values gcode in
  let gcode := output_pgm_begin values gcode current_job in
  gcode ← output_stock_definition values gcode current_job;
  '(values, gcode) ← for_each export_object objectslist (values, gcode);
  let gcode := output_pgm_end values gcode current_job in
  let gcode := output_postamble_header values gcode in
  let gcode := output_tool_return values gcode in
  let gcode := output_safetyblock values gcode in
  let gcode := output_postamble values gcode in
  Ok (values, gcode).

Definition export `{Host} (values : Values) (objectslist : list PathObj)
    (filename : string) : result Exported :=
  if negb (forallb has_Path objectslist) then Ok (mkExported None values None)
  else
    match objectslist with
    | [] => Ok (mkExported None values None)
    | first :: _ =>
        '(values, gcode) ← export_body values objectslist first;
        let '(values, gcode) := add_linenumbers values gcode in
        (* ExportUtils.finalize_export(values, gcode, filename) *)
        Ok (mkExported None values (Some gcode))
    end.




(** [init_values], applied to the dictionary the parent class filled in;
    [name] is the module's [__name__]. *)
Definition init_values (name : string) (values : Values) : Values :=
  {| OUTPUT_COMMENTS := OUTPUT_COMMENTS values;
     OUTPUT_HEADER := OUTPUT_HEADER values;
     OUTPUT_BCNC := OUTPUT_BCNC values; OUTPUT_LINE_NUMBERS := true;
     OUTPUT_TOOL_CHANGE := OUTPUT_TOOL_CHANGE values;
     OUTPUT_PATH_LABELS := OUTPUT_PATH_LABELS values;
     OUTPUT_BLANK_LINES := OUTPUT_BLANK_LINES values;
     OUTPUT_MACHINE_NAME := OUTPUT_MACHINE_NAME values;
     LIST_TOOLS_IN_PREAMBLE := true;
     SHOW_OPERATION_LABELS := SHOW_OPERATION_LABELS values;
     SHOW_MACHINE_UNITS := SHOW_MACHINE_UNITS values;
     STOP_SPINDLE_FOR_TOOL_CHANGE := STOP_SPINDLE_FOR_TOOL_CHANGE values;
     PGM_UPPERCASE := true; SUPPORT_CYLINDER_STOCK := false;
     DECIMAL_COMMAS := true; NORMALIZE_PARAMETERS := true;
     LINE_NUMBER_ON_COMMENTS := true; ENABLE_COOLANT := true;
     SUPPORT_FLOOD_COOLANT := true; SUPPORT_MIST_COOLANT := false;
     USE_FMAX := true; MACHINE_NAME := "Heidenhain";
     POSTPROCESSOR_FILE_NAME := name; LINE_PREFIX := "";
     LINE_POSTFIX := "  "; COMMENT_PREFIX := "; ("; COMMENT_POSTFIX := ")";
     UNITS := UNITS values; UNIT_FORMAT := UNIT_FORMAT values;
     UNIT_SPEED_FORMAT := UNIT_SPEED_FORMAT values;
     FINISH_LABEL := FINISH_LABEL values; PREAMBLE := PREAMBLE values;
     POSTAMBLE := POSTAMBLE values; SAFETYBLOCK := SAFETYBLOCK values;
     TOOLRETURN := TOOLRETURN values; PRE_OPERATION := PRE_OPERATION values;
     POST_OPERATION := POST_OPERATION values;
     TOOL_CHANGE := TOOL_CHANGE values;
     PARAMETER_ORDER := ["X"; "Y"; "Z"; "A"; "B"; "C"; "I"; "J"; "K"; "R"; "D"; "F"; "S"; "M"];
     AXIS_PRECISION := AXIS_PRECISION values;
     FEED_PRECISION := FEED_PRECISION values;
     SPINDLE_DECIMALS := SPINDLE_DECIMALS values; FMAX_SPEED := 8000;
     LINE_INCREMENT := 1; MOTION_MODE := MOTION_MODE values;
     spindle_state := "None"; spindle_dir := "None"; coolant_mode := "None";
     line_number := 1 |}.

(** ** Sample data

    A dictionary such as the parent class leaves it, a host, and a few
    objects, for running the model on concrete inputs. *)

Definition sample_parent_values : Values :=
  {| OUTPUT_COMMENTS := true; OUTPUT_HEADER := true; OUTPUT_BCNC := false;
     OUTPUT_LINE_NUMBERS := false; OUTPUT_TOOL_CHANGE := true;
     OUTPUT_PATH_LABELS := false; OUTPUT_BLANK_LINES := true;
     OUTPUT_MACHINE_NAME := false; LIST_TOOLS_IN_PREAMBLE := false;
     SHOW_OPERATION_LABELS := true; SHOW_MACHINE_UNITS := true;
     STOP_SPINDLE_FOR_TOOL_CHANGE := true; PGM_UPPERCASE := false;
     SUPPORT_CYLINDER_STOCK := false; DECIMAL_COMMAS := false;
     NORMALIZE_PARAMETERS := false; LINE_NUMBER_ON_COMMENTS := false;
     ENABLE_COOLANT := false; SUPPORT_FLOOD_COOLANT := false;
     SUPPORT_MIST_COOLANT := false; USE_FMAX := false;
     MACHINE_NAME := "unknown machine"; POSTPROCESSOR_FILE_NAME := "";
     LINE_PREFIX := "N"; LINE_POSTFIX := " "; COMMENT_PREFIX := "(";
     COMMENT_POSTFIX := ")"; UNITS := "G21"; UNIT_FORMAT := "mm";
     UNIT_SPEED_FORMAT := "mm/min"; FINISH_LABEL := "Finish"; PREAMBLE := "";
     POSTAMBLE := ""; SAFETYBLOCK := ""; TOOLRETURN := "";
     PRE_OPERATION := ""; POST_OPERATION := ""; TOOL_CHANGE := "";
     PARAMETER_ORDER := ["X"; "Y"; "Z"; "F"]; AXIS_PRECISION := 3;
     FEED_PRECISION := 3; SPINDLE_DECIMALS := 0; FMAX_SPEED := 0;
     LINE_INCREMENT := 10; MOTION_MODE := "G90"; spindle_state := "None";
     spindle_dir := "None"; coolant_mode := "None"; line_number := 100 |}.

Definition sample_values : Values := init_values "heidenhain_post" sample_parent_values.

(** Lengths are kept in millimetres and speeds in millimetres per second. *)
Definition sample_host : Host :=
  {| getValueAs unit number :=
       if String.eqb unit "mm/min" then (Value number * 60)%Q
       else if String.eqb unit "in" then (Value number * (10 # 254))%Q
       else if String.eqb unit "in/min" then (Value number * 60 * (10 # 254))%Q
       else Value number;
     str_float x := format_f false 1 x;
     findParentJob _ := mkJob (Some "Job") None;
     activeForOp _ := true;
     coolantModeForOp obj :=
       if contains "Flood" (obj_Label obj) then "Flood"
       else if contains "Mist" (obj_Label obj) then "Mist"
       else "None";
     shapeBoundBox _ := mkBoundBox 0 0 0 0 0 0;
     ActiveDocument := Some "/home/user/part.FCStd";
     now := "2025-01-01 12:00:00.000000" |}.

Definition params (l : list (string * Q)) : gmap string pyval :=
  list_to_map (prod_map id VNum <$> l).

Definition sample_tool : PathObj :=
  mkPathObj "TC001" "5mm Endmill" None
    (Some [mkCommand "M6" (params [("T", 2%Q)])])
    (Some (mkToolController 2 "Forward" 4000)).

Definition sample_profile : PathObj :=
  mkPathObj "Profile" "Profile Flood" None
    (Some [mkCommand "G0" (params [("Z", 6%Q)]);
           mkCommand "G0" (params [("X", 1506 # 1000); ("Y", 1 # 10)]);
           mkCommand "G1" (params [("Z", 4%Q); ("F", 5%Q)]);
           mkCommand "G1" (params [("X", 10%Q); ("Y", 1 # 10); ("F", 5%Q)]);
           mkCommand "G2" (params [("X", 12%Q); ("Y", (-19) # 10); ("I", 0%Q);
                                   ("J", (-2)%Q); ("F", 5%Q)]);
           mkCommand "G3" (params [("X", 14%Q); ("Y", (-39) # 10); ("I", 2%Q);
                                   ("J", 0%Q); ("F", 5%Q)]);
           mkCommand "G0" (params [("Z", 6%Q)]);
           mkCommand "M30" ∅])
    None.


(** [current_parameters] after a first move to X10 Y0.1 at feed 5. *)
Definition sample_position : gmap string pyval :=
  <["X" := VNum 10]> (<["Y" := VNum (1 # 10)]> (<["F" := VNum 5]> (
  <["R" := VStr "0"]> initial_parameters))).

Definition sample_line : Command :=
  mkCommand "G1" (params [("X", 10%Q); ("Y", 1 # 10); ("F", 5%Q)]).

Definition sample_line_M : Command :=
  mkCommand "G1" (params [("X", 10%Q); ("M", 3%Q)]).

Definition sample_arc : Command :=
  mkCommand "G2" (params [("X", 12%Q); ("Y", (-19) # 10); ("I", 0%Q);
                          ("J", (-2)%Q)]).


Definition sample_job : Job := mkJob (Some "Job") None.

(** The dictionary with the numbers kept off the comments. *)
Definition comments_unnumbered (values : Values) : Values :=
  {| OUTPUT_COMMENTS := OUTPUT_COMMENTS values;
     OUTPUT_HEADER := OUTPUT_HEADER values;
     OUTPUT_BCNC := OUTPUT_BCNC values;
     OUTPUT_LINE_NUMBERS := OUTPUT_LINE_NUMBERS values;
     OUTPUT_TOOL_CHANGE := OUTPUT_TOOL_CHANGE values;
     OUTPUT_PATH_LABELS := OUTPUT_PATH_LABELS values;
     OUTPUT_BLANK_LINES := OUTPUT_BLANK_LINES values;
     OUTPUT_MACHINE_NAME := OUTPUT_MACHINE_NAME values;
     LIST_TOOLS_IN_PREAMBLE := LIST_TOOLS_IN_PREAMBLE values;
     SHOW_OPERATION_LABELS := SHOW_OPERATION_LABELS values;
     SHOW_MACHINE_UNITS := SHOW_MACHINE_UNITS values;
     STOP_SPINDLE_FOR_TOOL_CHANGE := STOP_SPINDLE_FOR_TOOL_CHANGE values;
     PGM_UPPERCASE := PGM_UPPERCASE values;
     SUPPORT_CYLINDER_STOCK := SUPPORT_CYLINDER_STOCK values;
     DECIMAL_COMMAS := DECIMAL_COMMAS values;
     NORMALIZE_PARAMETERS := NORMALIZE_PARAMETERS values;
     LINE_NUMBER_ON_COMMENTS := false;
     ENABLE_COOLANT := ENABLE_COOLANT values;
     SUPPORT_FLOOD_COOLANT := SUPPORT_FLOOD_COOLANT values;
     SUPPORT_MIST_COOLANT := SUPPORT_MIST_COOLANT values;
     USE_FMAX := USE_FMAX values; MACHINE_NAME := MACHINE_NAME values;
     POSTPROCESSOR_FILE_NAME := POSTPROCESSOR_FILE_NAME values;
     LINE_PREFIX := LINE_PREFIX values; LINE_POSTFIX := LINE_POSTFIX values;
     COMMENT_PREFIX := COMMENT_PREFIX values;
     COMMENT_POSTFIX := COMMENT_POSTFIX values; UNITS := UNITS values;
     UNIT_FORMAT := UNIT_FORMAT values;
     UNIT_SPEED_FORMAT := UNIT_SPEED_FORMAT values;
     FINISH_LABEL := FINISH_LABEL values; PREAMBLE := PREAMBLE values;
     POSTAMBLE := POSTAMBLE values; SAFETYBLOCK := SAFETYBLOCK values;
     TOOLRETURN := TOOLRETURN values; PRE_OPERATION := PRE_OPERATION values;
     POST_OPERATION := POST_OPERATION values;
     TOOL_CHANGE := TOOL_CHANGE values;
     PARAMETER_ORDER := PARAMETER_ORDER values;
     AXIS_PRECISION := AXIS_PRECISION values;
     FEED_PRECISION := FEED_PRECISION values;
     SPINDLE_DECIMALS := SPINDLE_DECIMALS values;
     FMAX_SPEED := FMAX_SPEED values;
     LINE_INCREMENT := LINE_INCREMENT values;
     MOTION_MODE := MOTION_MODE values;
     spindle_state := spindle_state values;
     spindle_dir := spindle_dir values; coolant_mode := coolant_mode values;
     line_number := line_number values |}.

(** A helix: the arc of [sample_arc] that rises to Z3. *)
Definition sample_helix : Command :=
  mkCommand "G2" (params [("X", 12%Q); ("Y", (-19) # 10); ("Z", 3%Q);
                          ("I", 0%Q); ("J", (-2)%Q)]).

(** An operation that asks for mist, one that switches to incremental
    moves, and one with an "M" parameter on a linear move. *)
Definition sample_mist : PathObj :=
  mkPathObj "Pocket" "Pocket Mist" None (Some []) None.

Definition sample_incremental : PathObj :=
  mkPathObj "Drill" "Drill" None
    (Some [mkCommand "G91" ∅; mkCommand "G1" (params [("Z", (-1)%Q)])])
    None.

Definition sample_faulty : PathObj :=
  mkPathObj "Slot" "Slot" None
    (Some [mkCommand "G0" (params [("Z", 6%Q)]); sample_line_M])
    None.


(** ** Notions for the statements on strings *)

Definition is_digit (a : ascii) : bool :=
  let n := Ascii.nat_of_ascii a in (48 <=? n)%nat && (n <=? 57)%nat.

Fixpoint all_digits (s : string) : bool :=
  match s with
  | EmptyString => true
  | String a s' => is_digit a && all_digits s'
  end.

Fixpoint last_char (s : string) : option ascii :=
  match s with
  | EmptyString => None
  | String a EmptyString => Some a
  | String _ s' => last_char s'
  end.

Fixpoint repeat_char (c : ascii) (k : nat) : string :=
  match k with
  | O => EmptyString
  | S k' => String c (repeat_char c k')
  end.


(** ** Notions for the statements on moves *)

(** The parameters [output_line] compares with [current_parameters]. *)
Definition is_tracked (p : string) : bool :=
  is_axis p || String.eqb p "R" || String.eqb p "F".

(** [command.Parameters] as the loop of [output_line] reads it: the radius
    compensation "0" and, for a rapid move, the rapid feed. *)
Definition line_parameters (values : Values) (command : Command)
  : gmap string pyval :=
  let Parameters := <["R" := VStr "0"]> (Parameters command) in
  if String.eqb (Name command) "G0"
  then <["F" := VNum (FMAX_SPEED values / 60)]> Parameters
  else Parameters.

(** A tracked parameter the command carries with a value other than the
    tracked one. *)
Definition line_changed (Parameters current_parameters : gmap string pyval)
    (p : string) : bool :=
  is_tracked p
  && match Parameters !! p, current_parameters !! p with
     | Some x, Some c => py_ne x c
     | _, _ => false
     end.

(** The word [output_line] writes for a parameter. *)
Definition line_word `{Host} (values : Values) (Parameters : gmap string pyval)
    (p : string) : string :=
  match Parameters !! p with
  | Some x =>
      if is_axis p then
        match x with
        | VNum q => " " +:+ p +:+ format_for_axis values (mkQuantity q ULength)
        | VStr _ => ""
        end
      else if String.eqb p "R" then " R" +:+ py_str x
      else if USE_FMAX values && py_eq_num x (FMAX_SPEED values / 60) then " F MAX"
      else
        match x with
        | VNum q => " F" +:+ format_for_feed values (mkQuantity q UVelocity)
        | VStr _ => ""
        end
  | None => ""
  end.

(** Strings put one after the other *)
Definition join (words : list string) : string :=
  foldr String.append "" words.

(** The host hands over floats for the axes, the offsets and the feed. *)
Definition numeric_moves (Parameters : gmap string pyval) : Prop :=
  forall p x,
    p ∈ ["X"; "Y"; "Z"; "A"; "B"; "C"; "I"; "J"; "K"; "F"] ->
    Parameters !! p = Some x -> exists q, x = VNum q.

(** [current_parameters] as [parse_a_path] keeps it: floats for the axes,
    the offsets and the feed, and some value for the radius compensation. *)
Definition tracking (current_parameters : gmap string pyval) : Prop :=
  (forall p, p ∈ ["X"; "Y"; "Z"; "A"; "B"; "C"; "I"; "J"; "K"; "F"] ->
             exists q, current_parameters !! p = Some (VNum q))
  /\ is_Some (current_parameters !! "R").

(** ** Inputs on which nothing raises *)

(** A command [parse_a_path] handles without an exception, on an object that
    is a tool controller or not: floats for the axes, the offsets and the
    feed, no "M" parameter on a linear move, and a tool change on a tool
    controller only. *)
Definition command_ok (is_tool : bool) (command : Command) : Prop :=
  numeric_moves (Parameters command)
  /\ (normalize_name (Name command) = "G0"
      \/ normalize_name (Name command) = "G1" ->
      Parameters command !! "M" = None)
  /\ (normalize_name (Name command) = "M6" -> is_tool = true).

(** An object all of whose commands are such, through the groups. *)
#[local] Unset Elimination Schemes.
Inductive object_ok : PathObj -> Prop :=
| object_ok_group name label members path tool :
    Forall object_ok members ->
    object_ok (mkPathObj name label (Some members) path tool)
| object_ok_path name label path tool :
    (forall Commands,
        path = Some Commands ->
        Forall (command_ok (bool_decide (is_Some tool))) Commands) ->
    object_ok (mkPathObj name label None path tool).
#[local] Set Elimination Schemes.

(** A job whose stock, if it has one, is placed. *)
Definition job_ok (current_job : Job) : Prop :=
  forall stock,
    Stock current_job = Some stock -> is_Some (Placement_Base stock).

(** ** Configuration and running state *)

(** The dictionary with the five keys written during a run blanked out: two
    dictionaries with the same image differ in those keys at most. *)
Definition config_of (values : Values) : Values :=
  set_MOTION_MODE "" (set_spindle_state "" (set_spindle_dir "" (
  set_coolant_mode "" (set_line_number 0 values)))).

Definition same_config (values values' : Values) : Prop :=
  config_of values = config_of values'.

(** Induction on a document object and, for a group, on its members. *)
Fixpoint PathObj_members_ind (P : PathObj -> Prop)
    (step : forall name label group path tool,
        match group with
        | Some members => Forall P members
        | None => True
        end -> P (mkPathObj name label group path tool))
    (obj : PathObj) {struct obj} : P obj :=
  match obj with
  | mkPathObj name label group path tool =>
      step name label group path tool
        (match group
           return match group with
                  | Some members => Forall P members
                  | None => True
                  end
         with
         | Some members =>
             (fix members_ind (l : list PathObj) : Forall P l :=
                match l with
                | [] => @List.Forall_nil _ P
                | m :: l' =>
                    @List.Forall_cons _ P m l' (PathObj_members_ind P step m)
                      (members_ind l')
                end) members
         | None => I
         end)
  end.

(** What a routine may do to [values] and to the buffer: leave the
    configuration alone and append. *)
Definition frame (st st' : Values * Gcode) : Prop :=
  same_config st.1 st'.1 /\ st.2 `prefix_of` st'.2.

(** The relation [frame], on the state of the command loop. *)
Definition path_frame (st st' : PathState) : Prop :=
  frame (st.1.1, st.1.2) (st'.1.1, st'.1.2).

(** The lines [add_linenumbers] gives a number: all of them, or all but the
    comments. *)
Definition is_numbered (values : Values) (line : string) : bool :=
  (negb (String.prefix (COMMENT_PREFIX values) line)
   && negb (LINE_NUMBER_ON_COMMENTS values))
  || LINE_NUMBER_ON_COMMENTS values.

(** The numbering loop as a recursion over the lines, [n] being the next
    number; the loop of [add_linenumbers] is shown to compute it. *)
Fixpoint number_lines (values : Values) (n : Z) (lines : list string)
  : list string :=
  match lines with
  | [] => []
  | line :: rest =>
      if is_numbered values line
      then (LINE_PREFIX values +:+ str_int n +:+ LINE_POSTFIX values +:+ line)
           :: number_lines values (n + LINE_INCREMENT values)%Z rest
      else line :: number_lines values n rest
  end.

(** How many of the lines before index [i] get a number. *)
Definition numbered_before (values : Values) (gcode : Gcode) (i : nat) : nat :=
  length (List.filter (is_numbered values) (take i gcode)).

(** ** Routines [export] does not call *)



(** ** The sibling script

    Further routines of [refactored_heidenhain_post.py], which the routines
    above are compared with. *)
Module Sibling.

Definition job_name (values : Values) (current_job : Job) : string :=
  let program_name := "NEW" in
  let program_name :=
    match job_Label current_job with
    | Some Label => Label
    | None => program_name
    end in
  let program_name :=
    if PGM_UPPERCASE values then upper program_name else program_name in
  program_name.

Definition output_pgm_begin (values : Values) (gcode : Gcode)
    (current_job : Job) : Gcode :=
  gcode ++ ["BEGIN PGM " +:+ job_name values current_job +:+ " "
            +:+ upper (UNIT_FORMAT values)].

Definition output_pgm_end (values : Values) (gcode : Gcode)
    (current_job : Job) : Gcode :=
  gcode ++ ["END PGM " +:+ job_name values current_job +:+ " "
            +:+ upper (UNIT_FORMAT values)].

Definition output_tool_list (values : Values) (gcode : Gcode)
    (objectslist : list PathObj) : Gcode :=
  if OUTPUT_COMMENTS values && LIST_TOOLS_IN_PREAMBLE values then
    foldl (fun gcode item =>
             match ToolCtl item with
             | Some t =>
                 gcode ++ [create_comment values
                             ("T" +:+ str_int (ToolNumber t) +:+ "="
                              +:+ obj_Name item)]
             | None => gcode
             end) gcode objectslist
  else gcode.

(** One turn of [for i, line in enumerate(gcode)]. *)
Definition add_linenumber (st : Values * Gcode) (i : nat) : Values * Gcode :=
  let '(values, gcode) := st in
  match gcode !! i with
  | None => st
  | Some line =>
      let line_num := str_int (line_number values) in
      let values' :=
        set_line_number (line_number values + LINE_INCREMENT values)%Z values in
      (values',
       <[i := LINE_PREFIX values' +:+ line_num +:+ LINE_POSTFIX values'
              +:+ line]> gcode)
  end.

Definition add_linenumbers (values : Values) (gcode : Gcode) : Values * Gcode :=
  if negb (OUTPUT_LINE_NUMBERS values) then (values, gcode)
  else foldl add_linenumber (values, gcode) (seq 0 (length gcode)).

End Sibling.

(** ** Notions for further statements *)


(** The tool controllers among the objects *)
Definition tool_controllers (objectslist : list PathObj)
  : list (PathObj * ToolController) :=
  omap (fun item => pair item <$> ToolCtl item) objectslist.

(** What the routines before [add_linenumbers] do to two keys that are read
    back later: the line number is left alone, and the spindle state is left
    alone or reset to "None". *)
Definition steady (values values' : Values) : Prop :=
  line_number values' = line_number values
  /\ (spindle_state values' = spindle_state values
      \/ spindle_state values' = "None").

(** The motion mode after the commands of a path: the name of the last
    "G90" or "G91" among them, or the mode before. *)
Definition motion_mode_after (mode : string) (Commands : list Command)
  : string :=
  foldl (fun mode command =>
           let command_name := normalize_name (Name command) in
           if String.eqb command_name "G90" || String.eqb command_name "G91"
           then command_name else mode) mode Commands.

(** The command names [parse_a_path] acts on, after normalisation *)
Definition handled_names : list string :=
  ["G0"; "G1"; "G2"; "G3"; "M1"; "M2"; "M30"; "M6"; "G90"; "G91"].

(** * Verified properties *)

Lemma bind_Ok {A B : Type} (r : result A) (k : A -> result B) (b : B) :
  r ≫= k = Ok b -> exists a, r = Ok a /\ k a = Ok b.
Proof. destruct r as [a |]; [| discriminate]. intros Hk. by exists a. Qed.

Lemma append_assoc (s1 s2 s3 : string) :
  (s1 +:+ s2) +:+ s3 = s1 +:+ (s2 +:+ s3).
Proof.
  induction s1 as [| a s1 IH]; [reflexivity |]. exact (f_equal (String a) IH).
Qed.

Lemma append_nil_r (s : string) : s +:+ "" = s.
Proof.
  induction s as [| a s IH]; [reflexivity |]. exact (f_equal (String a) IH).
Qed.

Lemma length_append (s1 s2 : string) :
  String.length (s1 +:+ s2) = String.length s1 + String.length s2.
Proof.
  induction s1 as [| a s1 IH]; [reflexivity |]. exact (f_equal S IH).
Qed.

Ltac bind_inv H :=
  let a := fresh "a" in
  let Ha := fresh "Ha" in
  apply bind_Ok in H as (a & Ha & H).

Section Coolant.
Context `{Host}.

Lemma coolant_case_inv mode flood mist used command :
  coolant_case mode flood mist = Some (used, command) ->
  (mode = "None" /\ used = "None" /\ command = "M9")
  \/ (mode <> "None" /\ used = "Flood" /\ command = "M8")
  \/ (mode <> "None" /\ used = "Mist" /\ command = "M7").
Proof.
  unfold coolant_case.
  destruct (String.eqb_spec mode "None") as [-> | Hne].
  - intros [= <- <-]. by left.
  - repeat case_match; intros [= <- <-]; auto.
Qed.

Lemma eqb_ne (s t : string) : s <> t -> String.eqb s t = false.
Proof. by intros ?%String.eqb_neq. Qed.


(** C8. For the three modes and all four settings of the support flags,
    with coolant enabled and (for [heidenhain_post.py]) a tracked mode that
    differs from the requested one, the two scripts leave the same buffer:
    the same comment, if any, and the same command, if any. *)
Theorem output_coolant_update_refactored_agree (values values' : Values)
    (gcode : Gcode) (obj : PathObj) (mode : string) :
  mode = "None" \/ mode = "Flood" \/ mode = "Mist" ->
  coolantModeForOp obj = mode ->
  ENABLE_COOLANT values = true ->
  ENABLE_COOLANT values' = true ->
  SUPPORT_FLOOD_COOLANT values' = SUPPORT_FLOOD_COOLANT values ->
  SUPPORT_MIST_COOLANT values' = SUPPORT_MIST_COOLANT values ->
  OUTPUT_COMMENTS values' = OUTPUT_COMMENTS values ->
  COMMENT_PREFIX values' = COMMENT_PREFIX values ->
  COMMENT_POSTFIX values' = COMMENT_POSTFIX values ->
  coolant_mode values <> mode ->
  (output_coolant_update values gcode obj).2
  = Refactored.output_coolant_update values' gcode mode.
Proof.
  intros Hmode Hobj Hen Hen' Hfl Hmi Hco Hpre Hpost Hne.
  unfold output_coolant_update, Refactored.output_coolant_update,
    coolant_case, coolant_comment, create_comment, Refactored.create_comment.
  rewrite Hobj, Hen, Hen', Hfl, Hmi, Hco, Hpre, Hpost, (eqb_ne _ _ Hne).
  destruct (SUPPORT_FLOOD_COOLANT values), (SUPPORT_MIST_COOLANT values),
    (OUTPUT_COMMENTS values);
    destruct Hmode as [-> | [-> | ->]]; reflexivity.
Qed.

End Coolant.

(** ** The buffer only grows *)

Section Buffer.
Context `{Host}.

#[local] Instance frame_preorder : PreOrder frame.
Proof.
  split.
  - intros [v g]. split; reflexivity.
  - intros [v g] [v' g'] [v'' g''] [Hc Hp] [Hc' Hp'].
    unfold same_config in *. simpl in *. split; simpl.
    + unfold same_config. by rewrite Hc.
    + by etrans.
Qed.

Lemma for_each_rel {A S : Type} (R : S -> S -> Prop) `{!PreOrder R}
    (body : S -> A -> result S) (l : list A) (s s' : S) :
  (forall s x s', body s x = Ok s' -> R s s') ->
  for_each body l s = Ok s' -> R s s'.
Proof.
  intros Hbody. revert s. induction l as [| x l IH]; intros s; simpl.
  - intros [= ->]. reflexivity.
  - destruct (body s x) as [s1 |] eqn:E; [| discriminate]. simpl.
    intros Hl. etrans; [by eapply Hbody | by apply IH].
Qed.

Lemma append_lines_app (text : string) (gcode : Gcode) :
  append_lines text gcode = gcode ++ splitlines text.
Proof.
  unfold append_lines. generalize (splitlines text) as l. intros l.
  revert gcode. induction l as [| x l IH]; intros gcode; simpl.
  - by rewrite app_nil_r.
  - rewrite IH, <- app_assoc. reflexivity.
Qed.

Ltac grows_step := first [reflexivity | apply prefix_app_r; grows_step].
Ltac grows :=
  rewrite ?append_lines_app;
  repeat case_match; simplify_eq/=; grows_step.

Lemma output_optional_stop_grows values gcode :
  gcode `prefix_of` output_optional_stop values gcode.
Proof. unfold output_optional_stop. grows. Qed.

Lemma output_forced_stop_grows values gcode :
  gcode `prefix_of` output_forced_stop values gcode.
Proof. unfold output_forced_stop. grows. Qed.






Lemma output_postop_grows values gcode obj :
  gcode `prefix_of` output_postop values gcode obj.
Proof. unfold output_postop. grows. Qed.


Lemma output_preop_grows values gcode obj :
  gcode `prefix_of` output_preop values gcode obj.
Proof. unfold output_preop. grows. Qed.


Lemma output_start_bcnc_grows values gcode obj :
  gcode `prefix_of` output_start_bcnc values gcode obj.
Proof. unfold output_start_bcnc. grows. Qed.



Lemma output_stock_definition_grows values gcode job gcode' :
  output_stock_definition values gcode job = Ok gcode' ->
  gcode `prefix_of` gcode'.
Proof.
  unfold output_stock_definition. intros Hs.
  destruct (Stock job) as [stock |]; [| by simplify_eq].
  bind_inv Hs. clear Ha.
  destruct a as [[[stock_type offset] size] |]; [| by simplify_eq].
  repeat case_match; repeat bind_inv Hs; simplify_eq; grows.
Qed.

Lemma output_coolant_update_frame values gcode obj :
  frame (values, gcode) (output_coolant_update values gcode obj).
Proof.
  unfold output_coolant_update.
  repeat case_match; simplify_eq/=; split; simpl; try reflexivity; grows.
Qed.

Lemma output_tool_change_frame values gcode tc values' gcode' :
  output_tool_change values gcode tc = Ok (values', gcode') ->
  frame (values, gcode) (values', gcode').
Proof.
  unfold output_tool_change. intros Ht. bind_inv Ht.
  destruct a as [v g]. 
  assert (frame (values, gcode) (v, g)) as [Hc Hp].
  { clear Ht. repeat case_match; repeat bind_inv Ha; simplify_eq/=;
      split; simpl; try reflexivity; grows. }
  simplify_eq/=.
  split; simpl in *; [done |]. etrans; [exact Hp |]. grows.
Qed.
Lemma output_line_grows values gcode command current_parameters
    gcode' current_parameters' command' :
  output_line values gcode command current_parameters
  = Ok (gcode', current_parameters', command') ->
  gcode `prefix_of` gcode'.
Proof.
  unfold output_line. intros Hl. bind_inv Hl.
  destruct a as [[line cur] ps]. grows.
Qed.

Lemma output_arc_grows values gcode command current_parameters
    gcode' current_parameters' command' :
  output_arc values gcode command current_parameters
  = Ok (gcode', current_parameters', command') ->
  gcode `prefix_of` gcode'.
Proof.
  unfold output_arc. intros Hl. bind_inv Hl. bind_inv Hl.
  destruct a0 as [[center_line point_line] cur]. grows.
Qed.

#[local] Instance path_frame_preorder : PreOrder path_frame.
Proof.
  split.
  - intros st. unfold path_frame. reflexivity.
  - intros st st' st''. unfold path_frame. apply transitivity.
Qed.

Lemma parse_command_frame pathobj st command st' :
  parse_command pathobj st command = Ok st' -> path_frame st st'.
Proof.
  destruct st as [[values gcode] cur]. unfold parse_command.
  case_match; [intros [= <-]; reflexivity |].
  set (values1 := if _ : bool then _ else values).
  assert (same_config values values1) as Hv1.
  { subst values1. case_match; reflexivity. }
  intros Hp. bind_inv Hp. destruct a as [gcode1 cur1].
  bind_inv Hp. destruct a as [values2 gcode2].
  assert (gcode `prefix_of` gcode1) as Hg1.
  { clear Hp Ha0. repeat case_match; try bind_inv Ha;
      try destruct a as [[g c] cm];
      simplify_eq/=; try reflexivity;
      eauto using output_line_grows, output_arc_grows. }
  assert (frame (values1, gcode1) (values2, gcode2)) as [Hc2 Hp2].
  { clear Hp Ha. repeat case_match; simplify_eq/=;
      eauto using output_tool_change_frame; split; simpl;
      try reflexivity;
      auto using output_optional_stop_grows, output_forced_stop_grows. }
  simplify_eq/=. split; simpl in *.
  - unfold same_config in *. congruence.
  - by etrans.
Qed.

Lemma bind_ext {A B : Type} (r : result A) (k k' : A -> result B) :
  (forall a, k a = k' a) -> r ≫= k = r ≫= k'.
Proof. intros Hk. destruct r; simpl; [apply Hk | reflexivity]. Qed.

Lemma parse_a_path_frame values gcode pathobj values' gcode' :
  parse_a_path values gcode pathobj = Ok (values', gcode') ->
  frame (values, gcode) (values', gcode').
Proof.
  unfold parse_a_path. case_match; [intros [= <- <-]; reflexivity |].
  case_match; [| discriminate]. intros Hp. bind_inv Hp.
  destruct a as [[v g] cur]. simplify_eq/=.
  eapply (for_each_rel path_frame) in Ha; [exact Ha |].
  apply parse_command_frame.
Qed.

(** The loop over the members of a group is a [for_each]. *)
Lemma parse_a_group_members values gcode name label members path tool :
  parse_a_group values gcode (mkPathObj name label (Some members) path tool)
  = for_each (fun st p => parse_a_group st.1 st.2 p) members
      (values,
       if OUTPUT_COMMENTS values
       then gcode ++ [create_comment values ("Compound: " +:+ label)]
       else gcode).
Proof.
  simpl. generalize (values,
       if OUTPUT_COMMENTS values
       then gcode ++ [create_comment values ("Compound: " +:+ label)]
       else gcode) as st.
  induction members as [| p l IH]; intros st; simpl; [reflexivity |].
  apply bind_ext. intros st'. apply IH.
Qed.

Lemma parse_a_group_frame pathobj : forall values gcode values' gcode',
  parse_a_group values gcode pathobj = Ok (values', gcode') ->
  frame (values, gcode) (values', gcode').
Proof.
  induction pathobj as [name label group path tool IH]
    using PathObj_members_ind.
  intros values gcode values' gcode'.
  destruct group as [members |].
  - rewrite parse_a_group_members.
    set (st := (values, _)).
    assert (frame (values, gcode) st) as Hst.
    { subst st. split; simpl; [reflexivity | grows]. }
    intros Hg. trans st; [exact Hst |]. clear Hst.
    revert Hg. generalize st. clear st.
    induction IH as [| p l Hp Hl IHl]; intros st; simpl.
    + intros [= <-]. reflexivity.
    + intros Hg. bind_inv Hg. destruct st as [v g], a as [v1 g1].
      trans (v1, g1); [eapply Hp, Ha | by apply IHl].
  - destruct path as [cmds |]; simpl.
    + intros Hp%parse_a_path_frame.
      match type of Hp with frame ?st0 _ => trans st0; [| exact Hp] end.
      split; simpl; [reflexivity | grows].
    + intros [= <- <-]. reflexivity.
Qed.

Lemma export_object_frame st obj st' :
  export_object st obj = Ok st' -> frame st st'.
Proof.
  destruct st as [values gcode]. unfold export_object.
  case_match; [intros [= <-]; reflexivity |].
  pose proof (output_coolant_update_frame values
                (output_preop values (output_start_bcnc values gcode obj) obj)
                obj) as Hc.
  destruct (output_coolant_update _ _ _) as [v1 g1].
  intros Ho. bind_inv Ho. destruct a as [v2 g2]. simplify_eq/=.
  apply parse_a_group_frame in Ha.
  match type of Hc with frame ?st0 _ => trans st0 end.
  { split; simpl; [reflexivity |].
    etrans; [apply output_start_bcnc_grows | apply output_preop_grows]. }
  trans (v1, g1); [exact Hc |]. trans (v2, g2); [exact Ha |].
  split; simpl; [reflexivity | apply output_postop_grows].
Qed.

Lemma same_config_pgm values values' job :
  same_config values values' ->
  pgm_job_name values job = pgm_job_name values' job
  /\ pgm_unit values = pgm_unit values'.
Proof.
  intros Hc. unfold pgm_job_name, pgm_unit.
  pose proof (f_equal PGM_UPPERCASE Hc) as Hu.
  pose proof (f_equal UNITS Hc) as Hn. simpl in Hu, Hn.
  by rewrite Hu, Hn.
Qed.

(** The buffer [export] has built when the lines are about to be numbered:
    the begin line, appended to what came before it, and the end line,
    appended after the operations. *)
Lemma export_body_shape values objectslist first values' gcode :
  export_body values objectslist first = Ok (values', gcode) ->
  same_config values values'
  /\ exists before between after,
      gcode =
        output_pgm_begin values before (findParentJob first)
        ++ between
        ++ [ "END PGM " +:+ pgm_job_name values' (findParentJob first)
             +:+ " " +:+ pgm_unit values' ]
        ++ after.
Proof.
  unfold export_body. intros He. bind_inv He. bind_inv He.
  destruct a0 as [v g]. simplify_eq/=.
  apply output_stock_definition_grows in Ha as [l1 ->].
  apply (for_each_rel frame) in Ha0; [| apply export_object_frame].
  destruct Ha0 as [Hc [l2 Hg]]. simpl in Hc, Hg. subst g.
  split; [exact Hc |].
  exists (output_preamble values
            (output_tool_list values
               (output_safetyblock values (output_header values []))
               objectslist)),
    (l1 ++ l2),
    ((if OUTPUT_COMMENTS values'
      then [create_comment values' "Begin postamble"] else [])
     ++ splitlines (TOOLRETURN values') ++ splitlines (SAFETYBLOCK values')
     ++ splitlines (POSTAMBLE values')).
  unfold output_postamble, output_safetyblock, output_tool_return.
  rewrite !append_lines_app. unfold output_postamble_header, output_pgm_end.
  destruct (OUTPUT_COMMENTS values'); simpl; rewrite <- !app_assoc;
    reflexivity.
Qed.

(** *** Program frame *)

(** C6. The begin line and the end line carry the same program name (the
    job's label, or "New" without one, in upper case when [PGM_UPPERCASE]
    is set) and the same unit ("MM" for G21, "INCH" for G20, otherwise
    empty); they differ in the keyword only.  This holds for the two
    routines whenever the two keys agree, and for the buffer [export] has
    built, where the end line is written after all operations. *)
Theorem pgm_begin_end_agree (values : Values) (current_job : Job) :
  let label :=
    match job_Label current_job with Some l => l | None => "New" end in
  let name := if PGM_UPPERCASE values then upper label else label in
  let unit :=
    if String.eqb (UNITS values) "G21" then "MM"
    else if String.eqb (UNITS values) "G20" then "INCH" else "" in
  (forall values' gcode gcode',
      PGM_UPPERCASE values' = PGM_UPPERCASE values ->
      UNITS values' = UNITS values ->
      output_pgm_begin values gcode current_job
      = gcode ++ ["BEGIN PGM " +:+ name +:+ " " +:+ unit]
      /\ output_pgm_end values' gcode' current_job
         = gcode' ++ ["END PGM " +:+ name +:+ " " +:+ unit])
  /\ (forall objectslist first values' gcode,
         findParentJob first = current_job ->
         export_body values objectslist first = Ok (values', gcode) ->
         exists before between after,
           gcode = before ++ ["BEGIN PGM " +:+ name +:+ " " +:+ unit]
                   ++ between
                   ++ ["END PGM " +:+ name +:+ " " +:+ unit] ++ after).
Proof.
  intros label name unit.
  assert (forall values', PGM_UPPERCASE values' = PGM_UPPERCASE values ->
            UNITS values' = UNITS values ->
            pgm_job_name values' current_job = name
            /\ pgm_unit values' = unit) as Hsame.
  { intros values' Hu Hn. unfold pgm_job_name, pgm_unit.
    rewrite Hu, Hn. subst name unit label.
    destruct (job_Label current_job); done. }
  split.
  - intros values' gcode gcode' Hu Hn.
    unfold output_pgm_begin, output_pgm_end.
    destruct (Hsame values eq_refl eq_refl) as [-> ->].
    destruct (Hsame values' Hu Hn) as [-> ->]. done.
  - intros objectslist first values' gcode <- He.
    apply export_body_shape in He
      as (Hc & before & between & after & ->).
    pose proof (f_equal PGM_UPPERCASE Hc) as Hu.
    pose proof (f_equal UNITS Hc) as Hn. simpl in Hu, Hn.
    exists before, between, after. unfold output_pgm_begin.
    destruct (Hsame values eq_refl eq_refl) as [-> ->].
    destruct (Hsame values' (eq_sym Hu) (eq_sym Hn)) as [-> ->].
    by rewrite <- !app_assoc.
Qed.

(** *** Line numbers *)

Lemma is_numbered_config values values' line :
  same_config values values' ->
  is_numbered values line = is_numbered values' line.
Proof.
  intros Hc. unfold is_numbered.
  pose proof (f_equal COMMENT_PREFIX Hc) as Hp.
  pose proof (f_equal LINE_NUMBER_ON_COMMENTS Hc) as Hn. simpl in Hp, Hn.
  by rewrite Hp, Hn.
Qed.

Lemma number_lines_config values values' n lines :
  same_config values values' ->
  number_lines values n lines = number_lines values' n lines.
Proof.
  intros Hc. revert n. induction lines as [| line rest IH]; intros n; simpl.
  - reflexivity.
  - rewrite (is_numbered_config _ _ _ Hc).
    pose proof (f_equal LINE_PREFIX Hc) as Hp.
    pose proof (f_equal LINE_POSTFIX Hc) as Hq.
    pose proof (f_equal LINE_INCREMENT Hc) as Hi. simpl in Hp, Hq, Hi.
    by rewrite Hp, Hq, Hi, !IH.
Qed.

Lemma add_linenumber_at values done line rest :
  add_linenumber (values, done ++ line :: rest) (length done)
  = if is_numbered values line
    then (set_line_number (line_number values + LINE_INCREMENT values)%Z
            values,
          done ++ (LINE_PREFIX values +:+ str_int (line_number values)
                   +:+ LINE_POSTFIX values +:+ line) :: rest)
    else (values, done ++ line :: rest).
Proof.
  unfold add_linenumber, is_numbered.
  rewrite list_lookup_middle by done.
  case_match; [| done]. f_equal.
  rewrite insert_app_r_alt, Nat.sub_diag by lia. done.
Qed.

(** The loop of [add_linenumbers], started at index [length done] with the
    lines [done] already passed. *)
Lemma add_linenumber_loop rest : forall done values,
  exists values',
    foldl add_linenumber (values, done ++ rest)
      (seq (length done) (length rest))
    = (values', done ++ number_lines values (line_number values) rest)
    /\ same_config values values'.
Proof.
  induction rest as [| line rest IH]; intros done values.
  - exists values. split; reflexivity.
  - cbn [length seq foldl number_lines]. rewrite add_linenumber_at.
    destruct (is_numbered values line) eqn:En.
    + set (new := _ +:+ _). set (values1 := set_line_number _ values).
      destruct (IH (done ++ [new]) values1) as (values' & Hl & Hc).
      rewrite length_app, Nat.add_1_r, <- app_assoc in Hl. simpl in Hl.
      exists values'. rewrite Hl. split; [| exact Hc].
      rewrite <- app_assoc. simpl. do 3 f_equal.
      apply number_lines_config. reflexivity.
    + destruct (IH (done ++ [line]) values) as (values' & Hl & Hc).
      rewrite length_app, Nat.add_1_r, <- app_assoc in Hl. simpl in Hl.
      exists values'. rewrite Hl. split; [| exact Hc].
      by rewrite <- app_assoc.
Qed.

Lemma add_linenumbers_number_lines values gcode :
  (add_linenumbers values gcode).2
  = if OUTPUT_LINE_NUMBERS values
    then number_lines values (line_number values) gcode
    else gcode.
Proof.
  unfold add_linenumbers. destruct (OUTPUT_LINE_NUMBERS values); simpl;
    [| reflexivity].
  destruct (add_linenumber_loop gcode [] values) as (values' & Hl & _).
  simpl in Hl. by rewrite Hl.
Qed.

Lemma add_linenumbers_config values gcode :
  same_config values (add_linenumbers values gcode).1.
Proof.
  unfold add_linenumbers. destruct (OUTPUT_LINE_NUMBERS values); simpl;
    [| reflexivity].
  destruct (add_linenumber_loop gcode [] values) as (values' & Hl & Hc).
  simpl in Hl. by rewrite Hl.
Qed.

Lemma number_lines_lookup values lines : forall n i line,
  lines !! i = Some line ->
  number_lines values n lines !! i
  = Some (if is_numbered values line
          then LINE_PREFIX values
               +:+ str_int (n + LINE_INCREMENT values
                                * Z.of_nat (numbered_before values lines i))
               +:+ LINE_POSTFIX values +:+ line
          else line).
Proof.
  unfold numbered_before.
  induction lines as [| l rest IH]; intros n i line; [done |].
  destruct i as [| i]; simpl.
  - intros [= ->]. rewrite Z.mul_0_r, Z.add_0_r. by destruct (is_numbered _ _).
  - intros Hi. destruct (is_numbered values l) eqn:El; simpl.
    + rewrite (IH _ _ _ Hi). destruct (is_numbered values line); [| done].
      do 3 f_equal. f_equal. lia.
    + by rewrite (IH _ _ _ Hi).
Qed.

Lemma number_lines_length values n lines :
  length (number_lines values n lines) = length lines.
Proof.
  revert n. induction lines as [| l rest IH]; intros n; simpl; [done |].
  destruct (is_numbered values l); simpl; by rewrite IH.
Qed.



(** *** Tool change *)

(** C5. With [OUTPUT_TOOL_CHANGE] set, a tool change appends, between the
    two optional comments: M5 if the spindle is to be stopped and is not
    tracked as "None" (the tracked state then becomes "None"), the TOOL
    CALL line with the tool number and the formatted spindle speed, M6, M3
    for a spindle direction "Forward" or M4 for "Reverse", and the lines of
    [TOOL_CHANGE]; and this is what the command loop does for a command
    whose name normalises to M6. *)
Theorem output_tool_change_spec (values : Values) (gcode : Gcode)
    (tc : PathObj) (t : ToolController) :
  OUTPUT_TOOL_CHANGE values = true ->
  ToolCtl tc = Some t ->
  let stop :=
    STOP_SPINDLE_FOR_TOOL_CHANGE values
    && negb (String.eqb (spindle_state values) "None") in
  let values' :=
    set_spindle_dir (SpindleDir t)
      (if stop then set_spindle_state "None" values else values) in
  let gcode' :=
    gcode
    ++ (if OUTPUT_COMMENTS values
        then [create_comment values "Begin toolchange"] else [])
    ++ (if stop then ["M5"] else [])
    ++ ["TOOL CALL " +:+ str_int (ToolNumber t) +:+ " Z S"
        +:+ format_for_spindle values (mkQuantity (SpindleSpeed t) ULength)]
    ++ ["M6"]
    ++ (if String.eqb (SpindleDir t) "Forward" then ["M3"]
        else if String.eqb (SpindleDir t) "Reverse" then ["M4"] else [])
    ++ splitlines (TOOL_CHANGE values)
    ++ (if OUTPUT_COMMENTS values
        then [create_comment values "End toolchange"] else []) in
  output_tool_change values gcode tc = Ok (values', gcode')
  /\ (stop = true -> spindle_state values' = "None")
  /\ forall command current_parameters,
      normalize_name (Name command) = "M6" ->
      parse_command tc (values, gcode, current_parameters) command
      = Ok (values', gcode', current_parameters).
Proof.
  intros Htc Ht stop values' gcode'.
  assert (output_tool_change values gcode tc = Ok (values', gcode')) as Hout.
  { unfold output_tool_change, tool_attr. rewrite Htc, Ht.
    subst values' gcode'. fold stop.
    destruct stop, (OUTPUT_COMMENTS values) eqn:Ec; simpl;
      rewrite ?Ec, append_lines_app; simpl;
      repeat case_match; simpl; rewrite <- ?app_assoc, ?app_nil_r;
      reflexivity. }
  split; [exact Hout |]. split.
  - intros Hs. subst values'. rewrite Hs. reflexivity.
  - intros command cur Hname. unfold parse_command. rewrite Hname. simpl.
    rewrite Hout. reflexivity.
Qed.

End Buffer.

(** ** Numbers on the line *)

Section Formatting.
Context `{Host}.

Lemma rstrip_nil_iff c s : rstrip c s = "" <-> exists k, s = repeat_char c k.
Proof.
  induction s as [| a s IH]; simpl.
  - split; [by exists 0 | done].
  - destruct (rstrip c s) eqn:Er.
    + destruct (Ascii.eqb_spec a c) as [-> | Hne].
      * split; [| done]. intros _.
        destruct (proj1 IH eq_refl) as [k ->]. by exists (S k).
      * split; [done |]. intros [[| k] Hk]; simplify_eq/=.
    + split; [done |]. intros [[| k] Hk]; simplify_eq/=.
      assert (String a0 s0 = "") as Hs; [| done].
      apply IH. by exists k.
Qed.

Lemma rstrip_app c s1 s2 :
  rstrip c (s1 +:+ s2)
  = if String.eqb (rstrip c s2) "" then rstrip c s1
    else s1 +:+ rstrip c s2.
Proof.
  induction s1 as [| a s1 IH].
  - change ("" +:+ s2) with s2. change ("" +:+ rstrip c s2) with (rstrip c s2).
    destruct (String.eqb_spec (rstrip c s2) ""); simpl; congruence.
  - change (String a s1 +:+ s2) with (String a (s1 +:+ s2)).
    simpl. rewrite IH.
    destruct (String.eqb_spec (rstrip c s2) "") as [E | E]; [done |].
    change (String a s1 +:+ rstrip c s2)
      with (String a (s1 +:+ rstrip c s2)).
    destruct (s1 +:+ rstrip c s2) eqn:E2; [| done].
    destruct s1; [| done]. by destruct E.
Qed.

Lemma rstrip_no_char c s : has_char c s = false -> rstrip c s = s.
Proof.
  induction s as [| a s IH]; simpl; [done |].
  intros [Ha Hs]%orb_false_iff. rewrite (IH Hs), Ha. by destruct s.
Qed.

(** [rstrip] removes a run of [c] at the end, the whole of it. *)
Lemma rstrip_spec c s :
  (exists k, s = rstrip c s +:+ repeat_char c k)
  /\ last_char (rstrip c s) <> Some c.
Proof.
  induction s as [| a s [[k IHk] IHl]]; simpl.
  - split; [by exists 0 | done].
  - destruct (rstrip c s) as [| b r] eqn:Er.
    + destruct (Ascii.eqb_spec a c) as [-> | Hne].
      * split; [| done]. exists (S k). by rewrite IHk at 1.
      * split; [| simpl; congruence]. exists k. by rewrite IHk at 1.
    + split; [| exact IHl]. exists k. by rewrite IHk at 1.
Qed.

Lemma replace_char_app c d s1 s2 :
  replace_char c d (s1 +:+ s2) = replace_char c d s1 +:+ replace_char c d s2.
Proof.
  induction s1 as [| a s1 IH]; [done |].
  change (String a s1 +:+ s2) with (String a (s1 +:+ s2)). simpl.
  by rewrite IH.
Qed.

Lemma replace_char_no_char c d s :
  has_char c s = false -> replace_char c d s = s.
Proof.
  induction s as [| a s IH]; simpl; [done |].
  intros [Ha Hs]%orb_false_iff. by rewrite (IH Hs), Ha.
Qed.


Lemma has_char_app c s1 s2 :
  has_char c (s1 +:+ s2) = has_char c s1 || has_char c s2.
Proof.
  induction s1 as [| a s1 IH]; [done |].
  change (String a s1 +:+ s2) with (String a (s1 +:+ s2)). simpl.
  by rewrite IH, orb_assoc.
Qed.

Lemma all_digits_no_char c s :
  is_digit c = false -> all_digits s = true -> has_char c s = false.
Proof.
  intros Hc. induction s as [| a s IH]; simpl; [done |].
  intros [Ha Hs]%andb_true_iff. rewrite (IH Hs), orb_false_r.
  destruct (Ascii.eqb_spec a c) as [-> |]; [congruence | done].
Qed.
Lemma all_digits_app s1 s2 :
  all_digits (s1 +:+ s2) = all_digits s1 && all_digits s2.
Proof.
  induction s1 as [| a s1 IH]; [done |].
  change (String a s1 +:+ s2) with (String a (s1 +:+ s2)). simpl.
  by rewrite IH, andb_assoc.
Qed.

Lemma string_of_uint_digits (d : Decimal.uint) :
  all_digits (NilEmpty.string_of_uint d) = true.
Proof. induction d; simpl; done. Qed.

Lemma string_of_uint_digits_nonempty (d : Decimal.uint) :
  all_digits (NilZero.string_of_uint d) = true
  /\ NilZero.string_of_uint d <> "".
Proof.
  unfold NilZero.string_of_uint.
  destruct d; (split; [try apply (string_of_uint_digits (_ _)) | done]).
  done.
Qed.



Lemma all_digits_rstrip c s :
  all_digits s = true -> all_digits (rstrip c s) = true.
Proof.
  intros Hs. destruct (rstrip_spec c s) as [[k Hk] _].
  rewrite Hk, all_digits_app in Hs. by apply andb_true_iff in Hs as [? _].
Qed.

Lemma rstrip_point_fraction c fraction :
  c <> "."%char ->
  rstrip c ("." +:+ fraction) = "." +:+ rstrip c fraction.
Proof.
  intros Hc. change ("." +:+ fraction) with (String "." fraction).
  cbn [rstrip]. destruct (rstrip c fraction); [| done].
  destruct (Ascii.eqb_spec "." c) as [<- |]; done.
Qed.

(** [format_parameter] on the output of [format_f] with a fraction: the
    zeros that end the fraction go, the point goes with them if nothing
    is left, and a point that stays becomes a comma if asked for. *)
Lemma format_parameter_fraction values sign int_part fraction :
  has_char "." sign = false ->
  all_digits int_part = true -> int_part <> "" ->
  all_digits fraction = true ->
  format_parameter values (sign +:+ int_part +:+ "." +:+ fraction)
  = let kept :=
      if NORMALIZE_PARAMETERS values then rstrip "0" fraction
      else fraction in
    sign +:+ int_part
    +:+ (if NORMALIZE_PARAMETERS values && String.eqb kept "" then ""
         else (if DECIMAL_COMMAS values then "," else ".") +:+ kept).
Proof.
  intros Hsign Hint Hne Hfrac.
  assert (has_char "." int_part = false) as Hip
    by by apply all_digits_no_char.
  assert (forall s, all_digits s = true ->
            replace_char "." "," (sign +:+ int_part +:+ "." +:+ s)
            = sign +:+ int_part +:+ "," +:+ s) as Hrep.
  { intros s Hs. rewrite !replace_char_app.
    rewrite (replace_char_no_char _ _ sign), (replace_char_no_char _ _ int_part),
      (replace_char_no_char _ _ s); try done.
    by apply all_digits_no_char. }
  assert (replace_char "." "," (sign +:+ int_part) = sign +:+ int_part)
    as Hrep0.
  { rewrite replace_char_app. by rewrite !replace_char_no_char. }
  unfold format_parameter.
  rewrite !has_char_app. change (has_char "." ".") with true.
  rewrite !orb_true_r, andb_true_r.
  destruct (NORMALIZE_PARAMETERS values); cbn [andb];
    [| destruct (DECIMAL_COMMAS values); [by apply Hrep | done]].
  pose proof (all_digits_rstrip "0" _ Hfrac) as Hkept.
  set (kept := rstrip "0" fraction) in *.
  assert (forall s t, t <> "" -> String.eqb (s +:+ t) "" = false) as Happ.
  { intros s t Ht. apply String.eqb_neq. by destruct s, t. }
  assert (forall s, "." +:+ s <> "") as Hpt by done.
  assert (rstrip "0" (sign +:+ int_part +:+ "." +:+ fraction)
          = sign +:+ int_part +:+ "." +:+ kept) as ->.
  { assert (rstrip "0" ("." +:+ fraction) = "." +:+ kept) as Hp
      by by apply rstrip_point_fraction.
    rewrite (rstrip_app _ sign), (rstrip_app _ int_part), Hp.
    rewrite (proj2 (String.eqb_neq _ _) (Hpt kept)).
    by rewrite Happ. }
  destruct (String.eqb_spec kept "") as [-> | Hk].
  - rewrite (rstrip_app _ sign), (rstrip_app _ int_part).
    change (rstrip "." ("." +:+ "")) with "".
    rewrite String.eqb_refl, (rstrip_no_char _ int_part Hip).
    rewrite (proj2 (String.eqb_neq _ _) Hne), append_nil_r.
    destruct (DECIMAL_COMMAS values); done.
  - assert (rstrip "." kept = kept) as Hkk
      by by apply rstrip_no_char, all_digits_no_char.
    rewrite (rstrip_app _ sign), (rstrip_app _ int_part),
      (rstrip_app _ "."), Hkk.
    rewrite (proj2 (String.eqb_neq _ _) Hk).
    rewrite (proj2 (String.eqb_neq _ _) (Hpt kept)), Happ by done.
    destruct (DECIMAL_COMMAS values); [by apply Hrep | done].
Qed.

(** Without a fraction there is no point, and the string stays. *)
Lemma format_parameter_integer values sign int_part :
  has_char "." sign = false ->
  all_digits int_part = true ->
  format_parameter values (sign +:+ int_part) = sign +:+ int_part.
Proof.
  intros Hsign Hint.
  assert (has_char "." (sign +:+ int_part) = false) as Hno.
  { rewrite has_char_app, Hsign. by apply all_digits_no_char. }
  unfold format_parameter. rewrite Hno, andb_false_r.
  destruct (DECIMAL_COMMAS values); [| done].
  by apply replace_char_no_char.
Qed.


End Formatting.

(** ** Linear moves *)

Section Lines.
Context `{Host}.

Lemma is_axis_elem p :
  is_axis p = true ->
  p ∈ ["X"; "Y"; "Z"; "A"; "B"; "C"; "I"; "J"; "K"; "F"].
Proof.
  unfold is_axis. rewrite !orb_true_iff, !String.eqb_eq.
  intros [[[[[-> | ->] | ->] | ->] | ->] | ->];
    repeat first [apply list_elem_of_here | apply list_elem_of_further].
Qed.

Lemma tracking_insert cur p q :
  tracking cur -> tracking (<[p := VNum q]> cur).
Proof.
  intros [Hnum HR]. split.
  - intros k Hk. destruct (decide (p = k)) as [-> | Hne].
    + exists q. by rewrite lookup_insert_eq.
    + rewrite lookup_insert_ne by done. by apply Hnum.
  - destruct (decide (p = "R")) as [-> | Hne].
    + by rewrite lookup_insert_eq.
    + by rewrite lookup_insert_ne.
Qed.

Lemma tracking_insert_R cur x :
  tracking cur -> tracking (<["R" := x]> cur).
Proof.
  intros [Hnum HR]. split.
  - intros k Hk. rewrite lookup_insert_ne; [by apply Hnum |].
    intros <-. revert Hk. rewrite !elem_of_cons, elem_of_nil.
    intros Hk. repeat destruct Hk as [Hk | Hk]; done.
  - by rewrite lookup_insert_eq.
Qed.

(** One turn of the loop of [output_line] in absolute mode. *)
Lemma output_line_param_absolute values name line cur ps p :
  MOTION_MODE values <> "G91" ->
  (String.eqb name "G0" = true ->
   ps !! "F" = Some (VNum (FMAX_SPEED values / 60))) ->
  ps !! "M" = None ->
  numeric_moves ps -> tracking cur ->
  output_line_param values name (FMAX_SPEED values / 60) (line, cur, ps) p
  = Ok (if line_changed ps cur p
        then (line +:+ line_word values ps p,
              match ps !! p with Some x => <[p := x]> cur | None => cur end,
              ps)
        else (line, cur, ps))
  /\ tracking (if line_changed ps cur p
               then match ps !! p with Some x => <[p := x]> cur | None => cur end
               else cur).
Proof.
  intros Hmode HF HM Hnum Hcur.
  unfold output_line_param, line_changed, line_word, is_tracked.
  assert ((if String.eqb name "G0"
           then <["F" := VNum (FMAX_SPEED values / 60)]> ps else ps) = ps)
    as ->.
  { destruct (String.eqb name "G0"); [| done]. by apply insert_id, HF. }
  destruct (ps !! p) as [x |] eqn:Ep; [| by rewrite andb_false_r].
  destruct (is_axis p) eqn:Eaxis; cbn [orb andb].
  - rewrite (proj2 (String.eqb_neq _ _) Hmode).
    pose proof (is_axis_elem _ Eaxis) as Hp.
    destruct (proj1 Hcur p Hp) as [c Hc].
    destruct (Hnum p x Hp Ep) as [q ->].
    unfold getitem. rewrite Hc. simpl.
    destruct (negb (Qeq_bool q c)); simpl; [| done].
    split; [done | by apply tracking_insert].
  - destruct (String.eqb_spec p "R") as [-> | HR]; cbn [orb andb].
    + destruct (proj2 Hcur) as [c Hc]. unfold getitem. rewrite Hc. simpl.
      destruct (py_ne x c); simpl; [| done].
      split; [done | by apply tracking_insert_R].
    + destruct (String.eqb_spec p "F") as [-> | HF']; cbn [orb andb].
      * assert ("F" ∈ ["X"; "Y"; "Z"; "A"; "B"; "C"; "I"; "J"; "K"; "F"])
          as Hp
          by repeat first [apply list_elem_of_here | apply list_elem_of_further].
        destruct (proj1 Hcur "F" Hp) as [c Hc].
        destruct (Hnum "F" x Hp Ep) as [q ->].
        unfold getitem. rewrite Hc. simpl.
        destruct (negb (Qeq_bool q c)); simpl; [| done].
        split; [| by apply tracking_insert].
        unfold feed_word. simpl.
        by destruct (USE_FMAX values && Qeq_bool q (FMAX_SPEED values / 60)).
      * destruct (String.eqb_spec p "S"); [done |].
        destruct (String.eqb_spec p "M") as [-> |]; [congruence | done].
Qed.
Lemma line_changed_insert ps cur p x q :
  p <> q -> line_changed ps (<[p := x]> cur) q = line_changed ps cur q.
Proof. intros Hne. unfold line_changed. by rewrite lookup_insert_ne. Qed.

Lemma join_cons w ws : join (w :: ws) = w +:+ join ws.
Proof. reflexivity. Qed.

(** The whole loop of [output_line] in absolute mode: the words of the
    changed parameters, in the order of [PARAMETER_ORDER], and their values
    tracked. *)
Lemma output_line_loop values name ps :
  MOTION_MODE values <> "G91" ->
  (String.eqb name "G0" = true ->
   ps !! "F" = Some (VNum (FMAX_SPEED values / 60))) ->
  ps !! "M" = None ->
  numeric_moves ps ->
  forall l line cur,
    NoDup l -> tracking cur ->
    exists cur',
      for_each (output_line_param values name (FMAX_SPEED values / 60)) l
        (line, cur, ps)
      = Ok (line +:+ join (line_word values ps
                             <$> List.filter (line_changed ps cur) l),
            cur', ps)
      /\ tracking cur'
      /\ forall p,
          cur' !! p
          = if line_changed ps cur p && bool_decide (p ∈ l)
            then ps !! p else cur !! p.
Proof.
  intros Hmode HF HM Hnum.
  induction l as [| p l IH]; intros line cur Hdup Hcur.
  - exists cur. simpl. rewrite append_nil_r. split; [done | split; [done |]].
    intros p. by rewrite andb_false_r.
  - apply NoDup_cons in Hdup as [Hp Hdup].
    destruct (output_line_param_absolute values name line cur ps p
                Hmode HF HM Hnum Hcur) as [Hstep Hcur1].
    cbn [for_each]. rewrite Hstep. cbn [mbind result_bind].
    cbn [List.filter].
    set (cur1 := match ps !! p with Some x => <[p := x]> cur | None => cur end)
      in *.
    assert (forall q, q <> p -> cur1 !! q = cur !! q) as Hother.
    { intros q Hq. subst cur1. destruct (ps !! p); [| done].
      by rewrite lookup_insert_ne. }
    assert (forall q, q <> p ->
              line_changed ps cur1 q = line_changed ps cur q) as Hsame.
    { intros q Hq. unfold line_changed. by rewrite Hother. }
    assert (List.filter (line_changed ps cur1) l
            = List.filter (line_changed ps cur) l) as Hfilter.
    { apply List.filter_ext_in. intros q Hq%list_elem_of_In.
      apply Hsame. intros ->. done. }
    destruct (line_changed ps cur p) eqn:Ech.
    + destruct (IH (line +:+ line_word values ps p) cur1 Hdup Hcur1)
        as (cur' & Hl & Hcur' & Hlook).
      exists cur'. rewrite Hl, Hfilter. cbn [fmap list_fmap].
      rewrite join_cons, append_assoc. split; [done | split; [done |]].
      intros q. rewrite Hlook. destruct (decide (q = p)) as [-> | Hq].
      * rewrite (bool_decide_eq_false_2 _ Hp), andb_false_r, Ech.
        rewrite bool_decide_eq_true_2 by apply list_elem_of_here.
        subst cur1. unfold line_changed in Ech.
        destruct (ps !! p); [by rewrite lookup_insert_eq |].
        by rewrite andb_false_r in Ech.
      * rewrite Hsame, Hother by done.
        destruct (line_changed ps cur q); [| done]. cbn [andb].
        destruct (decide (q ∈ l)) as [Hin | Hin].
        -- rewrite !bool_decide_eq_true_2; [done | | done].
           by apply list_elem_of_further.
        -- rewrite !bool_decide_eq_false_2; [done | | done].
           rewrite elem_of_cons. tauto.
    + destruct (IH line cur Hdup Hcur) as (cur' & Hl & Hcur' & Hlook).
      exists cur'. rewrite Hl. split; [done | split; [done |]].
      intros q. rewrite Hlook. destruct (decide (q = p)) as [-> | Hq].
      * by rewrite Ech.
      * destruct (line_changed ps cur q); [| done]. cbn [andb].
        destruct (decide (q ∈ l)) as [Hin | Hin].
        -- rewrite !bool_decide_eq_true_2; [done | | done].
           by apply list_elem_of_further.
        -- rewrite !bool_decide_eq_false_2; [done | | done].
           rewrite elem_of_cons. tauto.
Qed.
Lemma numeric_moves_line_parameters values command :
  numeric_moves (Parameters command) ->
  numeric_moves (line_parameters values command).
Proof.
  intros Hnum p x Hp. unfold line_parameters.
  assert (p <> "R") as HR.
  { intros ->. revert Hp. rewrite !elem_of_cons, elem_of_nil.
    intros Hp. repeat destruct Hp as [Hp | Hp]; done. }
  destruct (String.eqb (Name command) "G0").
  - destruct (decide (p = "F")) as [-> | HF].
    + rewrite lookup_insert_eq. intros [= <-]. by eexists.
    + rewrite !lookup_insert_ne by done. by apply Hnum.
  - rewrite lookup_insert_ne by done. by apply Hnum.
Qed.

Lemma line_parameters_M values command :
  line_parameters values command !! "M" = Parameters command !! "M".
Proof.
  unfold line_parameters.
  destruct (String.eqb (Name command) "G0"); by rewrite !lookup_insert_ne.
Qed.

(** The rapid feed is written into the command at the first turn of the
    loop; the turn comes out the same if it is there before. *)
Lemma output_line_param_rapid values name FMAX line cur ps p :
  output_line_param values name FMAX (line, cur, ps) p
  = output_line_param values name FMAX
      (line, cur,
       if String.eqb name "G0" then <["F" := VNum FMAX]> ps else ps) p.
Proof.
  unfold output_line_param. destruct (String.eqb name "G0"); [| done].
  by rewrite insert_insert_eq.
Qed.



Lemma numeric_moves_rapid (ps : gmap string pyval) FMAX (b : bool) :
  numeric_moves ps ->
  numeric_moves (if b then <["F" := VNum FMAX]> ps else ps).
Proof.
  intros Hnum. destruct b; [| done]. intros p x Hp.
  destruct (decide (p = "F")) as [-> | HF].
  - rewrite lookup_insert_eq. intros [= <-]. by eexists.
  - rewrite lookup_insert_ne by done. by apply Hnum.
Qed.

(** A turn of the loop of [output_line] for a letter other than "M", or for
    a command without "M", in either motion mode. *)
Lemma output_line_param_ok values name FMAX line cur ps p :
  p <> "M" \/ ps !! "M" = None ->
  numeric_moves ps -> tracking cur ->
  exists line' cur',
    output_line_param values name FMAX (line, cur, ps) p
    = Ok (line', cur',
          if String.eqb name "G0" then <["F" := VNum FMAX]> ps else ps)
    /\ tracking cur'.
Proof.
  intros HM Hnum Hcur. unfold output_line_param.
  apply (numeric_moves_rapid _ FMAX (String.eqb name "G0")) in Hnum.
  assert (p <> "M" \/
          (if String.eqb name "G0" then <["F" := VNum FMAX]> ps else ps)
            !! "M" = None) as HM'.
  { destruct HM as [? | HM]; [by left | right].
    destruct (String.eqb name "G0"); [| done]. by rewrite lookup_insert_ne. }
  clear HM.
  set (ps' := if String.eqb name "G0" then _ else ps) in *. clearbody ps'.
  destruct (ps' !! p) as [x |] eqn:Ep; [| by eexists _, _].
  destruct (is_axis p) eqn:Eaxis.
  - pose proof (is_axis_elem _ Eaxis) as Hp.
    destruct (proj1 Hcur p Hp) as [c Hc].
    destruct (Hnum p x Hp Ep) as [q ->].
    destruct (String.eqb (MOTION_MODE values) "G91").
    + eexists _, _. split; [done | by apply tracking_insert].
    + unfold getitem. rewrite Hc. simpl.
      destruct (negb (Qeq_bool q c)); simpl; eexists _, _;
        (split; [done |]); [by apply tracking_insert | done].
  - destruct (String.eqb_spec p "R") as [-> | HR].
    + destruct (proj2 Hcur) as [c Hc]. unfold getitem. rewrite Hc. simpl.
      destruct (py_ne x c); simpl; eexists _, _;
        (split; [done |]); [by apply tracking_insert_R | done].
    + destruct (String.eqb_spec p "F") as [-> | HF'].
      * assert ("F" ∈ ["X"; "Y"; "Z"; "A"; "B"; "C"; "I"; "J"; "K"; "F"])
          as Hp
          by repeat first [apply list_elem_of_here | apply list_elem_of_further].
        destruct (proj1 Hcur "F" Hp) as [c Hc].
        destruct (Hnum "F" x Hp Ep) as [q ->].
        unfold getitem. rewrite Hc. simpl.
        destruct (negb (Qeq_bool q c)); simpl; [| by eexists _, _].
        unfold feed_word. simpl.
        destruct (USE_FMAX values && Qeq_bool q FMAX); simpl; eexists _, _;
          (split; [done | by apply tracking_insert]).
      * destruct (String.eqb_spec p "S"); [by eexists _, _ |].
        destruct (String.eqb_spec p "M") as [-> |]; [| by eexists _, _].
        destruct HM' as [? | HM']; congruence.
Qed.

(** The turn for "M", when the command has the key. *)
Lemma output_line_param_M values name FMAX line cur ps :
  is_Some (ps !! "M") ->
  output_line_param values name FMAX (line, cur, ps) "M" = Raise NameError.
Proof.
  intros [x Hx]. unfold output_line_param.
  assert ((if String.eqb name "G0" then <["F" := VNum FMAX]> ps else ps)
            !! "M" = Some x) as ->; [| done].
  destruct (String.eqb name "G0"); [| done]. by rewrite lookup_insert_ne.
Qed.

(** What a turn that returns leaves in [command.Parameters]. *)
Lemma output_line_param_Parameters values name FMAX line cur ps p line' cur' ps' :
  output_line_param values name FMAX (line, cur, ps) p = Ok (line', cur', ps') ->
  ps' = if String.eqb name "G0" then <["F" := VNum FMAX]> ps else ps.
Proof.
  unfold output_line_param. intros Hs.
  repeat (case_match; simplify_eq/=; try done);
    repeat (bind_inv Hs; repeat (case_match; simplify_eq/=; try done)).
  all: by injection Hs as <- <- <-.
Qed.
Lemma lookup_M_rapid (ps : gmap string pyval) FMAX (b : bool) :
  (if b then <["F" := VNum FMAX]> ps else ps) !! "M" = ps !! "M".
Proof. destruct b; [| done]. by rewrite lookup_insert_ne. Qed.

Lemma output_line_loop_ok values name FMAX l : forall line cur ps,
  ("M" ∈ l -> ps !! "M" = None) ->
  numeric_moves ps -> tracking cur ->
  exists line' cur' ps',
    for_each (output_line_param values name FMAX) l (line, cur, ps)
    = Ok (line', cur', ps')
    /\ tracking cur'.
Proof.
  induction l as [| p l IH]; intros line cur ps HM Hnum Hcur.
  - by eexists _, _, _.
  - destruct (output_line_param_ok values name FMAX line cur ps p)
      as (line1 & cur1 & Hstep & Hcur1); [| done | done |].
    { destruct (decide (p = "M")) as [-> | ?]; [right | by left].
      apply HM, list_elem_of_here. }
    cbn [for_each]. rewrite Hstep. cbn [mbind result_bind].
    apply IH; [| by apply numeric_moves_rapid | done].
    intros Hin. rewrite lookup_M_rapid. by apply HM, list_elem_of_further.
Qed.

Lemma output_line_loop_NameError values name FMAX l : forall line cur ps,
  "M" ∈ l -> is_Some (ps !! "M") ->
  numeric_moves ps -> tracking cur ->
  for_each (output_line_param values name FMAX) l (line, cur, ps)
  = Raise NameError.
Proof.
  induction l as [| p l IH]; intros line cur ps Hin HM Hnum Hcur.
  - by apply elem_of_nil in Hin.
  - cbn [for_each]. destruct (decide (p = "M")) as [-> | Hp].
    + by rewrite output_line_param_M.
    + destruct (output_line_param_ok values name FMAX line cur ps p)
        as (line1 & cur1 & Hstep & Hcur1); [by left | done | done |].
      rewrite Hstep. cbn [mbind result_bind].
      apply IH; [| by rewrite lookup_M_rapid | by apply numeric_moves_rapid
                 | done].
      apply elem_of_cons in Hin as [? | ?]; congruence.
Qed.

Lemma output_line_loop_raises values name FMAX l : forall line cur ps,
  "M" ∈ l -> is_Some (ps !! "M") ->
  exists e,
    for_each (output_line_param values name FMAX) l (line, cur, ps) = Raise e.
Proof.
  induction l as [| p l IH]; intros line cur ps Hin HM.
  - by apply elem_of_nil in Hin.
  - cbn [for_each]. destruct (decide (p = "M")) as [-> | Hp].
    + rewrite output_line_param_M by done. by eexists.
    + destruct (output_line_param values name FMAX (line, cur, ps) p)
        as [[[line1 cur1] ps1] |] eqn:Hstep; [| by eexists].
      apply output_line_param_Parameters in Hstep as ->.
      cbn [mbind result_bind]. apply IH; [| by rewrite lookup_M_rapid].
      apply elem_of_cons in Hin as [? | ?]; congruence.
Qed.

(** C10. With "M" among the letters of [PARAMETER_ORDER], [output_line]
    never returns for a command that has the key "M": the call raises, and
    what it raises is the [NameError] of the "M" branch whenever the other
    parameters are floats and the tracked ones are in place; nothing in the
    command loop catches it.  For such parameters and a command without "M"
    it returns. *)
Theorem output_line_M_parameter (values : Values) (gcode : Gcode)
    (command : Command) (current_parameters : gmap string pyval) :
  ("M" ∈ PARAMETER_ORDER values ->
   is_Some (Parameters command !! "M") ->
   (exists e,
       output_line values gcode command current_parameters = Raise e)
   /\ (numeric_moves (Parameters command) ->
       tracking current_parameters ->
       output_line values gcode command current_parameters = Raise NameError
       /\ forall pathobj,
           normalize_name (Name command) = "G0"
           \/ normalize_name (Name command) = "G1" ->
           parse_command pathobj (values, gcode, current_parameters) command
           = Raise NameError))
  /\ (Parameters command !! "M" = None ->
      numeric_moves (Parameters command) ->
      tracking current_parameters ->
      exists r, output_line values gcode command current_parameters = Ok r).
Proof.
  assert (numeric_moves (Parameters command) ->
          numeric_moves (<["R" := VStr "0"]> (Parameters command))) as HnumR.
  { intros Hnum p x Hp. rewrite lookup_insert_ne; [by apply Hnum |].
    intros <-. revert Hp. rewrite !elem_of_cons, elem_of_nil.
    intros Hp. repeat destruct Hp as [Hp | Hp]; done. }
  assert ("M" ∈ PARAMETER_ORDER values ->
          is_Some (Parameters command !! "M") ->
          numeric_moves (Parameters command) ->
          tracking current_parameters ->
          output_line values gcode command current_parameters
          = Raise NameError) as Hraise.
  { intros Hin HM Hnum Hcur. unfold output_line.
    rewrite output_line_loop_NameError; try done; [| by apply HnumR].
    by rewrite lookup_insert_ne. }
  split; [intros Hin HM; split |].
  - destruct (output_line_loop_raises values (Name command)
                (FMAX_SPEED values / 60) (PARAMETER_ORDER values) "L"
                current_parameters
                (<["R" := VStr "0"]> (Parameters command)))
      as [e He]; [done | by rewrite lookup_insert_ne |].
    exists e. unfold output_line. by rewrite He.
  - intros Hnum Hcur. split; [by apply Hraise |].
    intros pathobj Hname. unfold parse_command.
    destruct Hname as [-> | ->]; cbn; by rewrite Hraise.
  - intros HM Hnum Hcur. unfold output_line.
    destruct (output_line_loop_ok values (Name command)
                (FMAX_SPEED values / 60) (PARAMETER_ORDER values) "L"
                current_parameters
                (<["R" := VStr "0"]> (Parameters command)))
      as (line & cur' & ps' & Hl & _); [| by apply HnumR | done |].
    { intros _. by rewrite lookup_insert_ne. }
    rewrite Hl. cbn [mbind result_bind]. case_match; by eexists.
Qed.

End Lines.

(** ** Circular moves *)

Section Arcs.
Context `{Host}.


Lemma elem_numeric_keys p :
  p ∈ ["X"; "Y"; "Z"; "A"; "B"; "C"; "I"; "J"; "K"; "F"] <->
  p = "X" \/ p = "Y" \/ p = "Z" \/ p = "A" \/ p = "B" \/ p = "C"
  \/ p = "I" \/ p = "J" \/ p = "K" \/ p = "F".
Proof. rewrite !elem_of_cons, elem_of_nil. tauto. Qed.

(** One turn of the loop over the pairs of an axis and its offset. *)
Lemma arc_center_step_spec (ps cur : gmap string pyval) axis offset :
  axis <> offset ->
  axis ∈ ["X"; "Y"; "Z"; "A"; "B"; "C"; "I"; "J"; "K"; "F"] ->
  offset ∈ ["X"; "Y"; "Z"; "A"; "B"; "C"; "I"; "J"; "K"; "F"] ->
  numeric_moves ps -> tracking cur ->
  exists cur',
    arc_center_step ps cur (axis, offset) = Ok cur'
    /\ tracking cur'
    /\ cur' !! offset
       = match ps !! offset, cur !! axis with
         | Some (VNum o), Some (VNum a) => Some (VNum (a + o))
         | _, _ => cur !! offset
         end
    /\ cur' !! axis
       = match ps !! axis with Some x => Some x | None => cur !! axis end
    /\ forall k, k <> axis -> k <> offset -> cur' !! k = cur !! k.
Proof.
  intros Hne Ha Ho Hnum Hcur. unfold arc_center_step.
  destruct (proj1 Hcur axis Ha) as [a Hca]. rewrite Hca.
  destruct (ps !! offset) as [o |] eqn:Eo.
  - destruct (Hnum offset o Ho Eo) as [qo ->].
    unfold getitem. rewrite Hca. cbn [mbind result_bind py_add].
    destruct (ps !! axis) as [x |] eqn:Ex.
    + destruct (Hnum axis x Ha Ex) as [qx ->].
      eexists. split; [done |]. split; [by do 2 apply tracking_insert |].
      split; [by rewrite lookup_insert_ne, lookup_insert_eq |].
      split; [by rewrite lookup_insert_eq |].
      intros k Hka Hko. by rewrite !lookup_insert_ne.
    + eexists. split; [done |]. split; [by apply tracking_insert |].
      split; [by rewrite lookup_insert_eq |].
      split; [by rewrite lookup_insert_ne |].
      intros k Hka Hko. by rewrite !lookup_insert_ne.
  - cbn [mbind result_bind]. destruct (ps !! axis) as [x |] eqn:Ex.
    + destruct (Hnum axis x Ha Ex) as [qx ->].
      eexists. split; [done |]. split; [by apply tracking_insert |].
      split; [by rewrite lookup_insert_ne |].
      split; [by rewrite lookup_insert_eq |].
      intros k Hka Hko. by rewrite !lookup_insert_ne.
    + eexists. split; [done |]. split; [done |]. by rewrite Hca.
Qed.






(** The loop over the three pairs: the centre is the position before the
    move plus the offset, and the position becomes the end point. *)
Lemma arc_centers_spec (ps cur : gmap string pyval) x0 y0 :
  numeric_moves ps -> tracking cur ->
  cur !! "X" = Some (VNum x0) -> cur !! "Y" = Some (VNum y0) ->
  exists cur',
    for_each (arc_center_step ps) [("X", "I"); ("Y", "J"); ("Z", "K")] cur
    = Ok cur'
    /\ tracking cur'
    /\ cur' !! "X"
       = match ps !! "X" with Some x => Some x | None => Some (VNum x0) end
    /\ cur' !! "Y"
       = match ps !! "Y" with Some y => Some y | None => Some (VNum y0) end
    /\ cur' !! "I"
       = match ps !! "I" with
         | Some (VNum i) => Some (VNum (x0 + i))
         | _ => cur !! "I"
         end
    /\ cur' !! "J"
       = match ps !! "J" with
         | Some (VNum j) => Some (VNum (y0 + j))
         | _ => cur !! "J"
         end
    /\ cur' !! "R" = cur !! "R"
    /\ cur' !! "F" = cur !! "F".
Proof.
  intros Hnum Hcur HX HY.
  destruct (arc_center_step_spec ps cur "X" "I")
    as (cur1 & Hs1 & Hcur1 & HI1 & HX1 & Ho1);
    [done | apply elem_numeric_keys; tauto | apply elem_numeric_keys; tauto | done | done |].
  destruct (arc_center_step_spec ps cur1 "Y" "J")
    as (cur2 & Hs2 & Hcur2 & HJ2 & HY2 & Ho2);
    [done | apply elem_numeric_keys; tauto | apply elem_numeric_keys; tauto | done | done |].
  destruct (arc_center_step_spec ps cur2 "Z" "K")
    as (cur3 & Hs3 & Hcur3 & HK3 & HZ3 & Ho3);
    [done | apply elem_numeric_keys; tauto | apply elem_numeric_keys; tauto | done | done |].
  exists cur3. cbn [for_each]. rewrite Hs1. cbn [mbind result_bind].
  rewrite Hs2. cbn [mbind result_bind]. rewrite Hs3.
  split; [done |]. split; [done |].
  rewrite !Ho3 by done.
  rewrite (Ho2 "X"), (Ho2 "I"), (Ho2 "R"), (Ho2 "F"), HJ2, HY2 by done.
  rewrite (Ho1 "Y"), (Ho1 "J"), (Ho1 "R"), (Ho1 "F"), HI1, HX1 by done.
  rewrite HX, HY.
  repeat split; done.
Qed.

End Arcs.

(** ** What export returns *)

Section ExportResult.
Context `{Host}.

(** A turn of the loop of [output_arc], in either motion mode. *)
Lemma output_arc_param_ok values FMAX ps center point cur p :
  numeric_moves ps -> tracking cur ->
  exists center' point' cur',
    output_arc_param values FMAX ps (center, point, cur) p
    = Ok (center', point', cur')
    /\ tracking cur'.
Proof.
  intros Hnum Hcur. unfold output_arc_param.
  destruct (ps !! p) as [x |] eqn:Ep; [| by eexists _, _, _].
  destruct (String.eqb_spec p "X") as [-> | ?];
    [| destruct (String.eqb_spec p "Y") as [-> | ?];
       [| destruct (String.eqb_spec p "Z") as [-> | ?]]]; cbn [orb].
  1-2: destruct (String.eqb (MOTION_MODE values) "G91");
    [eexists _, _, _; split; [done | by apply tracking_insert] |];
    match goal with
    | |- context [getitem _ ?k] =>
        destruct (proj1 Hcur k) as [c Hc]; [apply elem_numeric_keys; tauto |];
        unfold getitem; rewrite Hc; by eexists _, _, _
    end.
  { by eexists _, _, _. }
  destruct (String.eqb_spec p "I") as [-> | ?];
    [| destruct (String.eqb_spec p "J") as [-> | ?];
       [| destruct (String.eqb_spec p "K") as [-> | ?]]]; cbn [orb].
  1-2: match goal with
    | |- context [getitem _ ?k] =>
        destruct (proj1 Hcur k) as [c Hc]; [apply elem_numeric_keys; tauto |];
        unfold getitem; rewrite Hc; by eexists _, _, _
    end.
  { by eexists _, _, _. }
  destruct (String.eqb_spec p "D") as [-> | ?]; [by eexists _, _, _ |].
  destruct (String.eqb_spec p "R") as [-> | ?].
  { destruct (proj2 Hcur) as [c Hc]. unfold getitem. rewrite Hc.
    cbn [mbind result_bind]. destruct (py_ne x c); eexists _, _, _;
      (split; [done |]); [by apply tracking_insert_R | done]. }
  destruct (String.eqb_spec p "F") as [-> | ?].
  { destruct (proj1 Hcur "F") as [c Hc]; [apply elem_numeric_keys; tauto |].
    destruct (Hnum "F" x) as [q ->]; [apply elem_numeric_keys; tauto | done |].
    unfold getitem. rewrite Hc. cbn [mbind result_bind py_ne].
    destruct (negb (Qeq_bool q c)); [| by eexists _, _, _].
    unfold feed_word. cbn [py_eq_num].
    destruct (USE_FMAX values && Qeq_bool q FMAX); cbn;
      eexists _, _, _; (split; [done | by apply tracking_insert]). }
  destruct (String.eqb p "M"); by eexists _, _, _.
Qed.

Lemma output_arc_loop_ok values FMAX ps l : forall center point cur,
  numeric_moves ps -> tracking cur ->
  exists center' point' cur',
    for_each (output_arc_param values FMAX ps) l (center, point, cur)
    = Ok (center', point', cur')
    /\ tracking cur'.
Proof.
  induction l as [| p l IH]; intros center point cur Hnum Hcur.
  - by eexists _, _, _.
  - destruct (output_arc_param_ok values FMAX ps center point cur p Hnum Hcur)
      as (center1 & point1 & cur1 & Hs & Hcur1).
    cbn [for_each]. rewrite Hs. cbn [mbind result_bind]. by apply IH.
Qed.

Lemma output_arc_ok values gcode command cur :
  numeric_moves (Parameters command) -> tracking cur ->
  exists gcode' cur' command',
    output_arc values gcode command cur = Ok (gcode', cur', command')
    /\ tracking cur'.
Proof.
  intros Hnum Hcur. unfold output_arc.
  assert (exists cur1,
            (if String.eqb (MOTION_MODE values) "G91" then Ok cur
             else for_each (arc_center_step (Parameters command))
                    [("X", "I"); ("Y", "J"); ("Z", "K")] cur) = Ok cur1
            /\ tracking cur1) as (cur1 & -> & Hcur1).
  { destruct (String.eqb (MOTION_MODE values) "G91"); [by exists cur |].
    destruct (proj1 Hcur "X") as [x0 HX]; [apply elem_numeric_keys; tauto |].
    destruct (proj1 Hcur "Y") as [y0 HY]; [apply elem_numeric_keys; tauto |].
    destruct (arc_centers_spec _ _ x0 y0 Hnum Hcur HX HY)
      as (cur1 & Hpre & Hcur1 & _).
    by exists cur1. }
  cbn [mbind result_bind].
  set (ps' := <["R" := VStr "0"]> _).
  assert (numeric_moves ps') as Hnum'.
  { intros k x Hk. subst ps'.
    assert (k <> "R" /\ k <> "D") as [HkR HkD].
    { apply elem_numeric_keys in Hk.
      split; intros ->; repeat destruct Hk as [Hk | Hk]; done. }
    rewrite lookup_insert_ne by done.
    repeat case_match; rewrite ?lookup_insert_ne by done; by apply Hnum. }
  destruct (output_arc_loop_ok values (FMAX_SPEED values / 60) ps'
              (PARAMETER_ORDER values) "CC" "C" cur1 Hnum' Hcur1)
    as (center & point & cur2 & Hl & Hcur2).
  rewrite Hl. cbn [mbind result_bind]. by eexists _, _, _.
Qed.

Lemma output_line_ok values gcode command cur :
  Parameters command !! "M" = None ->
  numeric_moves (Parameters command) -> tracking cur ->
  exists gcode' cur' command',
    output_line values gcode command cur = Ok (gcode', cur', command')
    /\ tracking cur'.
Proof.
  intros HM Hnum Hcur. unfold output_line.
  destruct (output_line_loop_ok values (Name command)
              (FMAX_SPEED values / 60) (PARAMETER_ORDER values) "L" cur
              (<["R" := VStr "0"]> (Parameters command)))
    as (line & cur' & ps' & Hl & Hcur'); [| | done |].
  { intros _. by rewrite lookup_insert_ne. }
  { intros p x Hp. rewrite lookup_insert_ne; [by apply Hnum |].
    intros <-. apply elem_numeric_keys in Hp.
    repeat destruct Hp as [Hp | Hp]; done. }
  rewrite Hl. cbn [mbind result_bind]. case_match; by eexists _, _, _.
Qed.
Lemma output_tool_change_ok values gcode tc :
  is_Some (ToolCtl tc) ->
  exists r, output_tool_change values gcode tc = Ok r.
Proof.
  intros [t Ht]. unfold output_tool_change, tool_attr. rewrite Ht.
  destruct (OUTPUT_TOOL_CHANGE values); [| by eexists].
  destruct (STOP_SPINDLE_FOR_TOOL_CHANGE values
            && negb (String.eqb (spindle_state values) "None"));
    by eexists.
Qed.

Lemma parse_command_ok pathobj values gcode cur command :
  command_ok (bool_decide (is_Some (ToolCtl pathobj))) command ->
  tracking cur ->
  exists values' gcode' cur',
    parse_command pathobj (values, gcode, cur) command
    = Ok (values', gcode', cur')
    /\ tracking cur'.
Proof.
  intros (Hnum & HM & Htool) Hcur. unfold parse_command.
  set (name := normalize_name (Name command)) in *.
  destruct (String.eqb name "" && negb (OUTPUT_BLANK_LINES values));
    [by eexists _, _, _ |].
  set (values1 := if _ : bool then _ else values). clearbody values1.
  assert (exists gcode1 cur1,
            (if String.eqb name "G0" || String.eqb name "G1"
             then output_line values1 gcode command cur
                  ≫= (fun '(gcode, current_parameters, _) =>
                         Ok (gcode, current_parameters))
             else if String.eqb name "G2" || String.eqb name "G3"
             then output_arc values1 gcode command cur
                  ≫= (fun '(gcode, current_parameters, _) =>
                         Ok (gcode, current_parameters))
             else Ok (gcode, cur)) = Ok (gcode1, cur1)
            /\ tracking cur1) as (gcode1 & cur1 & Hmove & Hcur1).
  { destruct (String.eqb name "G0" || String.eqb name "G1") eqn:Eline.
    - destruct (output_line_ok values1 gcode command cur)
        as (g & c & cm & -> & Hc); [| done | done | by eexists _, _].
      apply HM. apply orb_true_iff in Eline.
      by rewrite <- !String.eqb_eq.
    - destruct (String.eqb name "G2" || String.eqb name "G3");
        [| by eexists _, _].
      destruct (output_arc_ok values1 gcode command cur Hnum Hcur)
        as (g & c & cm & -> & Hc). by eexists _, _. }
  match goal with
  | |- context [mbind ?k ?r] =>
      match r with
      | context [output_line] => change r with
          (if String.eqb name "G0" || String.eqb name "G1"
             then output_line values1 gcode command cur
                  ≫= (fun '(gcode, current_parameters, _) =>
                         Ok (gcode, current_parameters))
             else if String.eqb name "G2" || String.eqb name "G3"
             then output_arc values1 gcode command cur
                  ≫= (fun '(gcode, current_parameters, _) =>
                         Ok (gcode, current_parameters))
             else Ok (gcode, cur))
      end
  end.
  rewrite Hmove. cbn [mbind result_bind].
  destruct (String.eqb name "M1"); [by eexists _, _, _ |].
  destruct (String.eqb name "M2" || String.eqb name "M30");
    [by eexists _, _, _ |].
  destruct (String.eqb_spec name "M6") as [HM6 |]; [| by eexists _, _, _].
  destruct (output_tool_change_ok values1 gcode1 pathobj) as [[v g] ->].
  { eapply bool_decide_eq_true_1, Htool, HM6. }
  by eexists _, _, _.
Qed.
Lemma tracking_initial_parameters : tracking initial_parameters.
Proof.
  split.
  - intros p Hp. apply elem_numeric_keys in Hp.
    repeat destruct Hp as [-> | Hp]; try subst p; by eexists.
  - by eexists.
Qed.

Lemma parse_commands_ok pathobj Commands : forall values gcode cur,
  Forall (command_ok (bool_decide (is_Some (ToolCtl pathobj)))) Commands ->
  tracking cur ->
  exists st,
    for_each (parse_command pathobj) Commands (values, gcode, cur) = Ok st.
Proof.
  induction Commands as [| command l IH]; intros values gcode cur Hok Hcur.
  - by eexists.
  - apply Forall_cons in Hok as [Hc Hl].
    destruct (parse_command_ok pathobj values gcode cur command Hc Hcur)
      as (values1 & gcode1 & cur1 & Hs & Hcur1).
    cbn [for_each]. rewrite Hs. cbn [mbind result_bind]. by apply IH.
Qed.

Lemma parse_a_group_ok pathobj : forall values gcode,
  object_ok pathobj ->
  exists r, parse_a_group values gcode pathobj = Ok r.
Proof.
  induction pathobj as [name label group path tool IH]
    using PathObj_members_ind.
  intros values gcode Hok. destruct group as [members |].
  - rewrite parse_a_group_members.
    inversion Hok as [? ? ? ? ? Hmembers |]; subst.
    generalize (values,
                if OUTPUT_COMMENTS values
                then gcode ++ [create_comment values ("Compound: " +:+ label)]
                else gcode) as st.
    clear Hok. induction IH as [| p l Hp Hl IHl]; intros st.
    + by eexists.
    + apply Forall_cons in Hmembers as [Hpok Hlok].
      destruct (Hp st.1 st.2 Hpok) as [st1 Hst1].
      cbn [for_each]. rewrite Hst1. cbn [mbind result_bind]. by apply IHl.
  - inversion Hok as [| ? ? ? ? Hpath]; subst.
    destruct path as [Commands |]; [| by eexists].
    cbn [parse_a_group]. unfold parse_a_path. cbn [obj_Name Path].
    destruct (contains "Fixture" name); [by eexists |].
    destruct (parse_commands_ok
                (mkPathObj name label None (Some Commands) tool) Commands
                values
                (if OUTPUT_PATH_LABELS values && OUTPUT_COMMENTS values
                 then gcode ++ [create_comment values ("Compound: " +:+ label)]
                 else gcode) initial_parameters)
      as [[[v g] c] ->];
      [by apply Hpath | apply tracking_initial_parameters | by eexists].
Qed.

Lemma output_stock_definition_ok values gcode current_job :
  job_ok current_job ->
  exists gcode', output_stock_definition values gcode current_job = Ok gcode'.
Proof.
  intros Hjob. unfold output_stock_definition.
  destruct (Stock current_job) as [stock |] eqn:Es; [| by eexists].
  destruct (Hjob stock Es) as [[[x y] z] ->].
  unfold getnum.
  repeat (case_match; simplify_map_eq/=; try by eexists).
Qed.

Lemma export_object_ok values gcode obj :
  object_ok obj ->
  exists r, export_object (values, gcode) obj = Ok r.
Proof.
  intros Hok. unfold export_object.
  destruct (negb (activeForOp obj)); [by eexists |].
  destruct (output_coolant_update _ _ _) as [v g].
  destruct (parse_a_group_ok obj v g Hok) as [[v' g'] ->]. by eexists.
Qed.

Lemma export_objects_ok objectslist : forall st,
  Forall object_ok objectslist ->
  exists r, for_each export_object objectslist st = Ok r.
Proof.
  induction objectslist as [| obj l IH]; intros [values gcode] Hok.
  - by eexists.
  - apply Forall_cons in Hok as [Ho Hl].
    destruct (export_object_ok values gcode obj Ho) as [st1 Hs].
    cbn [for_each]. rewrite Hs. cbn [mbind result_bind]. by apply IH.
Qed.

Lemma export_body_ok values objectslist first :
  job_ok (findParentJob first) ->
  Forall object_ok objectslist ->
  exists r, export_body values objectslist first = Ok r.
Proof.
  intros Hjob Hok. unfold export_body.
  match goal with
  | |- context [output_stock_definition ?v ?g ?j] =>
      destruct (output_stock_definition_ok v g j Hjob) as [g1 ->]
  end.
  cbn [mbind result_bind].
  destruct (export_objects_ok objectslist (values, g1) Hok) as [[v g] ->].
  by eexists.
Qed.

Lemma export_ok values objectslist filename :
  Forall object_ok objectslist ->
  (forall first, head objectslist = Some first ->
                 job_ok (findParentJob first)) ->
  exists out, export values objectslist filename = Ok out.
Proof.
  intros Hok Hjob. unfold export. case_match; [by eexists |].
  destruct objectslist as [| first rest]; [by eexists |].
  destruct (export_body_ok values (first :: rest) first) as [[v g] ->];
    [by apply Hjob | done |].
  cbn [mbind result_bind]. destruct (add_linenumbers v g). by eexists.
Qed.



End ExportResult.

(** * The theorems at work on sample inputs *)

Lemma numeric_moves_params (l : list (string * Q)) : numeric_moves (params l).
Proof.
  intros p x _. unfold params. intros Hp.
  apply elem_of_list_to_map_2 in Hp.
  apply list_elem_of_fmap in Hp as ([k q] & [= -> ->] & _). by eexists.
Qed.


Lemma output_coolant_update_refactored_agree_witness :
  let obj := sample_profile in
  ("Flood" = "None" \/ "Flood" = "Flood" \/ "Flood" = "Mist")
  /\ @coolantModeForOp sample_host obj = "Flood"
  /\ ENABLE_COOLANT sample_values = true
  /\ coolant_mode sample_values <> "Flood"
  /\ (@output_coolant_update sample_host sample_values [] obj).2
     = Refactored.output_coolant_update sample_values [] "Flood".
Proof.
  intros obj.
  assert ("Flood" = "None" \/ "Flood" = "Flood" \/ "Flood" = "Mist") as Hmode
    by (right; left; reflexivity).
  split; [exact Hmode |]. split; [reflexivity |]. split; [reflexivity |].
  split; [discriminate |].
  apply (@output_coolant_update_refactored_agree sample_host
           sample_values sample_values [] obj "Flood" Hmode);
    try reflexivity; discriminate.
Defined.

Lemma pgm_begin_end_agree_witness :
  exists values' gcode,
    @export_body sample_host sample_values [sample_tool; sample_profile]
      sample_tool = Ok (values', gcode)
    /\ exists before between after,
        gcode = before ++ ["BEGIN PGM JOB MM"] ++ between
                ++ ["END PGM JOB MM"] ++ after.
Proof.
  eexists _, _. split; [vm_compute; reflexivity |].
  eapply (proj2 (@pgm_begin_end_agree sample_host sample_values sample_job)
            [sample_tool; sample_profile] sample_tool).
  - reflexivity.
  - vm_compute. reflexivity.
Defined.


Lemma output_tool_change_spec_witness :
  OUTPUT_TOOL_CHANGE sample_values = true
  /\ ToolCtl sample_tool = Some (mkToolController 2 "Forward" 4000)
  /\ output_tool_change sample_values [] sample_tool
     = Ok (set_spindle_dir "Forward" sample_values,
           ["; (Begin toolchange)"; "TOOL CALL 2 Z S4000"; "M6"; "M3";
            "; (End toolchange)"]).
Proof.
  split; [reflexivity |]. split; [reflexivity |].
  apply (proj1 (@output_tool_change_spec sample_host sample_values []
                  sample_tool (mkToolController 2 "Forward" 4000)
                  eq_refl eq_refl)).
Defined.



Lemma output_line_M_parameter_witness :
  "M" ∈ PARAMETER_ORDER sample_values
  /\ is_Some (Parameters sample_line_M !! "M")
  /\ numeric_moves (Parameters sample_line_M)
  /\ tracking initial_parameters
  /\ @output_line sample_host sample_values [] sample_line_M
       initial_parameters = Raise NameError.
Proof.
  assert ("M" ∈ PARAMETER_ORDER sample_values) as Hin
    by (apply (bool_decide_unpack _); vm_compute; exact I).
  assert (is_Some (Parameters sample_line_M !! "M")) as HM
    by (exists (VNum 3); reflexivity).
  pose proof (numeric_moves_params [("X", 10%Q); ("M", 3%Q)]) as Hnum.
  pose proof tracking_initial_parameters as Hcur.
  repeat (split; [assumption |]).
  exact (proj1 (proj2 (proj1 (@output_line_M_parameter sample_host
                                sample_values [] sample_line_M
                                initial_parameters) Hin HM)
                  Hnum Hcur)).
Defined.






(** * Further properties

    Properties of further routines of the two scripts, and of the routines
    above on other inputs: incremental mode, repeated calls, exceptions. *)

Section Further.
Context `{Host}.

#[local] Existing Instance frame_preorder.
#[local] Existing Instance path_frame_preorder.

(** ** Further properties: the shape of a line *)

Lemma starts_L_append line w :
  line = "L" \/ (exists rest, line = "L " +:+ rest) ->
  exists rest, line +:+ " " +:+ w = "L " +:+ rest.
Proof.
  intros [-> | [rest ->]].
  - by exists w.
  - exists (rest +:+ " " +:+ w). by rewrite append_assoc.
Qed.

Lemma feed_word_space values FMAX f w :
  feed_word values FMAX f = Ok w -> exists w', w = " " +:+ w'.
Proof.
  unfold feed_word. case_match; [intros [= <-]; by eexists |].
  intros Hw. bind_inv Hw. injection Hw as <-. by eexists.
Qed.

Lemma output_line_param_shape values name FMAX line cur ps p line' cur' ps' :
  output_line_param values name FMAX (line, cur, ps) p = Ok (line', cur', ps') ->
  line = "L" \/ (exists rest, line = "L " +:+ rest) ->
  line' = "L" \/ (exists rest, line' = "L " +:+ rest).
Proof.
  unfold output_line_param. intros Hs HL.
  repeat (case_match; simplify_eq/=; try done);
    repeat (bind_inv Hs; repeat (case_match; simplify_eq/=; try done)).
  all: try (injection Hs as <- <- <-).
  all: try (right; by apply starts_L_append).
  all: try match goal with
       | Hw : feed_word _ _ _ = Ok ?w |- _ =>
           apply feed_word_space in Hw as [w' ->]; right;
           by apply starts_L_append
       end.
Qed.

Lemma output_line_loop_shape values name FMAX l :
  forall line cur ps line' cur' ps',
    for_each (output_line_param values name FMAX) l (line, cur, ps)
    = Ok (line', cur', ps') ->
    line = "L" \/ (exists rest, line = "L " +:+ rest) ->
    line' = "L" \/ (exists rest, line' = "L " +:+ rest).
Proof.
  induction l as [| p l IH]; intros line cur ps line' cur' ps' Hf HL.
  - by injection Hf as <- <- <-.
  - cbn [for_each] in Hf. bind_inv Hf. destruct a as [[line1 cur1] ps1].
    eapply IH; [exact Hf |]. by eapply output_line_param_shape.
Qed.

(** X1. Whatever the motion mode and the parameters, a line [output_line]
    appends is "L", a space and words; it never appends the bare "L", and it
    leaves the lines before untouched. *)
Theorem output_line_shape (values : Values) (gcode : Gcode) (command : Command)
    (current_parameters : gmap string pyval) gcode' current_parameters'
    command' :
  output_line values gcode command current_parameters
  = Ok (gcode', current_parameters', command') ->
  gcode' = gcode \/ exists rest, gcode' = gcode ++ ["L " +:+ rest].
Proof.
  unfold output_line. intros Hl. bind_inv Hl.
  destruct a as [[line cur] ps].
  apply output_line_loop_shape in Ha; [| by left].
  destruct (String.eqb_spec line "L") as [-> | Hne].
  - left. by injection Hl as <- _ _.
  - right. destruct Ha as [-> | [rest ->]]; [done |].
    exists rest. by injection Hl as <- _ _.
Qed.

(** ** Further properties: incremental mode *)




(** ** Further properties: coolant over several operations *)

Lemma set_coolant_mode_twice m values :
  set_coolant_mode m (set_coolant_mode m values) = set_coolant_mode m values.
Proof. reflexivity. Qed.

(** X3. A second call of [output_coolant_update] for the same operation adds
    nothing, except when the requested mode is not supported and another one
    is used in its place: the mode on record is then never the requested one,
    and the comment and the command are written again at every call. *)
Theorem output_coolant_update_again (values : Values) (gcode : Gcode)
    (obj : PathObj) :
  let new_coolant_mode := coolantModeForOp obj in
  let st := output_coolant_update values gcode obj in
  output_coolant_update st.1 st.2 obj
  = match coolant_case new_coolant_mode (SUPPORT_FLOOD_COOLANT values)
            (SUPPORT_MIST_COOLANT values) with
    | Some (used_coolant_mode, command) =>
        if ENABLE_COOLANT values
           && negb (String.eqb (coolant_mode values) new_coolant_mode)
           && negb (String.eqb used_coolant_mode new_coolant_mode)
        then (st.1,
              st.2
              ++ (if OUTPUT_COMMENTS values
                  then [create_comment values
                          (coolant_comment new_coolant_mode used_coolant_mode)]
                  else [])
              ++ [command])
        else st
    | None => st
    end.
Proof.
  intros new st. subst st. unfold output_coolant_update. fold new.
  destruct (ENABLE_COOLANT values) eqn:Een; cbn [andb fst snd].
  2: { rewrite Een. cbn [andb]. by repeat case_match. }
  destruct (String.eqb_spec (coolant_mode values) new) as [Hprev | Hprev];
    cbn [negb andb fst snd].
  { rewrite Een. cbn [andb fst snd].
    destruct (String.eqb_spec (coolant_mode values) new); [| done].
    by repeat case_match. }
  destruct (coolant_case new (SUPPORT_FLOOD_COOLANT values)
              (SUPPORT_MIST_COOLANT values)) as [[used command] |] eqn:Ecase.
  2: { cbn [fst snd]. rewrite Een. cbn [andb].
       destruct (String.eqb_spec (coolant_mode values) new); [done |].
       cbn [negb]. by rewrite Ecase. }
  cbn [fst snd].
  change (ENABLE_COOLANT (set_coolant_mode used values))
    with (ENABLE_COOLANT values).
  change (coolant_mode (set_coolant_mode used values)) with used.
  change (SUPPORT_FLOOD_COOLANT (set_coolant_mode used values))
    with (SUPPORT_FLOOD_COOLANT values).
  change (SUPPORT_MIST_COOLANT (set_coolant_mode used values))
    with (SUPPORT_MIST_COOLANT values).
  change (OUTPUT_COMMENTS (set_coolant_mode used values))
    with (OUTPUT_COMMENTS values).
  rewrite Een, Ecase. cbn [andb].
  destruct (String.eqb_spec used new) as [Hused | Hused]; cbn [negb]; [done |].
  rewrite set_coolant_mode_twice.
  destruct (OUTPUT_COMMENTS values); [| done].
  by rewrite <- !app_assoc.
Qed.

(** ** Further properties: line numbers *)

Lemma set_line_number_same values :
  set_line_number (line_number values) values = values.
Proof. by destruct values. Qed.

Lemma set_line_number_twice n m values :
  set_line_number n (set_line_number m values) = set_line_number n values.
Proof. reflexivity. Qed.

Lemma same_config_set_line_number n values :
  same_config values (set_line_number n values).
Proof. reflexivity. Qed.

Lemma filter_is_numbered_config values values' lines :
  same_config values values' ->
  List.filter (is_numbered values) lines
  = List.filter (is_numbered values') lines.
Proof.
  intros Hc. apply List.filter_ext. intros line.
  by apply is_numbered_config.
Qed.

(** The loop of [add_linenumbers] with the number it leaves in [values]. *)
Lemma add_linenumber_loop_values rest : forall done values,
  foldl add_linenumber (values, done ++ rest)
    (seq (length done) (length rest))
  = (set_line_number
       (line_number values
        + LINE_INCREMENT values
          * Z.of_nat (length (List.filter (is_numbered values) rest)))%Z
       values,
     done ++ number_lines values (line_number values) rest).
Proof.
  induction rest as [| line rest IH]; intros done values.
  - cbn [length seq foldl List.filter number_lines].
    by rewrite Z.mul_0_r, Z.add_0_r, set_line_number_same.
  - cbn [length seq foldl number_lines List.filter].
    rewrite add_linenumber_at.
    destruct (is_numbered values line) eqn:En.
    + set (new := _ +:+ _). set (values1 := set_line_number _ values).
      pose proof (IH (done ++ [new]) values1) as Hl.
      rewrite length_app, Nat.add_1_r, <- app_assoc in Hl. simpl in Hl.
      rewrite Hl. rewrite <- app_assoc. simpl. f_equal.
      * subst values1. rewrite set_line_number_twice.
        rewrite <- (filter_is_numbered_config values
                      (set_line_number
                         (line_number values + LINE_INCREMENT values) values))
          by apply same_config_set_line_number.
        change (line_number (set_line_number ?n values)) with n.
        change (LINE_INCREMENT (set_line_number ?n values))
          with (LINE_INCREMENT values).
        f_equal. lia.
      * do 2 f_equal. apply number_lines_config. reflexivity.
    + pose proof (IH (done ++ [line]) values) as Hl.
      rewrite length_app, Nat.add_1_r, <- app_assoc in Hl. simpl in Hl.
      rewrite Hl. by rewrite <- app_assoc.
Qed.

Lemma add_linenumbers_eq values gcode :
  add_linenumbers values gcode
  = if OUTPUT_LINE_NUMBERS values
    then (set_line_number
            (line_number values
             + LINE_INCREMENT values
               * Z.of_nat (length (List.filter (is_numbered values) gcode)))%Z
            values,
          number_lines values (line_number values) gcode)
    else (values, gcode).
Proof.
  unfold add_linenumbers. destruct (OUTPUT_LINE_NUMBERS values); [| done].
  cbn [negb]. exact (add_linenumber_loop_values gcode [] values).
Qed.

Lemma number_lines_app values n lines1 lines2 :
  number_lines values n (lines1 ++ lines2)
  = number_lines values n lines1
    ++ number_lines values
         (n + LINE_INCREMENT values
              * Z.of_nat (length (List.filter (is_numbered values) lines1)))%Z
         lines2.
Proof.
  revert n. induction lines1 as [| line lines1 IH]; intros n.
  - cbn [app number_lines List.filter length].
    by rewrite Z.mul_0_r, Z.add_0_r.
  - cbn [app number_lines List.filter].
    destruct (is_numbered values line); cbn [app length].
    + rewrite IH. do 3 f_equal. lia.
    + by rewrite IH.
Qed.

(** X4. [add_linenumbers] changes one key of [values], the line number, and
    moves it on by one increment for each line it numbered: for all the
    lines, or for all but the comments.  With line numbers off it changes
    nothing. *)
Theorem add_linenumbers_line_number (values : Values) (gcode : Gcode) :
  (add_linenumbers values gcode).1
  = if OUTPUT_LINE_NUMBERS values
    then set_line_number
           (line_number values
            + LINE_INCREMENT values
              * Z.of_nat (length (List.filter (is_numbered values) gcode)))%Z
           values
    else values.
Proof.
  rewrite add_linenumbers_eq. by destruct (OUTPUT_LINE_NUMBERS values).
Qed.

(** X5. Numbering a buffer is numbering its first part and then, with the
    dictionary that leaves, the rest: the numbers run on, so that a second
    call on the same dictionary continues where the first one stopped. *)
Theorem add_linenumbers_app (values : Values) (gcode1 gcode2 : Gcode) :
  let st1 := add_linenumbers values gcode1 in
  let st2 := add_linenumbers st1.1 gcode2 in
  add_linenumbers values (gcode1 ++ gcode2) = (st2.1, st1.2 ++ st2.2).
Proof.
  intros st1 st2. subst st1 st2. rewrite !add_linenumbers_eq.
  destruct (OUTPUT_LINE_NUMBERS values) eqn:Eon; cbn [fst snd].
  2: { by rewrite Eon. }
  change (OUTPUT_LINE_NUMBERS (set_line_number ?n values))
    with (OUTPUT_LINE_NUMBERS values).
  rewrite Eon. cbn [fst snd].
  rewrite set_line_number_twice.
  change (line_number (set_line_number ?n values)) with n.
  change (LINE_INCREMENT (set_line_number ?n values))
    with (LINE_INCREMENT values).
  rewrite number_lines_app, List.filter_app, length_app.
  set (n := (line_number values
             + LINE_INCREMENT values
               * Z.of_nat (length (List.filter (is_numbered values) gcode1)))%Z).
  rewrite <- (filter_is_numbered_config values (set_line_number n values)
                gcode2) by apply same_config_set_line_number.
  rewrite <- (number_lines_config values (set_line_number n values) n gcode2)
    by apply same_config_set_line_number.
  subst n. do 2 f_equal. lia.
Qed.

Lemma sibling_add_linenumber_at values done line rest :
  Sibling.add_linenumber (values, done ++ line :: rest) (length done)
  = (set_line_number (line_number values + LINE_INCREMENT values)%Z values,
     done ++ (LINE_PREFIX values +:+ str_int (line_number values)
              +:+ LINE_POSTFIX values +:+ line) :: rest).
Proof.
  unfold Sibling.add_linenumber.
  rewrite list_lookup_middle by done. f_equal.
  rewrite insert_app_r_alt, Nat.sub_diag by lia. done.
Qed.

Lemma sibling_add_linenumber_loop rest : forall passed values,
  Forall (fun line => is_numbered values line = true) rest ->
  foldl Sibling.add_linenumber (values, passed ++ rest)
    (seq (length passed) (length rest))
  = foldl add_linenumber (values, passed ++ rest)
      (seq (length passed) (length rest)).
Proof.
  induction rest as [| line rest IH]; intros passed values Hall; [done |].
  apply Forall_cons in Hall as [Hline Hall].
  cbn [length seq foldl].
  rewrite add_linenumber_at, sibling_add_linenumber_at, Hline.
  set (new := _ +:+ _). set (values1 := set_line_number _ values).
  pose proof (IH (passed ++ [new]) values1) as Hl.
  rewrite length_app, Nat.add_1_r, <- app_assoc in Hl. apply Hl.
  eapply Forall_impl; [exact Hall |]. intros l Hn. simpl in Hn.
  by rewrite <- (is_numbered_config values values1).
Qed.

(** X6. The sibling script numbers every line.  The two [add_linenumbers]
    agree on a buffer all of whose lines the main script numbers: always
    when [LINE_NUMBER_ON_COMMENTS] is set, and otherwise when no line starts
    with the comment prefix. *)
Theorem sibling_add_linenumbers_agree (values : Values) (gcode : Gcode) :
  Forall (fun line => is_numbered values line = true) gcode ->
  Sibling.add_linenumbers values gcode = add_linenumbers values gcode.
Proof.
  intros Hall. unfold Sibling.add_linenumbers, add_linenumbers.
  destruct (OUTPUT_LINE_NUMBERS values); [| done]. cbn [negb].
  exact (sibling_add_linenumber_loop gcode [] values Hall).
Qed.

(** ** Further properties: the program frame in the two scripts *)

Lemma length_upper s : String.length (upper s) = String.length s.
Proof. induction s as [| a s IH]; [done |]. simpl. by rewrite IH. Qed.

Lemma length_job_name values job :
  String.length (Sibling.job_name values job)
  = String.length (pgm_job_name values job).
Proof.
  unfold Sibling.job_name, pgm_job_name.
  destruct (job_Label job), (PGM_UPPERCASE values);
    by rewrite ?length_upper.
Qed.

(** X7. The begin and end lines of the two scripts are the same for a job
    with a label in millimetres (G21, "mm"); in inches (G20, "in") they
    never are, the main script writing "INCH" and the sibling "IN"; and they
    differ for a job without a label unless [PGM_UPPERCASE] is set, the
    default name being "New" in the one and "NEW" in the other. *)
Theorem sibling_pgm_lines (values : Values) (gcode : Gcode) (current_job : Job) :
  (UNITS values = "G21" -> UNIT_FORMAT values = "mm" ->
   is_Some (job_Label current_job) ->
   Sibling.output_pgm_begin values gcode current_job
   = output_pgm_begin values gcode current_job
   /\ Sibling.output_pgm_end values gcode current_job
      = output_pgm_end values gcode current_job)
  /\ (UNITS values = "G20" -> UNIT_FORMAT values = "in" ->
      Sibling.output_pgm_begin values gcode current_job
      <> output_pgm_begin values gcode current_job
      /\ Sibling.output_pgm_end values gcode current_job
         <> output_pgm_end values gcode current_job)
  /\ (job_Label current_job = None -> PGM_UPPERCASE values = false ->
      Sibling.output_pgm_begin values gcode current_job
      <> output_pgm_begin values gcode current_job
      /\ Sibling.output_pgm_end values gcode current_job
         <> output_pgm_end values gcode current_job).
Proof.
  unfold Sibling.output_pgm_begin, Sibling.output_pgm_end, output_pgm_begin,
    output_pgm_end, pgm_unit.
  split; [| split].
  - intros -> -> [label Hlabel].
    unfold Sibling.job_name, pgm_job_name. rewrite Hlabel. by split.
  - intros -> ->.
    split; intros Heq; apply app_inv_head in Heq; injection Heq as Heq;
      apply (f_equal String.length) in Heq;
      rewrite !length_append, length_job_name in Heq; simpl in Heq; lia.
  - intros Hlabel Hupper. unfold Sibling.job_name, pgm_job_name.
    rewrite Hlabel, Hupper.
    split; intros Heq; apply app_inv_head in Heq; injection Heq as Heq;
      cbv [String.append] in Heq; discriminate.
Qed.

(** ** Further properties: tool list, tool change and stock *)

Lemma tool_list_loop (comment : PathObj -> ToolController -> string)
    (objectslist : list PathObj) : forall gcode : Gcode,
  foldl (fun gcode item =>
           match ToolCtl item with
           | Some t => gcode ++ [comment item t]
           | None => gcode
           end) gcode objectslist
  = gcode ++ ((fun it : PathObj * ToolController => comment it.1 it.2)
                <$> tool_controllers objectslist).
Proof.
  unfold tool_controllers.
  induction objectslist as [| item l IH]; intros gcode; cbn [foldl omap].
  - by rewrite app_nil_r.
  - rewrite IH. destruct (ToolCtl item) as [t |] eqn:Et; simpl; rewrite Et;
      simpl; [| done].
    by rewrite <- app_assoc.
Qed.

(** X8. The tool list is one comment for each tool controller among the
    objects, in their order, and nothing for the other objects; the main
    script writes the controller's label after the tool number, the sibling
    its name. *)
Theorem output_tool_list_comments (values : Values) (gcode : Gcode)
    (objectslist : list PathObj) :
  let listed := OUTPUT_COMMENTS values && LIST_TOOLS_IN_PREAMBLE values in
  output_tool_list values gcode objectslist
  = gcode
    ++ (if listed
        then (fun it : PathObj * ToolController =>
                create_comment values
                  ("T" +:+ str_int (ToolNumber it.2) +:+ "="
                   +:+ obj_Label it.1))
               <$> tool_controllers objectslist
        else [])
  /\ Sibling.output_tool_list values gcode objectslist
     = gcode
       ++ (if listed
           then (fun it : PathObj * ToolController =>
                   create_comment values
                     ("T" +:+ str_int (ToolNumber it.2) +:+ "="
                      +:+ obj_Name it.1))
                  <$> tool_controllers objectslist
           else []).
Proof.
  intros listed. subst listed.
  unfold output_tool_list, Sibling.output_tool_list.
  destruct (OUTPUT_COMMENTS values && LIST_TOOLS_IN_PREAMBLE values).
  - split.
    + exact (tool_list_loop
               (fun item t =>
                  create_comment values
                    ("T" +:+ str_int (ToolNumber t) +:+ "=" +:+ obj_Label item))
               objectslist gcode).
    + exact (tool_list_loop
               (fun item t =>
                  create_comment values
                    ("T" +:+ str_int (ToolNumber t) +:+ "=" +:+ obj_Name item))
               objectslist gcode).
  - by rewrite app_nil_r.
Qed.

(** X9. A tool change raises, with [AttributeError], exactly when tool
    changes are written and the object is no tool controller; otherwise it
    returns.  With tool changes off it writes the two comments at most and
    leaves [values] alone. *)
Theorem output_tool_change_raises (values : Values) (gcode : Gcode)
    (tc : PathObj) :
  (output_tool_change values gcode tc = Raise AttributeError
   <-> OUTPUT_TOOL_CHANGE values = true /\ ToolCtl tc = None)
  /\ (OUTPUT_TOOL_CHANGE values = true /\ ToolCtl tc = None
      \/ exists r, output_tool_change values gcode tc = Ok r)
  /\ (OUTPUT_TOOL_CHANGE values = false ->
      output_tool_change values gcode tc
      = Ok (values,
            gcode ++ (if OUTPUT_COMMENTS values
                      then [create_comment values "Begin toolchange";
                            create_comment values "End toolchange"]
                      else []))).
Proof.
  unfold output_tool_change, tool_attr.
  destruct (OUTPUT_TOOL_CHANGE values) eqn:Eon, (ToolCtl tc) as [t |] eqn:Et.
  - split; [| split; [| done]].
    + split; [| by intros [_ ?]].
      by destruct (STOP_SPINDLE_FOR_TOOL_CHANGE values
                   && negb (String.eqb (spindle_state values) "None")).
    + right.
      destruct (STOP_SPINDLE_FOR_TOOL_CHANGE values
                && negb (String.eqb (spindle_state values) "None"));
        by eexists.
  - split; [| split; [by left | done]].
    split; [done |]. intros _.
    by destruct (STOP_SPINDLE_FOR_TOOL_CHANGE values
                 && negb (String.eqb (spindle_state values) "None")).
  - split; [| split].
    + split; [done | by intros [? _]].
    + right. by eexists.
    + intros _. cbn. destruct (OUTPUT_COMMENTS values); cbn;
        by rewrite <- ?app_assoc, ?app_nil_r.
  - split; [| split].
    + split; [done | by intros [? _]].
    + right. by eexists.
    + intros _. cbn. destruct (OUTPUT_COMMENTS values); cbn;
        by rewrite <- ?app_assoc, ?app_nil_r.
Qed.


(** ** Further properties: the commands of a path *)

(** [output_line] reads the name of the command for one test, on "G0". *)
Lemma output_line_name values gcode c1 c2 cur :
  Parameters c1 = Parameters c2 ->
  String.eqb (Name c1) "G0" = String.eqb (Name c2) "G0" ->
  ('(gcode, current_parameters, _) ← output_line values gcode c1 cur;
   Ok (gcode, current_parameters))
  = ('(gcode, current_parameters, _) ← output_line values gcode c2 cur;
     Ok (gcode, current_parameters)).
Proof.
  intros Hps Hname. unfold output_line. rewrite Hps.
  assert (output_line_param values (Name c1) (FMAX_SPEED values / 60)
          = output_line_param values (Name c2) (FMAX_SPEED values / 60))
    as ->.
  { unfold output_line_param. by rewrite Hname. }
  destruct (for_each _ _ _) as [[[line cur'] ps] |]; [| done].
  cbn [mbind result_bind]. by destruct (String.eqb line "L").
Qed.

(** [output_arc] reads it for the direction, on "G2" and "G3". *)
Lemma output_arc_name values gcode c1 c2 cur :
  Parameters c1 = Parameters c2 ->
  String.eqb (Name c1) "G2" = String.eqb (Name c2) "G2" ->
  String.eqb (Name c1) "G3" = String.eqb (Name c2) "G3" ->
  ('(gcode, current_parameters, _) ← output_arc values gcode c1 cur;
   Ok (gcode, current_parameters))
  = ('(gcode, current_parameters, _) ← output_arc values gcode c2 cur;
     Ok (gcode, current_parameters)).
Proof.
  intros Hps H2 H3. unfold output_arc. rewrite Hps, H2, H3.
  destruct (if String.eqb (MOTION_MODE values) "G91" then _ else _)
    as [cur1 |]; [| done].
  cbn [mbind result_bind].
  destruct (for_each _ _ _) as [[[center point] cur'] |]; [| done].
  reflexivity.
Qed.

(** X11. The names are normalised for the dispatch only: [output_line] and
    [output_arc] compare the name as the command has it.  So an arc named
    "G02" and one named "G03" with the same parameters give the same lines,
    without a direction of their own, and a rapid move named "G00" is
    written as the feed move "G01", without the rapid feed. *)
Theorem parse_command_raw_name (pathobj : PathObj) (st : PathState)
    (c1 c2 : Command) :
  Parameters c1 = Parameters c2 ->
  (Name c1 = "G02" /\ Name c2 = "G03") \/ (Name c1 = "G00" /\ Name c2 = "G01") ->
  parse_command pathobj st c1 = parse_command pathobj st c2.
Proof.
  intros Hps Hnames. destruct st as [[values gcode] cur].
  unfold parse_command.
  destruct Hnames as [[Hn1 Hn2] | [Hn1 Hn2]]; rewrite Hn1, Hn2.
  - change (normalize_name "G02") with "G2".
    change (normalize_name "G03") with "G3".
    cbn [String.eqb Ascii.eqb Bool.eqb andb orb negb].
    by rewrite (output_arc_name values gcode c1 c2 cur Hps)
      by (by rewrite Hn1, Hn2).
  - change (normalize_name "G00") with "G0".
    change (normalize_name "G01") with "G1".
    cbn [String.eqb Ascii.eqb Bool.eqb andb orb negb].
    by rewrite (output_line_name values gcode c1 c2 cur Hps)
      by (by rewrite Hn1, Hn2).
Qed.

(** X12. [parse_a_path] acts on ten command names.  A command of another
    name, a drilling cycle or a spindle or coolant command of the path for
    one, leaves the buffer, [values] and the tracked parameters as they are;
    "G90" and "G91" are recorded as the motion mode and write nothing. *)
Theorem parse_command_other (pathobj : PathObj) (values : Values)
    (gcode : Gcode) (current_parameters : gmap string pyval)
    (command : Command) :
  let command_name := normalize_name (Name command) in
  (command_name ∉ handled_names ->
   parse_command pathobj (values, gcode, current_parameters) command
   = Ok (values, gcode, current_parameters))
  /\ (command_name = "G90" \/ command_name = "G91" ->
      parse_command pathobj (values, gcode, current_parameters) command
      = Ok (set_MOTION_MODE command_name values, gcode, current_parameters)).
Proof.
  intros command_name. unfold parse_command. fold command_name.
  split.
  - intros Hother. unfold handled_names in Hother.
    rewrite !not_elem_of_cons in Hother.
    destruct Hother as (H0 & H1 & H2 & H3 & HM1 & HM2 & HM30 & HM6 & H90
                        & H91 & _).
    apply String.eqb_neq in H0, H1, H2, H3, HM1, HM2, HM30, HM6, H90, H91.
    rewrite H0, H1, H2, H3, HM1, HM2, HM30, HM6, H90, H91.
    by destruct (String.eqb command_name "" && negb (OUTPUT_BLANK_LINES values)).
  - intros [-> | ->]; reflexivity.
Qed.

(** ** Further properties: what a run leaves in [values] *)

#[local] Instance steady_preorder : PreOrder steady.
Proof.
  split.
  - intros values. split; [done | by left].
  - intros v1 v2 v3 [Hn Hs] [Hn' Hs']. split; [congruence |].
    destruct Hs' as [Hs' | Hs']; [| by right].
    rewrite Hs'. exact Hs.
Qed.

#[local] Instance steady_on_preorder {S : Type} (f : S -> Values) :
  PreOrder (fun st st' => steady (f st) (f st')).
Proof.
  split.
  - intros st. reflexivity.
  - intros st1 st2 st3. apply transitivity.
Qed.

Lemma output_coolant_update_steady values gcode obj :
  steady values (output_coolant_update values gcode obj).1.
Proof.
  unfold output_coolant_update.
  repeat case_match; simplify_eq/=; split; by try left.
Qed.

Lemma output_tool_change_steady values gcode tc values' gcode' :
  output_tool_change values gcode tc = Ok (values', gcode') ->
  steady values values'.
Proof.
  unfold output_tool_change. intros Ht. bind_inv Ht.
  destruct a as [v g]. injection Ht as <- _. clear gcode'.
  repeat case_match; repeat bind_inv Ha; simplify_eq/=;
    split; simpl; first [done | by left | by right].
Qed.

Lemma parse_command_steady pathobj st command st' :
  parse_command pathobj st command = Ok st' -> steady st.1.1 st'.1.1.
Proof.
  destruct st as [[values gcode] cur]. unfold parse_command.
  case_match; [intros [= <-]; reflexivity |].
  set (values1 := if _ : bool then _ else values).
  assert (steady values values1) as Hv1.
  { subst values1. case_match; [| reflexivity]. split; [done | by left]. }
  intros Hp. bind_inv Hp. destruct a as [gcode1 cur1].
  bind_inv Hp. destruct a as [values2 gcode2].
  assert (steady values1 values2) as Hv2.
  { clear Hp Ha. repeat case_match; simplify_eq/=;
      eauto using output_tool_change_steady; reflexivity. }
  simplify_eq/=. by trans values1.
Qed.

Lemma parse_a_path_steady values gcode pathobj values' gcode' :
  parse_a_path values gcode pathobj = Ok (values', gcode') ->
  steady values values'.
Proof.
  unfold parse_a_path. case_match; [intros [= <- <-]; reflexivity |].
  case_match; [| discriminate]. intros Hp. bind_inv Hp.
  destruct a as [[v g] cur]. simplify_eq/=.
  eapply (for_each_rel (fun st st' : PathState => steady st.1.1 st'.1.1))
    in Ha; [exact Ha |].
  apply parse_command_steady.
Qed.

Lemma parse_a_group_steady pathobj : forall values gcode values' gcode',
  parse_a_group values gcode pathobj = Ok (values', gcode') ->
  steady values values'.
Proof.
  induction pathobj as [name label group path tool IH]
    using PathObj_members_ind.
  intros values gcode values' gcode'.
  destruct group as [members |].
  - rewrite parse_a_group_members.
    generalize (if OUTPUT_COMMENTS values
                then gcode ++ [create_comment values ("Compound: " +:+ label)]
                else gcode) as g0.
    revert values. induction IH as [| p l Hp Hl IHl]; intros values g0; simpl.
    + intros [= <- _]. reflexivity.
    + intros Hg. bind_inv Hg. destruct a as [v1 g1].
      trans v1; [eapply Hp, Ha | by eapply IHl].
  - destruct path as [cmds |]; simpl.
    + apply parse_a_path_steady.
    + intros [= <- <-]. reflexivity.
Qed.

Lemma export_object_steady st obj st' :
  export_object st obj = Ok st' -> steady st.1 st'.1.
Proof.
  destruct st as [values gcode]. unfold export_object.
  case_match; [intros [= <-]; reflexivity |].
  pose proof (output_coolant_update_steady values
                (output_preop values (output_start_bcnc values gcode obj) obj)
                obj) as Hc.
  destruct (output_coolant_update _ _ _) as [v1 g1].
  intros Ho. bind_inv Ho. destruct a as [v2 g2]. simplify_eq/=.
  apply parse_a_group_steady in Ha. by trans v1.
Qed.

Lemma export_body_steady values objectslist first values' gcode :
  export_body values objectslist first = Ok (values', gcode) ->
  steady values values'.
Proof.
  unfold export_body. intros He. bind_inv He. bind_inv He.
  destruct a0 as [v g]. simplify_eq/=.
  apply (for_each_rel (fun st st' : Values * Gcode => steady st.1 st'.1))
    in Ha0; [exact Ha0 |].
  apply export_object_steady.
Qed.

(** The result of [export] when the buffer is built. *)
Lemma export_finalized values objectslist filename out gcode :
  export values objectslist filename = Ok out ->
  finalized out = Some gcode ->
  exists first values1 body,
    head objectslist = Some first
    /\ export_body values objectslist first = Ok (values1, body)
    /\ values_after out = (add_linenumbers values1 body).1
    /\ gcode = (add_linenumbers values1 body).2.
Proof.
  unfold export. case_match; [by intros [= <-] |].
  destruct objectslist as [| first l]; [by intros [= <-] |].
  intros He. bind_inv He. destruct a as [values1 body].
  destruct (add_linenumbers values1 body) as [v g] eqn:Eadd.
  injection He as <-. intros [= <-].
  exists first, values1, body. by rewrite Eadd.
Qed.

(** X13. The line number is written by [add_linenumbers] alone.  After an
    export that built a buffer it has moved on by one increment for each
    numbered line (for each line of the buffer when comments are numbered,
    as they are after [init_values]), and it has not moved with line numbers
    off: numbers run on from one call of [export] to the next on the same
    dictionary. *)
Theorem export_line_number (values : Values) (objectslist : list PathObj)
    (filename : string) (out : Exported) (gcode : Gcode) :
  export values objectslist filename = Ok out ->
  finalized out = Some gcode ->
  (OUTPUT_LINE_NUMBERS values = false ->
   line_number (values_after out) = line_number values)
  /\ (OUTPUT_LINE_NUMBERS values = true ->
      exists body,
        gcode = number_lines values (line_number values) body
        /\ line_number (values_after out)
           = (line_number values
              + LINE_INCREMENT values
                * Z.of_nat (length (List.filter (is_numbered values) body)))%Z)
  /\ (OUTPUT_LINE_NUMBERS values = true ->
      LINE_NUMBER_ON_COMMENTS values = true ->
      line_number (values_after out)
      = (line_number values
         + LINE_INCREMENT values * Z.of_nat (length gcode))%Z).
Proof.
  intros He Hfin.
  destruct (export_finalized _ _ _ _ _ He Hfin)
    as (first & values1 & body & _ & Hbody & -> & ->).
  pose proof (export_body_steady _ _ _ _ _ Hbody) as [Hn _].
  apply export_body_shape in Hbody as [Hc _].
  pose proof (f_equal OUTPUT_LINE_NUMBERS Hc) as Hon.
  pose proof (f_equal LINE_INCREMENT Hc) as Hinc.
  pose proof (f_equal LINE_NUMBER_ON_COMMENTS Hc) as Hcom.
  simpl in Hon, Hinc, Hcom.
  rewrite add_linenumbers_eq, <- Hon, Hn, <- Hinc.
  rewrite <- (filter_is_numbered_config values values1) by done.
  rewrite <- (number_lines_config values values1) by done.
  split; [| split].
  - by intros ->.
  - intros ->. by exists body.
  - intros -> Hall. cbn [fst snd].
    change (line_number (set_line_number ?n values1)) with n.
    rewrite number_lines_length. do 3 f_equal.
    clear -Hall. induction body as [| line body IH]; [done |].
    cbn [List.filter]. unfold is_numbered at 1. rewrite Hall, orb_true_r.
    cbn [length]. by rewrite IH.
Qed.

(** X14. No routine sets the spindle state to anything but "None": after an
    export it is what it was before, or "None".  Started from "None", as
    [init_values] leaves it, it is "None" after every export. *)
Theorem export_spindle_state (values : Values) (objectslist : list PathObj)
    (filename : string) (out : Exported) :
  export values objectslist filename = Ok out ->
  spindle_state (values_after out) = spindle_state values
  \/ spindle_state (values_after out) = "None".
Proof.
  unfold export. case_match; [intros [= <-]; by left |].
  destruct objectslist as [| first l]; [intros [= <-]; by left |].
  intros He. bind_inv He. destruct a as [values1 body].
  apply export_body_steady in Ha as [_ Hs].
  rewrite add_linenumbers_eq in He.
  destruct (OUTPUT_LINE_NUMBERS values1); by injection He as <-.
Qed.

(** ** Further properties: whole numbers and zero *)

Lemma repeat_char_snoc c n :
  repeat_char c n +:+ String c "" = repeat_char c (S n).
Proof.
  induction n as [| n IH]; [done |].
  change (repeat_char c (S n) +:+ String c "")
    with (String c (repeat_char c n +:+ String c "")).
  by rewrite IH.
Qed.

Lemma digits_fixed_0 n : digits_fixed n 0 = repeat_char "0" n.
Proof.
  induction n as [| n IH]; [done |].
  cbn [digits_fixed]. change (0 / 10)%Z with 0%Z.
  change (digit_char (0 mod 10)) with "0"%char.
  by rewrite IH, repeat_char_snoc.
Qed.

Lemma all_digits_repeat_0 n : all_digits (repeat_char "0" n) = true.
Proof. induction n as [| n IH]; [done |]. simpl. exact IH. Qed.

Lemma rstrip_repeat c n : rstrip c (repeat_char c n) = "".
Proof. apply rstrip_nil_iff. by exists n. Qed.

(** [format_f] on a number that rounds to the whole number [m]. *)
Lemma format_f_whole plus precision x m :
  (0 <= m)%Z ->
  round_half_even (Z.abs (Qnum x) * 10 ^ Z.of_nat precision) (Qden x)
  = (m * 10 ^ Z.of_nat precision)%Z ->
  format_f plus precision x
  = (if (Qnum x <? 0)%Z then "-" else if plus then "+" else "")
    +:+ NilZero.string_of_uint (N.to_uint (Z.to_N m))
    +:+ match precision with
        | O => ""
        | S _ => "." +:+ repeat_char "0" precision
        end.
Proof.
  intros Hm Hround. unfold format_f. rewrite Hround.
  assert (0 < 10 ^ Z.of_nat precision)%Z as Hscale by lia.
  rewrite Z.div_mul, Z.mod_mul by lia.
  destruct precision as [| p]; [by rewrite append_nil_r |].
  by rewrite digits_fixed_0.
Qed.

Lemma format_parameter_whole values sign m precision :
  has_char "." sign = false ->
  format_parameter values
    (sign +:+ NilZero.string_of_uint (N.to_uint (Z.to_N m))
     +:+ match precision with
         | O => ""
         | S _ => "." +:+ repeat_char "0" precision
         end)
  = sign +:+ NilZero.string_of_uint (N.to_uint (Z.to_N m))
    +:+ match precision with
        | O => ""
        | S _ =>
            if NORMALIZE_PARAMETERS values then ""
            else (if DECIMAL_COMMAS values then "," else ".")
                 +:+ repeat_char "0" precision
        end.
Proof.
  intros Hsign.
  destruct (string_of_uint_digits_nonempty (N.to_uint (Z.to_N m)))
    as [Hint Hne].
  destruct precision as [| p].
  - rewrite !append_nil_r. by apply format_parameter_integer.
  - rewrite format_parameter_fraction
      by (try done; apply all_digits_repeat_0).
    cbv zeta. destruct (NORMALIZE_PARAMETERS values); cbn [andb]; [| done].
    by rewrite rstrip_repeat.
Qed.

(** X15. A whole number is written with all its digits and, when parameters
    are normalised, without a decimal mark: ten is "+10" on an axis, whatever
    the precision. *)
Theorem format_whole_number (values : Values) (plus : bool) (precision : nat)
    (k : Z) :
  format_parameter values (format_f plus precision (inject_Z k))
  = (if (k <? 0)%Z then "-" else if plus then "+" else "")
    +:+ NilZero.string_of_uint (N.to_uint (Z.to_N (Z.abs k)))
    +:+ match precision with
        | O => ""
        | S _ =>
            if NORMALIZE_PARAMETERS values then ""
            else (if DECIMAL_COMMAS values then "," else ".")
                 +:+ repeat_char "0" precision
        end.
Proof.
  rewrite (format_f_whole plus precision (inject_Z k) (Z.abs k)).
  - change (Qnum (inject_Z k)) with k.
    apply format_parameter_whole. by destruct (k <? 0)%Z, plus.
  - lia.
  - unfold round_half_even. change (Qden (inject_Z k)) with 1%positive.
    change (Qnum (inject_Z k)) with k.
    by rewrite Z.div_1_r, Z.mod_1_r.
Qed.

(** X16. A negative number that rounds to zero at the precision in use keeps
    its sign: it is written "-0", followed by the decimal mark and the zeros
    unless parameters are normalised. *)
Theorem format_negative_zero (values : Values) (plus : bool)
    (precision : nat) (x : Q) :
  (Qnum x < 0)%Z ->
  (2 * (Z.abs (Qnum x) * 10 ^ Z.of_nat precision) < Z.pos (Qden x))%Z ->
  format_parameter values (format_f plus precision x)
  = "-0"
    +:+ match precision with
        | O => ""
        | S _ =>
            if NORMALIZE_PARAMETERS values then ""
            else (if DECIMAL_COMMAS values then "," else ".")
                 +:+ repeat_char "0" precision
        end.
Proof.
  intros Hneg Hsmall.
  rewrite (format_f_whole plus precision x 0).
  - rewrite (proj2 (Z.ltb_lt _ _) Hneg).
    exact (format_parameter_whole values "-" 0 precision eq_refl).
  - lia.
  - unfold round_half_even.
    set (a := (Z.abs (Qnum x) * 10 ^ Z.of_nat precision)%Z) in *.
    assert (0 <= a)%Z as Ha by (subst a; lia).
    rewrite Z.div_small, Z.mod_small by lia.
    by rewrite (proj2 (Z.compare_lt_iff _ _) Hsmall).
Qed.

(** ** Further properties: the shape of an arc *)

Lemma starts_CC_append center w v :
  center = "CC" \/ (exists rest, center = "CC " +:+ rest) ->
  exists rest, (center +:+ " " +:+ w) +:+ v = "CC " +:+ rest.
Proof.
  intros [-> | [rest ->]].
  - exists (w +:+ v). by rewrite !append_assoc.
  - exists (rest +:+ " " +:+ w +:+ v). by rewrite !append_assoc.
Qed.

Lemma starts_C_append point w :
  (exists rest, point = "C" +:+ rest) ->
  exists rest, point +:+ w = "C" +:+ rest.
Proof. intros [rest ->]. exists (rest +:+ w). by rewrite append_assoc. Qed.

Lemma output_arc_param_shape values FMAX ps center point cur p
    center' point' cur' :
  output_arc_param values FMAX ps (center, point, cur) p
  = Ok (center', point', cur') ->
  (center = "CC" \/ (exists rest, center = "CC " +:+ rest)) ->
  (exists rest, point = "C" +:+ rest) ->
  (center' = "CC" \/ (exists rest, center' = "CC " +:+ rest))
  /\ (exists rest, point' = "C" +:+ rest).
Proof.
  unfold output_arc_param. intros Hs Hc Hp.
  repeat (case_match; simplify_eq/=; try done);
    repeat (bind_inv Hs; repeat (case_match; simplify_eq/=; try done)).
  all: try (injection Hs as <- <- <-).
  all: split; try done.
  all: try (right; by apply (starts_CC_append _ "X")).
  all: try (right; by apply (starts_CC_append _ "Y")).
  all: try by apply starts_C_append.
  all: try (rewrite <- !append_assoc; by apply starts_C_append).
Qed.

Lemma output_arc_loop_shape values FMAX ps l :
  forall center point cur center' point' cur',
    for_each (output_arc_param values FMAX ps) l (center, point, cur)
    = Ok (center', point', cur') ->
    (center = "CC" \/ (exists rest, center = "CC " +:+ rest)) ->
    (exists rest, point = "C" +:+ rest) ->
    (center' = "CC" \/ (exists rest, center' = "CC " +:+ rest))
    /\ (exists rest, point' = "C" +:+ rest).
Proof.
  induction l as [| p l IH];
    intros center point cur center' point' cur' Hf Hc Hp.
  - by injection Hf as <- <- <-.
  - cbn [for_each] in Hf. bind_inv Hf. destruct a as [[center1 point1] cur1].
    destruct (output_arc_param_shape _ _ _ _ _ _ _ _ _ _ Ha Hc Hp)
      as [Hc1 Hp1].
    by eapply IH.
Qed.

(** X17. An arc always writes its line: [output_arc] appends one line that
    starts with "C", also when no value changed, and before it at most one
    more line, which starts with "CC " and holds the centre.  The lines
    before stay. *)
Theorem output_arc_shape (values : Values) (gcode : Gcode) (command : Command)
    (current_parameters : gmap string pyval) gcode' current_parameters'
    command' :
  output_arc values gcode command current_parameters
  = Ok (gcode', current_parameters', command') ->
  exists point,
    gcode' = gcode ++ ["C" +:+ point]
    \/ exists center, gcode' = gcode ++ ["CC " +:+ center; "C" +:+ point].
Proof.
  unfold output_arc. intros Ha. bind_inv Ha. bind_inv Ha.
  destruct a0 as [[center point] cur].
  apply output_arc_loop_shape in Ha1 as [Hc [rest ->]];
    [| by left | by exists ""].
  exists rest. injection Ha as <- _ _.
  destruct (String.eqb_spec center "CC") as [-> | Hne]; [by left |].
  right. destruct Hc as [-> | [c ->]]; [done |].
  exists c. by rewrite <- app_assoc.
Qed.

(** ** Further properties: the motion mode *)

Lemma output_tool_change_MOTION_MODE values gcode tc values' gcode' :
  output_tool_change values gcode tc = Ok (values', gcode') ->
  MOTION_MODE values' = MOTION_MODE values.
Proof.
  unfold output_tool_change. intros Ht. bind_inv Ht.
  destruct a as [v g]. injection Ht as <- _. clear gcode'.
  repeat case_match; repeat bind_inv Ha; by simplify_eq/=.
Qed.

Lemma parse_command_MOTION_MODE pathobj st command st' :
  parse_command pathobj st command = Ok st' ->
  MOTION_MODE st'.1.1
  = motion_mode_after (MOTION_MODE st.1.1) [command].
Proof.
  destruct st as [[values gcode] cur]. unfold parse_command.
  cbn [motion_mode_after foldl fst].
  set (command_name := normalize_name (Name command)).
  case_match eqn:Eblank.
  { intros [= <-]. apply andb_true_iff in Eblank as [->%String.eqb_eq _].
    done. }
  intros Hp. bind_inv Hp. destruct a as [gcode1 cur1].
  bind_inv Hp. destruct a as [values2 gcode2]. injection Hp as <-.
  cbn [fst]. clear Ha.
  destruct (String.eqb_spec command_name "M6") as [HM6 | HM6].
  - rewrite HM6 in *. cbn in Ha0 |- *.
    by apply output_tool_change_MOTION_MODE in Ha0.
  - repeat case_match; by simplify_eq/=.
Qed.

Lemma motion_mode_after_cons mode command Commands :
  motion_mode_after mode (command :: Commands)
  = motion_mode_after (motion_mode_after mode [command]) Commands.
Proof. reflexivity. Qed.

Lemma parse_commands_MOTION_MODE pathobj Commands : forall st st',
  for_each (parse_command pathobj) Commands st = Ok st' ->
  MOTION_MODE st'.1.1 = motion_mode_after (MOTION_MODE st.1.1) Commands.
Proof.
  induction Commands as [| command Commands IH]; intros st st' Hf.
  - by injection Hf as <-.
  - cbn [for_each] in Hf. bind_inv Hf.
    rewrite motion_mode_after_cons.
    rewrite <- (parse_command_MOTION_MODE _ _ _ _ Ha). by apply IH.
Qed.

(** X18. The motion mode is kept in [values] and outlives the path: after
    [parse_a_path] it is the normalised name of the last "G90" or "G91"
    command of the path, or the mode the path started in; nothing sets it
    back at the start of the next path. *)
Theorem parse_a_path_motion_mode (values : Values) (gcode : Gcode)
    (pathobj : PathObj) (Commands : list Command) values' gcode' :
  contains "Fixture" (obj_Name pathobj) = false ->
  Path pathobj = Some Commands ->
  parse_a_path values gcode pathobj = Ok (values', gcode') ->
  MOTION_MODE values' = motion_mode_after (MOTION_MODE values) Commands.
Proof.
  intros Hfix Hpath. unfold parse_a_path. rewrite Hfix, Hpath.
  intros Hp. bind_inv Hp. destruct a as [[v g] cur].
  injection Hp as <- _.
  exact (parse_commands_MOTION_MODE _ _ _ _ Ha).
Qed.

(** ** Further properties: comments and line numbers *)

Lemma prefix_append p s : String.prefix p (p +:+ s) = true.
Proof.
  induction p as [| a p IH]; [by destruct s |].
  change (String a p +:+ s) with (String a (p +:+ s)).
  cbn [String.prefix]. by destruct (Ascii.ascii_dec a a).
Qed.

Lemma is_numbered_create_comment values comment_string :
  is_numbered values (create_comment values comment_string)
  = LINE_NUMBER_ON_COMMENTS values.
Proof.
  unfold is_numbered, create_comment. rewrite prefix_append.
  by destruct (LINE_NUMBER_ON_COMMENTS values).
Qed.

Lemma number_lines_none values lines : forall n,
  Forall (fun line => is_numbered values line = false) lines ->
  number_lines values n lines = lines.
Proof.
  induction lines as [| line lines IH]; intros n Hall; [done |].
  apply Forall_cons in Hall as [Hline Hall].
  cbn [number_lines]. by rewrite Hline, IH.
Qed.

(** X19. When comments are not numbered, a line made by [create_comment]
    passes [add_linenumbers] as it is, wherever it stands in the buffer.
    With the empty comment prefix every line counts as a comment: then no
    line is numbered and the line number does not move, although line
    numbers are on. *)
Theorem add_linenumbers_comments (values : Values) (gcode : Gcode) :
  LINE_NUMBER_ON_COMMENTS values = false ->
  (forall i comment_string,
      gcode !! i = Some (create_comment values comment_string) ->
      (add_linenumbers values gcode).2 !! i
      = Some (create_comment values comment_string))
  /\ (COMMENT_PREFIX values = "" ->
      add_linenumbers values gcode = (values, gcode)).
Proof.
  intros Hoff. split.
  - intros i comment_string Hi. rewrite add_linenumbers_number_lines.
    destruct (OUTPUT_LINE_NUMBERS values); [| done].
    rewrite (number_lines_lookup _ _ _ _ _ Hi).
    by rewrite is_numbered_create_comment, Hoff.
  - intros Hprefix.
    assert (forall line, is_numbered values line = false) as Hnone.
    { intros line. unfold is_numbered. rewrite Hprefix, Hoff.
      by destruct line. }
    rewrite add_linenumbers_eq.
    destruct (OUTPUT_LINE_NUMBERS values); [| done].
    rewrite number_lines_none by (apply Forall_forall; intros; apply Hnone).
    assert (List.filter (is_numbered values) gcode = []) as ->.
    { induction gcode as [| line l IH]; [done |].
      cbn [List.filter]. by rewrite Hnone. }
    cbn [length]. by rewrite Z.mul_0_r, Z.add_0_r, set_line_number_same.
Qed.

(** ** Further properties: the routines [export] does not call *)



(** ** Further properties: the Z of an arc *)

Lemma py_ne_same x : py_ne x x = false.
Proof.
  destruct x as [q | s]; cbn.
  - by rewrite (proj2 (Qeq_bool_iff q q) (Qeq_refl q)).
  - by rewrite String.eqb_refl.
Qed.

(** One turn of the loop of [output_arc] does not look at "Z": not at the
    value in the command, not at the tracked one. *)
Lemma output_arc_param_Z values FMAX (ps : gmap string pyval) z center point
    (cur : gmap string pyval) p center' point' cur1 :
  output_arc_param values FMAX ps (center, point, <["Z" := z]> cur) p
  = Ok (center', point', cur1) ->
  exists cur',
    cur1 = <["Z" := z]> cur'
    /\ output_arc_param values FMAX (delete "Z" ps) (center, point, cur) p
       = Ok (center', point', cur').
Proof.
  unfold output_arc_param.
  destruct (String.eqb_spec p "Z") as [-> | HZ].
  { rewrite lookup_delete_eq. cbn [String.eqb Ascii.eqb Bool.eqb orb andb].
    destruct (ps !! "Z"); intros [= <- <- <-]; by exists cur. }
  rewrite lookup_delete_ne by done.
  destruct (ps !! p) as [x |]; [| intros [= <- <- <-]; by exists cur].
  rewrite orb_false_r.
  assert (forall k, k <> "Z" -> getitem (<["Z" := z]> cur) k = getitem cur k)
    as Hget.
  { intros k Hk. unfold getitem. by rewrite lookup_insert_ne. }
  assert (forall k v, k <> "Z" ->
            <[k := v]> (<["Z" := z]> cur) = <["Z" := z]> (<[k := v]> cur))
    as Hins.
  { intros k v Hk. by apply insert_insert_ne. }
  destruct (String.eqb p "X" || String.eqb p "Y") eqn:Exy.
  { destruct (String.eqb (MOTION_MODE values) "G91").
    - intros [= <- <- <-]. exists (<[p := VNum 0]> cur). by rewrite Hins.
    - rewrite Hget by done. intros Hs. bind_inv Hs. bind_inv Hs.
      injection Hs as <- <- <-. exists cur. rewrite Ha.
      cbn [mbind result_bind]. by rewrite Ha0. }
  destruct (String.eqb p "I" || String.eqb p "J" || String.eqb p "K") eqn:Eijk.
  { destruct (String.eqb p "K"); [intros [= <- <- <-]; by exists cur |].
    rewrite Hget by done. intros Hs. bind_inv Hs. bind_inv Hs.
    injection Hs as <- <- <-. exists cur. rewrite Ha.
    cbn [mbind result_bind]. by rewrite Ha0. }
  destruct (String.eqb p "D"); [intros [= <- <- <-]; by exists cur |].
  destruct (String.eqb p "R").
  { rewrite Hget by done. intros Hs. bind_inv Hs. rewrite Ha.
    cbn [mbind result_bind].
    destruct (py_ne x a); injection Hs as <- <- <-.
    - exists (<["R" := x]> cur). by rewrite Hins.
    - by exists cur. }
  destruct (String.eqb p "F").
  { rewrite Hget by done. intros Hs. bind_inv Hs. rewrite Ha.
    cbn [mbind result_bind].
    destruct (py_ne x a).
    - bind_inv Hs. rewrite Ha0. injection Hs as <- <- <-.
      exists (<["F" := x]> cur). by rewrite Hins.
    - injection Hs as <- <- <-. by exists cur. }
  destruct (String.eqb p "M"); intros [= <- <- <-]; by exists cur.
Qed.

Lemma output_arc_loop_Z values FMAX (ps : gmap string pyval) z l :
  forall center point (cur : gmap string pyval) center' point' cur1,
    for_each (output_arc_param values FMAX ps) l
      (center, point, <["Z" := z]> cur)
    = Ok (center', point', cur1) ->
    exists cur',
      cur1 = <["Z" := z]> cur'
      /\ for_each (output_arc_param values FMAX (delete "Z" ps)) l
           (center, point, cur)
         = Ok (center', point', cur').
Proof.
  induction l as [| p l IH]; intros center point cur center' point' cur1 Hf.
  - injection Hf as <- <- <-. by exists cur.
  - cbn [for_each] in Hf |- *. bind_inv Hf.
    destruct a as [[center0 point0] cur0].
    apply output_arc_param_Z in Ha as (cur0' & -> & ->).
    cbn [mbind result_bind]. by apply IH.
Qed.

(** The centres and end points with and without a "Z" in the command. *)
Lemma arc_centers_Z (ps : gmap string pyval) z (cur cur1 : gmap string pyval) :
  ps !! "Z" = Some z ->
  for_each (arc_center_step ps) [("X", "I"); ("Y", "J"); ("Z", "K")] cur
  = Ok cur1 ->
  exists cur',
    cur1 = <["Z" := z]> cur'
    /\ for_each (arc_center_step (delete "Z" ps))
         [("X", "I"); ("Y", "J"); ("Z", "K")] cur
       = Ok cur'.
Proof.
  intros Hz.
  assert (forall c axis offset,
            axis <> "Z" -> offset <> "Z" ->
            arc_center_step (delete "Z" ps) c (axis, offset)
            = arc_center_step ps c (axis, offset)) as Hsame.
  { intros c axis offset Haxis Hoffset. unfold arc_center_step.
    by rewrite !lookup_delete_ne. }
  cbn [for_each]. rewrite Hsame by done.
  intros Hf. bind_inv Hf. rewrite Ha. cbn [mbind result_bind].
  rewrite Hsame by done.
  bind_inv Hf. rewrite Ha0. cbn [mbind result_bind].
  bind_inv Hf. injection Hf as <-. revert Ha1.
  unfold arc_center_step.
  rewrite lookup_delete_eq, lookup_delete_ne, Hz by done.
  intros Hk. bind_inv Hk. rewrite Ha1. cbn [mbind result_bind].
  injection Hk as <-. by eexists.
Qed.

(** X21. An arc with a "Z" in the command, a helix, is written as the flat
    arc: the lines are those of the same command without the "Z".  In
    absolute mode the "Z" is recorded as reached all the same, so that for a
    linear move to this height that follows the Z counts as unchanged, and
    its word is not written. *)
Theorem output_arc_Z (values : Values) (gcode : Gcode) (command : Command)
    (current_parameters : gmap string pyval) (z : pyval) gcode'
    current_parameters' command' :
  MOTION_MODE values <> "G91" ->
  Parameters command !! "Z" = Some z ->
  output_arc values gcode command current_parameters
  = Ok (gcode', current_parameters', command') ->
  current_parameters' !! "Z" = Some z
  /\ (exists current_parameters'' command'',
         output_arc values gcode
           (mkCommand (Name command) (delete "Z" (Parameters command)))
           current_parameters
         = Ok (gcode', current_parameters'', command''))
  /\ forall line_command,
      Parameters line_command !! "Z" = Some z ->
      line_changed (line_parameters values line_command)
        current_parameters' "Z" = false.
Proof.
  intros Hmode Hz. unfold output_arc.
  cbn [Name Parameters].
  destruct (String.eqb_spec (MOTION_MODE values) "G91"); [done |].
  intros Ha. bind_inv Ha. bind_inv Ha.
  destruct a0 as [[center point] cur]. injection Ha as <- <- _.
  apply (arc_centers_Z _ z) in Ha0 as (cur0 & -> & ->); [| done].
  cbn [mbind result_bind].
  set (ps := <["R" := VStr "0"]> _) in Ha1.
  assert (<["R" := VStr "0"]>
            (if String.eqb (Name command) "G2"
             then <["D" := VStr " DR-"]> (delete "Z" (Parameters command))
             else if String.eqb (Name command) "G3"
             then <["D" := VStr " DR+"]> (delete "Z" (Parameters command))
             else delete "Z" (Parameters command))
          = delete "Z" ps) as ->.
  { subst ps. rewrite delete_insert_ne by done. f_equal.
    repeat case_match; by rewrite ?delete_insert_ne. }
  apply output_arc_loop_Z in Ha1 as (cur' & -> & ->).
  cbn [mbind result_bind]. split; [by rewrite lookup_insert_eq |].
  split; [by eexists _, _ |].
  intros line_command Hline. unfold line_changed, line_parameters.
  destruct (String.eqb (Name line_command) "G0");
    by rewrite !lookup_insert_ne, Hline, lookup_insert_eq, py_ne_same by done.
Qed.

(** ** Further properties: an exception ends the export *)

(** A loop raises when one of its turns raises from every state the loop can
    be in. *)
Lemma for_each_raises {A S : Type} (inv : S -> Prop)
    (body : S -> A -> result S) (x : A) (l : list A) :
  (forall s y s', inv s -> body s y = Ok s' -> inv s') ->
  (forall s, inv s -> exists e, body s x = Raise e) ->
  x ∈ l ->
  forall s, inv s -> exists e, for_each body l s = Raise e.
Proof.
  intros Hinv Hx. induction l as [| y l IH]; intros Hin s Hs.
  - by apply elem_of_nil in Hin.
  - cbn [for_each]. destruct (body s y) as [s' | e] eqn:Ey.
    + apply elem_of_cons in Hin as [-> | Hin].
      * destruct (Hx s Hs) as [e He]. congruence.
      * cbn [mbind result_bind]. apply IH; [done |]. by eapply Hinv.
    + by exists e.
Qed.

Lemma parse_command_M_raises pathobj values gcode cur command :
  "M" ∈ PARAMETER_ORDER values ->
  normalize_name (Name command) = "G0" \/ normalize_name (Name command) = "G1" ->
  is_Some (Parameters command !! "M") ->
  exists e, parse_command pathobj (values, gcode, cur) command = Raise e.
Proof.
  intros Hin Hname HM. unfold parse_command.
  assert (exists e, output_line values gcode command cur = Raise e)
    as [e He].
  { unfold output_line.
    destruct (output_line_loop_raises values (Name command)
                (FMAX_SPEED values / 60) (PARAMETER_ORDER values) "L" cur
                (<["R" := VStr "0"]> (Parameters command)))
      as [e He]; [done | by rewrite lookup_insert_ne | ].
    exists e. by rewrite He. }
  exists e. destruct Hname as [-> | ->]; cbn; by rewrite He.
Qed.

(** X22. One linear move with an "M" parameter ends the whole export with an
    exception, wherever it stands: when "M" is in [PARAMETER_ORDER], as it is
    after [init_values], and an active operation of the list has such a "G0"
    or "G1" command in its path, [export] raises and no buffer is handed
    over. *)
Theorem export_M_parameter (values : Values) (objectslist : list PathObj)
    (filename : string) (obj : PathObj) (Commands : list Command)
    (command : Command) :
  "M" ∈ PARAMETER_ORDER values ->
  forallb has_Path objectslist = true ->
  obj ∈ objectslist ->
  activeForOp obj = true ->
  Group obj = None ->
  contains "Fixture" (obj_Name obj) = false ->
  Path obj = Some Commands ->
  command ∈ Commands ->
  normalize_name (Name command) = "G0" \/ normalize_name (Name command) = "G1" ->
  is_Some (Parameters command !! "M") ->
  exists e, export values objectslist filename = Raise e.
Proof.
  intros HM Hpaths Hobj Hactive Hgroup Hfix Hpath Hcommand Hname Hparam.
  assert (forall v, same_config values v -> "M" ∈ PARAMETER_ORDER v) as Horder.
  { intros v Hv. by rewrite <- (f_equal PARAMETER_ORDER Hv : 
                                  PARAMETER_ORDER values = PARAMETER_ORDER v). }
  assert (forall v g, same_config values v ->
            exists e, parse_a_group v g obj = Raise e) as Hgroup_raises.
  { intros v g Hv. destruct obj as [name label group path tool].
    cbn in Hgroup, Hpath, Hfix. subst group path.
    cbn [parse_a_group]. unfold parse_a_path. cbn [obj_Name Path].
    rewrite Hfix.
    set (g0 := if _ : bool then _ else g).
    destruct (for_each_raises
                (fun st : PathState => same_config values st.1.1)
                (parse_command (mkPathObj name label None (Some Commands) tool))
                command Commands) with (s := (v, g0, initial_parameters))
      as [e He]; try done.
    - intros st y st' Hst Hy. apply parse_command_frame in Hy as [Hc _].
      unfold same_config in *. cbn in Hc. congruence.
    - intros [[v1 g1] cur1] Hst. apply parse_command_M_raises; auto.
    - exists e. by rewrite He. }
  assert (forall st, same_config values st.1 ->
            exists e, export_object st obj = Raise e) as Hobject.
  { intros [v g] Hv. unfold export_object. rewrite Hactive. cbn [negb].
    pose proof (output_coolant_update_frame v
                  (output_preop v (output_start_bcnc v g obj) obj) obj)
      as [Hc _].
    destruct (output_coolant_update _ _ _) as [v1 g1]. cbn in Hc.
    destruct (Hgroup_raises v1 g1) as [e He].
    { unfold same_config in *. cbn in Hv. congruence. }
    exists e. by rewrite He. }
  unfold export. rewrite Hpaths. cbn [negb].
  destruct objectslist as [| first l] eqn:El; [by apply elem_of_nil in Hobj |].
  rewrite <- El in *. unfold export_body.
  destruct (output_stock_definition _ _ _) as [g0 | e0]; [| by exists e0].
  cbn [mbind result_bind].
  destruct (for_each_raises
              (fun st : Values * Gcode => same_config values st.1)
              export_object obj objectslist) with (s := (values, g0))
    as [e He]; try done.
  - intros st y st' Hst Hy. apply export_object_frame in Hy as [Hc _].
    unfold same_config in *. congruence.
  - exists e. by rewrite He.
Qed.

(** ** Further properties: the first move of a path *)



(** ** Further properties: a move written twice *)

(** X24. A linear move is written once: in absolute mode a second
    [output_line] for the same command, right after the first, finds every
    value tracked and appends nothing, and it leaves the tracked values as
    they are. *)
Theorem output_line_repeat (values : Values) (gcode : Gcode)
    (command : Command) (current_parameters : gmap string pyval) :
  MOTION_MODE values <> "G91" ->
  NoDup (PARAMETER_ORDER values) ->
  Parameters command !! "M" = None ->
  numeric_moves (Parameters command) ->
  tracking current_parameters ->
  exists gcode' current_parameters' command',
    output_line values gcode command current_parameters
    = Ok (gcode', current_parameters', command')
    /\ output_line values gcode' command current_parameters'
       = Ok (gcode', current_parameters', command').
Proof.
  intros Hmode Hdup HM Hnum Hcur. unfold output_line.
  destruct (PARAMETER_ORDER values) as [| p l] eqn:Eorder.
  { by eexists _, _, _. }
  set (ps := line_parameters values command).
  assert (String.eqb (Name command) "G0" = true ->
          ps !! "F" = Some (VNum (FMAX_SPEED values / 60))) as HF.
  { intros HG0. subst ps. unfold line_parameters. rewrite HG0.
    by rewrite lookup_insert_eq. }
  assert (ps !! "M" = None) as HM' by (subst ps; by rewrite line_parameters_M).
  assert (numeric_moves ps) as Hnum'
    by by apply numeric_moves_line_parameters.
  assert (forall cur,
            for_each (output_line_param values (Name command)
                        (FMAX_SPEED values / 60)) (p :: l)
              ("L", cur, <["R" := VStr "0"]> (Parameters command))
            = for_each (output_line_param values (Name command)
                          (FMAX_SPEED values / 60)) (p :: l) ("L", cur, ps))
    as Hstart.
  { intros cur. cbn [for_each]. by rewrite output_line_param_rapid. }
  rewrite Hstart.
  destruct (output_line_loop values (Name command) ps Hmode HF HM' Hnum'
              (p :: l) "L" current_parameters Hdup Hcur)
    as (cur' & Hl & Hcur' & Hlook).
  destruct (output_line_loop values (Name command) ps Hmode HF HM' Hnum'
              (p :: l) "L" cur' Hdup Hcur')
    as (cur'' & Hl' & _ & Hlook').
  assert (forall q, q ∈ p :: l -> line_changed ps cur' q = false) as Hsame.
  { intros q Hq. unfold line_changed. rewrite Hlook.
    rewrite (bool_decide_eq_true_2 _ Hq), andb_true_r.
    destruct (line_changed ps current_parameters q) eqn:Ech.
    - destruct (ps !! q) as [x |]; [| by rewrite andb_false_r].
      by rewrite py_ne_same, andb_false_r.
    - exact Ech. }
  assert (List.filter (line_changed ps cur') (p :: l) = []) as Hnone.
  { clear -Hsame. induction (p :: l) as [| q l' IH]; [done |].
    cbn [List.filter]. rewrite Hsame by apply list_elem_of_here.
    apply IH. intros q' Hq'. by apply Hsame, list_elem_of_further. }
  assert (cur'' = cur') as ->.
  { apply map_eq. intros q. rewrite Hlook'.
    destruct (decide (q ∈ p :: l)) as [Hq | Hq].
    - by rewrite (Hsame q Hq).
    - by rewrite (bool_decide_eq_false_2 _ Hq), andb_false_r. }
  rewrite Hnone in Hl'. cbn [fmap list_fmap join foldr] in Hl'.
  rewrite append_nil_r in Hl'.
  rewrite Hl. cbn [mbind result_bind].
  destruct (String.eqb _ "L"); eexists _, cur', _;
    (split; [reflexivity |]); rewrite Hstart, Hl'; reflexivity.
Qed.

(** ** Further properties: arcs in incremental mode *)



End Further.

(** * The further properties at work on sample inputs *)

Lemma output_line_shape_witness :
  exists gcode' current_parameters' command',
    @output_line sample_host sample_values ["BEGIN PGM JOB MM"] sample_line
      initial_parameters
    = Ok (gcode', current_parameters', command')
    /\ (gcode' = ["BEGIN PGM JOB MM"]
        \/ exists rest, gcode' = ["BEGIN PGM JOB MM"] ++ ["L " +:+ rest]).
Proof.
  eexists _, _, _. split; [vm_compute; reflexivity |].
  eapply (@output_line_shape sample_host sample_values ["BEGIN PGM JOB MM"]
            sample_line initial_parameters).
  vm_compute. reflexivity.
Defined.


Lemma output_coolant_update_again_witness :
  let st := @output_coolant_update sample_host sample_values [] sample_mist in
  (@output_coolant_update sample_host st.1 st.2 sample_mist).2
  = ["; (Coolant On: Mist not available, using Flood)"; "M8";
     "; (Coolant On: Mist not available, using Flood)"; "M8"].
Proof.
  exact (f_equal snd (@output_coolant_update_again sample_host sample_values
                        [] sample_mist)).
Defined.

Lemma sibling_add_linenumbers_agree_witness :
  Forall (fun line => is_numbered sample_values line = true)
    ["; (Begin preamble)"; "M30"]
  /\ Sibling.add_linenumbers sample_values ["; (Begin preamble)"; "M30"]
     = add_linenumbers sample_values ["; (Begin preamble)"; "M30"].
Proof.
  assert (Forall (fun line => is_numbered sample_values line = true)
            ["; (Begin preamble)"; "M30"]) as Hall
    by (repeat constructor).
  split; [exact Hall |].
  exact (@sibling_add_linenumbers_agree sample_values _ Hall).
Defined.

Lemma sibling_pgm_lines_witness :
  UNITS sample_values = "G21" /\ UNIT_FORMAT sample_values = "mm"
  /\ is_Some (job_Label sample_job)
  /\ Sibling.output_pgm_begin sample_values [] sample_job
     = output_pgm_begin sample_values [] sample_job.
Proof.
  assert (is_Some (job_Label sample_job)) as Hlabel by by eexists.
  split; [reflexivity |]. split; [reflexivity |]. split; [exact Hlabel |].
  exact (proj1 (proj1 (@sibling_pgm_lines sample_values []
                         sample_job) eq_refl eq_refl Hlabel)).
Defined.

Lemma output_tool_change_raises_witness :
  OUTPUT_TOOL_CHANGE sample_values = true /\ ToolCtl sample_profile = None
  /\ output_tool_change sample_values [] sample_profile = Raise AttributeError.
Proof.
  split; [reflexivity |]. split; [reflexivity |].
  exact (proj2 (proj1 (@output_tool_change_raises sample_values []
                         sample_profile)) (conj eq_refl eq_refl)).
Defined.


Lemma parse_command_raw_name_witness :
  let c1 := mkCommand "G02" (Parameters sample_arc) in
  let c2 := mkCommand "G03" (Parameters sample_arc) in
  Parameters c1 = Parameters c2
  /\ (Name c1 = "G02" /\ Name c2 = "G03")
  /\ @parse_command sample_host sample_profile
       (sample_values, [], sample_position) c1
     = @parse_command sample_host sample_profile
         (sample_values, [], sample_position) c2.
Proof.
  intros c1 c2. split; [reflexivity |]. split; [by split |].
  exact (@parse_command_raw_name sample_host sample_profile
           (sample_values, [], sample_position) c1 c2 eq_refl
           (or_introl (conj eq_refl eq_refl))).
Defined.

Lemma parse_command_other_witness :
  let command := mkCommand "G81" (params [("Z", (-5)%Q); ("R", 2%Q)]) in
  (normalize_name (Name command) ∉ handled_names)
  /\ @parse_command sample_host sample_profile
       (sample_values, ["L Z+6"], sample_position) command
     = Ok (sample_values, ["L Z+6"], sample_position).
Proof.
  intros command.
  assert (normalize_name (Name command) ∉ handled_names) as Hother
    by (apply (bool_decide_unpack _); vm_compute; exact I).
  split; [exact Hother |].
  exact (proj1 (@parse_command_other sample_host sample_profile sample_values
                  ["L Z+6"] sample_position command) Hother).
Defined.

Lemma export_line_number_witness :
  exists out gcode,
    @export sample_host sample_values [sample_tool; sample_profile] "-"
    = Ok out
    /\ finalized out = Some gcode
    /\ OUTPUT_LINE_NUMBERS sample_values = true
    /\ LINE_NUMBER_ON_COMMENTS sample_values = true
    /\ line_number (values_after out)
       = (line_number sample_values
          + LINE_INCREMENT sample_values * Z.of_nat (length gcode))%Z.
Proof.
  eexists _, _. split; [vm_compute; reflexivity |].
  split; [reflexivity |]. split; [reflexivity |]. split; [reflexivity |].
  eapply (proj2 (proj2 (@export_line_number sample_host sample_values
                          [sample_tool; sample_profile] "-" _ _ _ _)));
    reflexivity.
  Unshelve. all: vm_compute; reflexivity.
Defined.

Lemma export_spindle_state_witness :
  exists out,
    @export sample_host sample_values [sample_tool; sample_profile] "-"
    = Ok out
    /\ (spindle_state (values_after out) = spindle_state sample_values
        \/ spindle_state (values_after out) = "None").
Proof.
  eexists. split; [vm_compute; reflexivity |].
  eapply (@export_spindle_state sample_host sample_values
            [sample_tool; sample_profile] "-").
  vm_compute. reflexivity.
Defined.

Lemma format_negative_zero_witness :
  (Qnum ((-1) # 10000) < 0)%Z
  /\ (2 * (Z.abs (Qnum ((-1) # 10000)) * 10 ^ Z.of_nat 3) < Z.pos 10000)%Z
  /\ format_parameter sample_values (format_f true 3 ((-1) # 10000)) = "-0".
Proof.
  assert (Qnum ((-1) # 10000) < 0)%Z as Hneg by reflexivity.
  assert (2 * (Z.abs (Qnum ((-1) # 10000)) * 10 ^ Z.of_nat 3)
          < Z.pos (Qden ((-1) # 10000)))%Z as Hsmall by reflexivity.
  split; [exact Hneg |]. split; [exact Hsmall |].
  exact (@format_negative_zero sample_values true 3
           ((-1) # 10000) Hneg Hsmall).
Defined.

Lemma output_arc_shape_witness :
  exists gcode' current_parameters' command',
    @output_arc sample_host sample_values ["L X+10 Y+0,1"] sample_arc
      sample_position
    = Ok (gcode', current_parameters', command')
    /\ exists point,
        gcode' = ["L X+10 Y+0,1"] ++ ["C" +:+ point]
        \/ exists center,
            gcode' = ["L X+10 Y+0,1"] ++ ["CC " +:+ center; "C" +:+ point].
Proof.
  eexists _, _, _. split; [vm_compute; reflexivity |].
  eapply (@output_arc_shape sample_host sample_values ["L X+10 Y+0,1"]
            sample_arc sample_position).
  vm_compute. reflexivity.
Defined.

Lemma parse_a_path_motion_mode_witness :
  exists values' gcode',
    contains "Fixture" (obj_Name sample_incremental) = false
    /\ @parse_a_path sample_host sample_values [] sample_incremental
       = Ok (values', gcode')
    /\ MOTION_MODE sample_values = "G90"
    /\ MOTION_MODE values' = "G91".
Proof.
  eexists _, _. split; [reflexivity |].
  split; [vm_compute; reflexivity |]. split; [reflexivity |].
  eapply (@parse_a_path_motion_mode sample_host sample_values []
            sample_incremental _ _ _ eq_refl eq_refl).
  vm_compute. reflexivity.
Defined.

Lemma add_linenumbers_comments_witness :
  let values := comments_unnumbered sample_values in
  LINE_NUMBER_ON_COMMENTS values = false
  /\ (add_linenumbers values ["; (Begin preamble)"; "M30"]).2 !! 0
     = Some "; (Begin preamble)".
Proof.
  intros values. split; [reflexivity |].
  exact (proj1 (@add_linenumbers_comments values
                  ["; (Begin preamble)"; "M30"] eq_refl)
           0 "Begin preamble" eq_refl).
Defined.

Lemma output_arc_Z_witness :
  exists gcode' current_parameters' command',
    MOTION_MODE sample_values <> "G91"
    /\ Parameters sample_helix !! "Z" = Some (VNum 3)
    /\ @output_arc sample_host sample_values [] sample_helix sample_position
       = Ok (gcode', current_parameters', command')
    /\ current_parameters' !! "Z" = Some (VNum 3)
    /\ exists current_parameters'' command'',
        @output_arc sample_host sample_values [] sample_arc sample_position
        = Ok (gcode', current_parameters'', command'').
Proof.
  assert (MOTION_MODE sample_values <> "G91") as Hmode by discriminate.
  eexists _, _, _. split; [exact Hmode |]. split; [reflexivity |].
  split; [vm_compute; reflexivity |].
  destruct (@output_arc_Z sample_host sample_values [] sample_helix
              sample_position (VNum 3) _ _ _ Hmode eq_refl
              ltac:(vm_compute; reflexivity))
    as (Hz & (cur'' & command'' & Harc) & _).
  split; [exact Hz |].
  exists cur'', command''. rewrite <- Harc. vm_compute. reflexivity.
Defined.

Lemma export_M_parameter_witness :
  "M" ∈ PARAMETER_ORDER sample_values
  /\ forallb has_Path [sample_tool; sample_faulty] = true
  /\ sample_faulty ∈ [sample_tool; sample_faulty]
  /\ sample_line_M ∈ [mkCommand "G0" (params [("Z", 6%Q)]); sample_line_M]
  /\ is_Some (Parameters sample_line_M !! "M")
  /\ exists e,
      @export sample_host sample_values [sample_tool; sample_faulty] "-"
      = Raise e.
Proof.
  assert ("M" ∈ PARAMETER_ORDER sample_values) as HM
    by (apply (bool_decide_unpack _); vm_compute; exact I).
  assert (sample_faulty ∈ [sample_tool; sample_faulty]) as Hobj
    by (apply list_elem_of_further, list_elem_of_here).
  assert (sample_line_M
          ∈ [mkCommand "G0" (params [("Z", 6%Q)]); sample_line_M]) as Hcmd
    by (apply list_elem_of_further, list_elem_of_here).
  assert (is_Some (Parameters sample_line_M !! "M")) as Hparam
    by (exists (VNum 3); reflexivity).
  split; [exact HM |]. split; [reflexivity |]. split; [exact Hobj |].
  split; [exact Hcmd |]. split; [exact Hparam |].
  exact (@export_M_parameter sample_host sample_values
           [sample_tool; sample_faulty] "-" sample_faulty _ sample_line_M
           HM eq_refl Hobj eq_refl eq_refl eq_refl eq_refl Hcmd
           (or_intror eq_refl) Hparam).
Defined.


Lemma output_line_repeat_witness :
  MOTION_MODE sample_values <> "G91"
  /\ NoDup (PARAMETER_ORDER sample_values)
  /\ Parameters sample_line !! "M" = None
  /\ numeric_moves (Parameters sample_line)
  /\ tracking initial_parameters
  /\ exists gcode' current_parameters' command',
      @output_line sample_host sample_values [] sample_line
        initial_parameters
      = Ok (gcode', current_parameters', command')
      /\ @output_line sample_host sample_values gcode' sample_line
           current_parameters'
         = Ok (gcode', current_parameters', command').
Proof.
  assert (MOTION_MODE sample_values <> "G91") as Hmode by discriminate.
  assert (NoDup (PARAMETER_ORDER sample_values)) as Hdup
    by (apply (bool_decide_unpack _); vm_compute; exact I).
  assert (Parameters sample_line !! "M" = None) as HM by reflexivity.
  pose proof (numeric_moves_params
                [("X", 10%Q); ("Y", 1 # 10); ("F", 5%Q)]) as Hnum.
  pose proof tracking_initial_parameters as Hcur.
  repeat (split; [assumption |]).
  exact (@output_line_repeat sample_host sample_values [] sample_line
           initial_parameters Hmode Hdup HM Hnum Hcur).
Defined.

